(** * ReconAI: scan orchestration, port scanning, persistence and analysis

    A shallow embedding of the Python sources
      - modules/network_intel.py  (NetworkIntelligence)
      - modules/database.py       (Database)
      - modules/llm_analyzer.py   (LLMAnalyzer)
      - app.py and app_v2.py      (the endpoints)
      - the computations on the target's text and on lookup answers in
        modules/threat_intel.py, social_intel.py, person_intel.py,
        web_intel.py and domain_intel.py
    and the properties of the orchestration engine proved over it.

    Python code is effectful and fallible.  It is embedded in a state and
    exception monad [M]: a computation takes the current [World] and yields
    either a value or a raised exception, together with the new [World]
    (effects performed before an exception is raised persist, as in Python).
    Everything the program does not control (name resolution, sockets, the
    opaque intelligence modules, the analysis provider, the JSON codec, the
    clock, the UUID generator and the order in which concurrent probes
    complete) is read from an environment [Env] of oracles, over which all
    theorems quantify. *)

From stdpp Require Import base option list strings gmap sorting pretty.
From Stdlib Require Import ZArith.
From Stdlib Require Floats.PrimFloat Numbers.Cyclic.Int63.Uint63.

Local Open Scope Z_scope.
Local Open Scope string_scope.

(** ** Python exceptions

    An exception raised by the program or one of its collaborators: its class
    name and what [str(e)] returns.  All modelled exceptions derive from
    [Exception]; the interpreter's exit signals (KeyboardInterrupt, SystemExit,
    task cancellation) are not failures of the program or of a collaborator
    and are outside the model.  On the modelled exceptions [except Exception]
    and a bare [except:] catch the same things; the two handlers are still
    kept apart below, as in the source. *)

Record pyexn := PyExn { exn_class : string; exn_str : string }.

(** [fastapi.HTTPException(status_code, detail)], what an endpoint raises to
    its caller. *)
Record HTTPException := MkHTTPException { status_code : Z; detail : string }.

Inductive Res (E A : Type) : Type :=
| Ok (a : A)
| Raise (e : E).
Arguments Ok {E A} a.
Arguments Raise {E A} e.

(** ** Data

    Python [str] is modelled by [string], one character per code point below
    256. *)

(** A value produced by [json.loads]. *)
#[warnings="-register-all"]
Inductive jsonv :=
| JNull
| JBool (b : bool)
| JInt (n : Z)
| JStr (s : string)
| JArr (l : list jsonv)
| JObj (l : list (string * jsonv)).

(** The dictionary returned by [NetworkIntelligence.scan].  The keys
    "ip_address" and "error" are absent until assigned. *)
Record network_results := MkNetworkResults {
  nr_target : string;
  nr_timestamp : string;
  nr_open_ports : list Z;
  nr_closed_ports : list Z;
  nr_services : gmap Z string;
  nr_banners : gmap Z string;
  nr_ip_address : option string;
  nr_error : option string
}.

(** What a module's [scan] returns.  The payloads of the domain, web, social,
    threat and person modules are opaque to the orchestration; the network
    module's is the record above. *)
Inductive payload :=
| OpaquePayload (blob : string)
| NetworkPayload (r : network_results).

(** An insertion-ordered Python [dict] with string keys, as an association
    list: [d[k] = v] replaces the value in place when [k] is present and
    appends the pair otherwise. *)
Fixpoint dict_set {V} (d : list (string * V)) (k : string) (v : V) : list (string * V) :=
  match d with
  | [] => [(k, v)]
  | (k', v') :: d' => if String.eqb k' k then (k, v) :: d' else (k', v') :: dict_set d' k v
  end.

Fixpoint dict_get {V} (d : list (string * V)) (k : string) : option V :=
  match d with
  | [] => None
  | (k', v') :: d' => if String.eqb k' k then Some v' else dict_get d' k
  end.

Definition dict_keys {V} (d : list (string * V)) : list string := fst <$> d.

(** [x in xs] for a list of strings. *)
Definition str_in (x : string) (xs : list string) : bool := existsb (String.eqb x) xs.

(** The dictionary returned by [LLMAnalyzer.analyze]; "error" is absent until
    assigned. *)
Record analysis := MkAnalysis {
  an_target : string;
  an_timestamp : string;
  an_summary : string;
  an_risk_score : Z;
  an_attack_surface : jsonv;
  an_vulnerabilities : jsonv;
  an_recommendations : jsonv;
  an_correlations : jsonv;
  an_error : option string
}.

(** A row of the [scans] table (the primary key [scan_id] is the key of the
    table map).  [completed_at], [results] and [analysis] are nullable. *)
Record scan_row := MkScanRow {
  row_target : string;
  row_scan_type : string;
  row_status : string;
  row_created_at : string;
  row_completed_at : option string;
  row_results : option string;
  row_analysis : option string
}.

(** The kinds of request [LLMAnalyzer] sends to its provider. *)
Inductive request_kind :=
| ReqSummary | ReqRiskScore | ReqAttackSurface
| ReqVulnerabilities | ReqRecommendations | ReqCorrelations.

(** ** The world *)

Inductive event :=
| EvResolve (target : string)
| EvConnect (host : string) (port : Z)
| EvRead (host : string) (port : Z)
| EvClose (host : string) (port : Z)
| EvWaitClosed (host : string) (port : Z)
| EvModule (name target : string)
| EvProvider (request : request_kind)
| EvInsert (scan_id status : string)
| EvUpdate (scan_id status : string).

(** [w_scans] is the [scans] table of the database file, keyed by its primary
    key; [w_conn] tells whether [Database.conn] holds a connection ([false]:
    it is still [None], [initialize] has not run); [w_clock] and [w_uuids]
    count the readings of the clock and of the UUID generator; [w_log] is
    the trace of the calls made to the outside. *)
Record World := MkWorld {
  w_scans : gmap string scan_row;
  w_conn : bool;
  w_clock : nat;
  w_uuids : nat;
  w_log : list event
}.

Record Env := MkEnv {
  (* socket.gethostbyname *)
  env_gethostbyname : string -> Res pyexn string;
  (* asyncio.wait_for(asyncio.open_connection(host, port), timeout) *)
  env_open_connection : string -> Z -> Res pyexn unit;
  (* asyncio.wait_for(reader.read(1024), 1), decoded with errors='ignore' *)
  env_read_banner : string -> Z -> Res pyexn string;
  (* writer.close() and writer.wait_closed() *)
  env_writer_close : string -> Z -> Res pyexn unit;
  env_wait_closed : string -> Z -> Res pyexn unit;
  (* the order in which the event loop completes gathered tasks *)
  env_schedule : list nat;
  (* the scan methods of the opaque modules *)
  env_domain_scan : string -> Res pyexn string;
  env_web_scan : string -> Res pyexn string;
  env_social_scan : string -> Res pyexn string;
  env_threat_scan : string -> Res pyexn string;
  env_person_scan : string -> option string -> option string -> Res pyexn string;
  (* the lines _prepare_intelligence_data derives from a module's payload *)
  env_describe : string -> payload -> list string;
  (* client.chat.completions.create(...).choices[0].message.content, for the
     prompt of the given kind filled with the given values *)
  env_chat : request_kind -> list string -> Res pyexn string;
  (* int(text), json.loads(text), json.dumps(value) *)
  env_int : string -> Res pyexn Z;
  env_json_loads : string -> Res pyexn jsonv;
  env_dumps_results : list (string * payload) -> Res pyexn string;
  env_dumps_analysis : analysis -> Res pyexn string;
  (* datetime.utcnow().isoformat() and str(uuid.uuid4()) *)
  env_utcnow : nat -> string;
  env_uuid4 : nat -> string
}.

(** ** The monad *)

Definition M (A : Type) : Type := World -> Res pyexn A * World.

Definition ret {A} (a : A) : M A := fun w => (Ok a, w).

Definition raise {A} (e : pyexn) : M A := fun w => (Raise e, w).

Definition bind {A B} (m : M A) (k : A -> M B) : M B :=
  fun w => match m w with
           | (Ok a, w') => k a w'
           | (Raise e, w') => (Raise e, w')
           end.

Notation "x <- m ;; k" := (bind m (fun x => k))
  (at level 100, m at next level, right associativity).
Notation "m ;;; k" := (bind m (fun _ => k))
  (at level 100, right associativity).

(** [try: body  except Exception as e: handler(e)] *)
Definition try_except_Exception {A} (body : M A) (handler : pyexn -> M A) : M A :=
  fun w => match body w with
           | (Ok a, w') => (Ok a, w')
           | (Raise e, w') => handler e w'
           end.

(** [try: body  except: handler] *)
Definition try_except {A} (body : M A) (handler : M A) : M A :=
  fun w => match body w with
           | (Ok a, w') => (Ok a, w')
           | (Raise _, w') => handler w'
           end.

Definition emit (ev : event) : M unit :=
  fun w => (Ok tt, MkWorld (w_scans w) (w_conn w) (w_clock w) (w_uuids w) (w_log w ++ [ev])).

(** The outcome of a call to the outside: it returns or raises. *)
Definition lift {A} (r : Res pyexn A) : M A := fun w => (r, w).

(** The same, with the call recorded in the trace. *)
Definition call {A} (ev : event) (r : Res pyexn A) : M A :=
  emit ev ;;; lift r.

Definition utcnow (env : Env) : M string :=
  fun w => (Ok (env_utcnow env (w_clock w)),
            MkWorld (w_scans w) (w_conn w) (S (w_clock w)) (w_uuids w) (w_log w)).

Definition uuid4 (env : Env) : M string :=
  fun w => (Ok (env_uuid4 env (w_uuids w)),
            MkWorld (w_scans w) (w_conn w) (w_clock w) (S (w_uuids w)) (w_log w)).

(** ** modules/network_intel.py *)

(** [str.isspace] on one character (code points below 256). *)
Definition isspace (c : Ascii.ascii) : bool :=
  let n := Z.of_nat (Ascii.nat_of_ascii c) in
  (Z.leb 9 n && Z.leb n 13) || (Z.leb 28 n && Z.leb n 32) || Z.eqb n 133 || Z.eqb n 160.

Fixpoint lstrip (s : string) : string :=
  match s with
  | String c s' => if isspace c then lstrip s' else s
  | EmptyString => EmptyString
  end.

Fixpoint rstrip (s : string) : string :=
  match s with
  | String c s' =>
      match rstrip s' with
      | EmptyString => if isspace c then EmptyString else String c EmptyString
      | t => String c t
      end
  | EmptyString => EmptyString
  end.

(** [s.strip()] *)
Definition strip (s : string) : string := rstrip (lstrip s).

Module NetworkIntelligence.

(** [self.common_ports] *)
Definition common_ports : list Z :=
  [21; 22; 23; 25; 53; 80; 110; 143; 443; 465; 587; 993; 995;
   3306; 3389; 5432; 5900; 8080; 8443; 27017].

(** The [services] table of [_identify_service]. *)
Definition services : gmap Z string :=
  list_to_map
    [(21, "FTP"); (22, "SSH"); (23, "Telnet"); (25, "SMTP"); (53, "DNS");
     (80, "HTTP"); (110, "POP3"); (143, "IMAP"); (443, "HTTPS");
     (465, "SMTPS"); (587, "SMTP (Submission)"); (993, "IMAPS");
     (995, "POP3S"); (3306, "MySQL"); (3389, "RDP"); (5432, "PostgreSQL");
     (5900, "VNC"); (8080, "HTTP-Proxy"); (8443, "HTTPS-Alt");
     (27017, "MongoDB")].

(** [services.get(port, "Unknown")] *)
Definition _identify_service (port : Z) : string :=
  default "Unknown" (services !! port).

(** One probe.  The inner bare handler leaves [banner] at [None]; the outer
    bare handler covers everything from the connection attempt to the end
    of the close handshake. *)
Definition _scan_port (env : Env) (host : string) (port : Z)
  : M (Z * bool * option string) :=
  try_except
    (call (EvConnect host port) (env_open_connection env host port) ;;;
     banner <- try_except
                 (banner_data <- call (EvRead host port) (env_read_banner env host port) ;;
                  ret (Some (strip banner_data)))
                 (ret None) ;;
     call (EvClose host port) (env_writer_close env host port) ;;;
     call (EvWaitClosed host port) (env_wait_closed env host port) ;;;
     ret (port, true, banner))
    (ret (port, false, None)).

(** [asyncio.gather] over the probe tasks.  The event loop runs every task
    to completion, in an order of its own choosing: the schedule first
    (entries that name no task, or a task already completed, are passed
    over), then whatever has not completed yet.  Each result is stored in
    the slot of its task, so the returned list is in task order whatever
    the completion order.  An exception raised by a task is raised by
    [gather]. *)
Definition completion_order (schedule : list nat) (n : nat) : list nat :=
  (schedule ++ seq 0 n)%list.

Fixpoint run_tasks {A} (order : list nat) (tasks : list (M A))
    (slots : list (option A)) : M (list (option A)) :=
  match order with
  | [] => ret slots
  | i :: order' =>
      match tasks !! i, slots !! i with
      | Some t, Some None =>
          r <- t ;; run_tasks order' tasks (<[i := Some r]> slots)
      | _, _ => run_tasks order' tasks slots
      end
  end.

Definition gather {A} (env : Env) (tasks : list (M A)) : M (list A) :=
  slots <- run_tasks (completion_order (env_schedule env) (length tasks))
                     tasks (replicate (length tasks) None) ;;
  ret (omap id slots).

(** [if banner:] *)
Definition truthy (banner : option string) : bool :=
  match banner with
  | Some (String _ _) => true
  | _ => false
  end.

(** The body of the loop [for port, is_open, banner in port_results]. *)
Definition classify (results : network_results) (pr : Z * bool * option string)
  : network_results :=
  let '(port, is_open, banner) := pr in
  if is_open then
    let service := _identify_service port in
    MkNetworkResults (nr_target results) (nr_timestamp results)
      (nr_open_ports results ++ [port])
      (nr_closed_ports results)
      (<[port := service]> (nr_services results))
      (if truthy banner
       then <[port := default "" banner]> (nr_banners results)
       else nr_banners results)
      (nr_ip_address results) (nr_error results)
  else
    MkNetworkResults (nr_target results) (nr_timestamp results)
      (nr_open_ports results)
      (nr_closed_ports results ++ [port])
      (nr_services results) (nr_banners results)
      (nr_ip_address results) (nr_error results).

(** [results["ip_address"] = ip_address] and [results["error"] = message] *)
Definition set_ip_address (results : network_results) (ip_address : string)
  : network_results :=
  MkNetworkResults (nr_target results) (nr_timestamp results)
    (nr_open_ports results) (nr_closed_ports results)
    (nr_services results) (nr_banners results)
    (Some ip_address) (nr_error results).

Definition set_error (results : network_results) (message : string)
  : network_results :=
  MkNetworkResults (nr_target results) (nr_timestamp results)
    (nr_open_ports results) (nr_closed_ports results)
    (nr_services results) (nr_banners results)
    (nr_ip_address results) (Some message).

Definition scan (env : Env) (target : string) : M network_results :=
  timestamp <- utcnow env ;;
  let results := MkNetworkResults target timestamp [] [] ∅ ∅ None None in
  resolved <- try_except_Exception
                (ip_address <- call (EvResolve target) (env_gethostbyname env target) ;;
                 ret (inl ip_address))
                (fun e => ret (inr ("Could not resolve hostname: " ++ exn_str e))) ;;
  match resolved with
  | inr message => ret (set_error results message)
  | inl ip_address =>
      let results := set_ip_address results ip_address in
      port_results <- gather env (_scan_port env ip_address <$> common_ports) ;;
      ret (foldl classify results port_results)
  end.

End NetworkIntelligence.

(** ** modules/database.py *)

Module Database.

(** The methods the class defines. *)
Inductive method :=
| Initialize | CreateScan | SaveResults | GetScan
| GetRecentScans | GetStatistics | Close.

Definition methods : list (string * method) :=
  [("initialize", Initialize); ("create_scan", CreateScan);
   ("save_results", SaveResults); ("get_scan", GetScan);
   ("get_recent_scans", GetRecentScans); ("get_statistics", GetStatistics);
   ("close", Close)].

(** [db.<name>]: attribute lookup on a [Database] instance. *)
Definition getattr (name : string) : M method :=
  match dict_get methods name with
  | Some m => ret m
  | None => raise (PyExn "AttributeError"
                     ("'Database' object has no attribute '" ++ name ++ "'"))
  end.

(** [sqlite3.connect] and [CREATE TABLE IF NOT EXISTS]: the tables of the
    file are kept. *)
Definition initialize : M unit :=
  fun w => (Ok tt, MkWorld (w_scans w) true (w_clock w) (w_uuids w) (w_log w)).

(** [self.conn.cursor()] *)
Definition cursor : M unit :=
  fun w => if w_conn w then (Ok tt, w)
           else (Raise (PyExn "AttributeError"
                          "'NoneType' object has no attribute 'cursor'"), w).

(** [INSERT INTO scans (scan_id, target, scan_type, status, created_at)]:
    the other columns are NULL; the primary key must be fresh. *)
Definition insert_scan (scan_id target scan_type status created_at : string) : M unit :=
  fun w => match w_scans w !! scan_id with
           | Some _ => (Raise (PyExn "IntegrityError"
                                 "UNIQUE constraint failed: scans.scan_id"), w)
           | None =>
               emit (EvInsert scan_id status)
                 (MkWorld (<[scan_id := MkScanRow target scan_type status created_at
                                          None None None]> (w_scans w))
                          (w_conn w) (w_clock w) (w_uuids w) (w_log w))
           end.

(** [UPDATE scans SET status, completed_at, results, analysis WHERE scan_id]:
    the matching row, if any, is rewritten. *)
Definition update_scan_row (status completed_at results analysis : string)
    (row : scan_row) : scan_row :=
  MkScanRow (row_target row) (row_scan_type row) status (row_created_at row)
    (Some completed_at) (Some results) (Some analysis).

Definition update_scans (scan_id status completed_at results analysis : string) : M unit :=
  fun w => emit (EvUpdate scan_id status)
             (MkWorld (alter (update_scan_row status completed_at results analysis)
                         scan_id (w_scans w))
                      (w_conn w) (w_clock w) (w_uuids w) (w_log w)).

Definition create_scan (env : Env) (target scan_type : string) : M string :=
  scan_id <- uuid4 env ;;
  cursor ;;;
  created_at <- utcnow env ;;
  insert_scan scan_id target scan_type "running" created_at ;;;
  ret scan_id.

Definition save_results (env : Env) (scan_id : string)
    (results : list (string * payload)) (analysis : analysis) : M unit :=
  cursor ;;;
  completed_at <- utcnow env ;;
  results_json <- lift (env_dumps_results env results) ;;
  analysis_json <- lift (env_dumps_analysis env analysis) ;;
  update_scans scan_id "completed" completed_at results_json analysis_json.

(** The dictionary [get_scan] returns. *)
Record scan_record := MkScanRecord {
  rec_scan_id : string;
  rec_target : string;
  rec_scan_type : string;
  rec_status : string;
  rec_created_at : string;
  rec_completed_at : option string;
  rec_results : jsonv;
  rec_analysis : jsonv
}.

(** [json.loads(text) if text else {}] for a nullable TEXT column: NULL and
    the empty text both give the empty dictionary. *)
Definition loads_or_empty (env : Env) (column : option string) : M jsonv :=
  match column with
  | Some (String c text) => lift (env_json_loads env (String c text))
  | _ => ret (JObj [])
  end.

(** [cursor.fetchone()] after [SELECT * FROM scans WHERE scan_id = ?] *)
Definition select_scan (scan_id : string) : M (option scan_row) :=
  fun w => (Ok (w_scans w !! scan_id), w).

Definition get_scan (env : Env) (scan_id : string) : M (option scan_record) :=
  cursor ;;;
  row <- select_scan scan_id ;;
  match row with
  | Some row =>
      results <- loads_or_empty env (row_results row) ;;
      analysis <- loads_or_empty env (row_analysis row) ;;
      ret (Some (MkScanRecord scan_id (row_target row) (row_scan_type row)
                   (row_status row) (row_created_at row) (row_completed_at row)
                   results analysis))
  | None => ret None
  end.

(** The six columns [get_recent_scans] selects. *)
Record scan_summary := MkScanSummary {
  sum_scan_id : string;
  sum_target : string;
  sum_scan_type : string;
  sum_status : string;
  sum_created_at : string;
  sum_completed_at : option string
}.

Definition summary_of (entry : string * scan_row) : scan_summary :=
  MkScanSummary entry.1 (row_target entry.2) (row_scan_type entry.2)
    (row_status entry.2) (row_created_at entry.2) (row_completed_at entry.2).

(** [ORDER BY created_at DESC]: texts compare character by character, and
    the engine sorts the rows so that each is at least as recent as those
    after it (the order among rows of equal [created_at] is left open by
    the engine; a merge sort stands for it here). *)
Definition newer_first (a b : string * scan_row) : Prop :=
  String.leb (row_created_at b.2) (row_created_at a.2).

Definition order_by_created_at_desc (rows : list (string * scan_row))
  : list (string * scan_row) :=
  merge_sort newer_first rows.

(** [LIMIT ?]: a negative limit is no limit. *)
Definition sql_limit {A} (limit : Z) (rows : list A) : list A :=
  if Z.ltb limit 0 then rows else take (Z.to_nat limit) rows.

(** [cursor.execute(query, (limit,))]: the parameter is bound as an SQLite
    INTEGER, so an integer outside the signed 64-bit range is refused
    before the query runs. *)
Definition select_recent (limit : Z) : M (list (string * scan_row)) :=
  if Z.leb (- 2 ^ 63) limit && Z.ltb limit (2 ^ 63) then
    fun w => (Ok (sql_limit limit (order_by_created_at_desc (map_to_list (w_scans w)))), w)
  else
    raise (PyExn "OverflowError" "Python int too large to convert to SQLite INTEGER").

Definition get_recent_scans (limit : Z) : M (list scan_summary) :=
  cursor ;;;
  rows <- select_recent limit ;;
  ret (summary_of <$> rows).

(** The dictionary [get_statistics] returns. *)
Record statistics := MkStatistics {
  total_scans : nat;
  completed_scans : nat;
  total_findings : nat;
  last_updated : string
}.

(** [SELECT COUNT( * ) FROM scans] and [... WHERE status = 'completed'] *)
Definition count_scans : M nat := fun w => (Ok (size (w_scans w)), w).

Definition count_completed : M nat :=
  fun w => (Ok (size (filter (fun entry => row_status entry.2 = "completed")
                        (w_scans w))), w).

(** No method of the class writes the [findings] table, and the world does
    not hold it: the number of its rows is given. *)
Definition get_statistics (env : Env) (findings : nat) : M statistics :=
  cursor ;;;
  total_scans <- count_scans ;;
  completed_scans <- count_completed ;;
  total_findings <- ret findings ;;
  last_updated <- utcnow env ;;
  ret (MkStatistics total_scans completed_scans total_findings last_updated).

End Database.

(** ** modules/llm_analyzer.py *)

(** [s.startswith(p)] and [s[n:]] *)
Definition startswith (p s : string) : bool := String.prefix p s.

Fixpoint string_drop (n : nat) (s : string) : string :=
  match n, s with
  | S n', String _ s' => string_drop n' s'
  | _, _ => s
  end.

Definition fence : string := "```".

(** The text before the first fence of [s] (all of [s] if it has none). *)
Fixpoint before_fence (s : string) : string :=
  if startswith fence s then EmptyString
  else match s with
       | String c s' => String c (before_fence s')
       | EmptyString => EmptyString
       end.

(** [content.split(fence)[1]] for a [content] that starts with a fence. *)
Definition split_fence_1 (content : string) : string :=
  before_fence (string_drop 3 content).

(** "Remove markdown code blocks if present". *)
Definition remove_code_block (content : string) : string :=
  if startswith fence content then
    let content := split_fence_1 content in
    if startswith "json" content then string_drop 4 content else content
  else content.

Definition newline : string := String (Ascii.ascii_of_nat 10) EmptyString.

(** A value passed as an argument in a call. *)
Inductive pyval :=
| VStr (s : string)
| VResults (r : list (string * payload)).

(** Binding the arguments of a call to a function whose parameters are all
    positional-or-keyword and without defaults, as the interpreter does it:
    positional arguments fill the parameters from the left, then each keyword
    argument must name a parameter not yet bound, then the count of
    positional arguments and the presence of every parameter are checked.
    Any violation raises TypeError before the body runs.  [fname] is the
    name the interpreter gives the function in the message, its qualified
    name since Python 3.10; the message of an unexpected keyword is the
    interpreter's, the other messages are abbreviated (only their class is
    used). *)
Fixpoint bind_keywords (fname : string) (params : list string)
    (bound : list (string * pyval)) (kw : list (string * pyval))
  : Res pyexn (list (string * pyval)) :=
  match kw with
  | [] => Ok bound
  | (k, v) :: kw' =>
      if negb (str_in k params) then
        Raise (PyExn "TypeError"
                 (fname ++ "() got an unexpected keyword argument '" ++ k ++ "'"))
      else if str_in k (dict_keys bound) then
        Raise (PyExn "TypeError"
                 (fname ++ "() got multiple values for argument '" ++ k ++ "'"))
      else bind_keywords fname params (bound ++ [(k, v)]) kw'
  end.

Definition bind_arguments (fname : string) (params : list string)
    (pos : list pyval) (kw : list (string * pyval))
  : Res pyexn (list (string * pyval)) :=
  match bind_keywords fname params (zip params pos) kw with
  | Raise e => Raise e
  | Ok bound =>
      if (length params <? length pos)%nat then
        Raise (PyExn "TypeError" (fname ++ "() takes too many positional arguments"))
      else if forallb (fun p => str_in p (dict_keys bound)) params then Ok bound
      else Raise (PyExn "TypeError" (fname ++ "() missing required positional arguments"))
  end.

Module LLMAnalyzer.

(** The five sections of [_prepare_intelligence_data], each present when
    its key is in [results]: a header line, then the lines derived from
    the module's payload.  On the dictionaries the modules build every
    access made here is defined (each [get] has a default of the right
    kind), so the lines are a function of the payload. *)
Definition section (env : Env) (results : list (string * payload))
    (key header : string) : list string :=
  match dict_get results key with
  | Some data => header :: env_describe env key data
  | None => []
  end.

Definition _prepare_intelligence_data (env : Env)
    (results : list (string * payload)) : string :=
  let summary_parts :=
    List.concat
      [ section env results "domain" "Domain Intelligence:";
        section env results "web" (newline ++ "Web Intelligence:");
        section env results "network" (newline ++ "Network Intelligence:");
        section env results "social" (newline ++ "Social Intelligence:");
        section env results "threat" (newline ++ "Threat Intelligence:") ] in
  String.concat newline summary_parts.

(** A request to the provider. *)
Definition chat (env : Env) (kind : request_kind) (values : list string) : M string :=
  call (EvProvider kind) (env_chat env kind values).

Definition _generate_summary (env : Env) (target intelligence_data : string) : M string :=
  try_except_Exception
    (content <- chat env ReqSummary [target; intelligence_data] ;;
     ret (strip content))
    (fun e => ret ("Summary generation failed: " ++ exn_str e)).

Definition _calculate_risk_score (env : Env) (intelligence_data : string) : M Z :=
  try_except
    (content <- chat env ReqRiskScore [intelligence_data] ;;
     let score_text := strip content in
     lift (env_int env score_text))
    (ret 50).

Definition attack_surface_placeholder : jsonv :=
  JObj [("exposure_points", JArr [JStr "Unable to analyze"]);
        ("entry_vectors", JArr [JStr "Unable to analyze"]);
        ("high_value_targets", JArr [JStr "Unable to analyze"])].

Definition vulnerabilities_placeholder : jsonv :=
  JArr [JObj [("title", JStr "Analysis Error"); ("severity", JStr "Unknown");
              ("description", JStr "Unable to identify vulnerabilities")]].

Definition recommendations_placeholder : jsonv :=
  JArr [JStr "Unable to generate recommendations"].

Definition correlations_placeholder : jsonv :=
  JArr [JObj [("finding", JStr "Analysis incomplete");
              ("significance", JStr "Unable to correlate data")]].

(** The shared body of the four helpers that expect JSON. *)
Definition json_request (env : Env) (kind : request_kind) (values : list string)
    (placeholder : jsonv) : M jsonv :=
  try_except
    (content <- chat env kind values ;;
     let content := strip content in
     let content := remove_code_block content in
     lift (env_json_loads env content))
    (ret placeholder).

Definition _analyze_attack_surface (env : Env) (intelligence_data : string) : M jsonv :=
  json_request env ReqAttackSurface [intelligence_data] attack_surface_placeholder.

Definition _identify_vulnerabilities (env : Env) (intelligence_data : string) : M jsonv :=
  json_request env ReqVulnerabilities [intelligence_data] vulnerabilities_placeholder.

Definition _generate_recommendations (env : Env) (target intelligence_data : string)
  : M jsonv :=
  json_request env ReqRecommendations [target; intelligence_data]
    recommendations_placeholder.

Definition _find_correlations (env : Env) (intelligence_data : string) : M jsonv :=
  json_request env ReqCorrelations [intelligence_data] correlations_placeholder.

(** Assignments to the keys of the [analysis] dictionary. *)
Definition set_summary (v : string) (a : analysis) : analysis :=
  MkAnalysis (an_target a) (an_timestamp a) v (an_risk_score a)
    (an_attack_surface a) (an_vulnerabilities a) (an_recommendations a)
    (an_correlations a) (an_error a).

Definition set_risk_score (v : Z) (a : analysis) : analysis :=
  MkAnalysis (an_target a) (an_timestamp a) (an_summary a) v
    (an_attack_surface a) (an_vulnerabilities a) (an_recommendations a)
    (an_correlations a) (an_error a).

Definition set_attack_surface (v : jsonv) (a : analysis) : analysis :=
  MkAnalysis (an_target a) (an_timestamp a) (an_summary a) (an_risk_score a)
    v (an_vulnerabilities a) (an_recommendations a)
    (an_correlations a) (an_error a).

Definition set_vulnerabilities (v : jsonv) (a : analysis) : analysis :=
  MkAnalysis (an_target a) (an_timestamp a) (an_summary a) (an_risk_score a)
    (an_attack_surface a) v (an_recommendations a)
    (an_correlations a) (an_error a).

Definition set_recommendations (v : jsonv) (a : analysis) : analysis :=
  MkAnalysis (an_target a) (an_timestamp a) (an_summary a) (an_risk_score a)
    (an_attack_surface a) (an_vulnerabilities a) v
    (an_correlations a) (an_error a).

Definition set_correlations (v : jsonv) (a : analysis) : analysis :=
  MkAnalysis (an_target a) (an_timestamp a) (an_summary a) (an_risk_score a)
    (an_attack_surface a) (an_vulnerabilities a) (an_recommendations a)
    v (an_error a).

Definition set_error (v : string) (a : analysis) : analysis :=
  MkAnalysis (an_target a) (an_timestamp a) (an_summary a) (an_risk_score a)
    (an_attack_surface a) (an_vulnerabilities a) (an_recommendations a)
    (an_correlations a) (Some v).

(** The [try] block of [analyze]: the assignments run one after another on
    the same dictionary; when one raises, the assignments already made stay
    and the handler records the failure under "error". *)
Fixpoint try_assign (steps : list (M (analysis -> analysis))) (a : analysis)
  : M analysis :=
  match steps with
  | [] => ret a
  | step :: steps' =>
      fun w => match step w with
               | (Ok assign, w') => try_assign steps' (assign a) w'
               | (Raise e, w') =>
                   (Ok (set_error ("LLM analysis failed: " ++ exn_str e) a), w')
               end
  end.

Definition analyze (env : Env) (target : string)
    (results : list (string * payload)) : M analysis :=
  timestamp <- utcnow env ;;
  let analysis :=
    MkAnalysis target timestamp "" 0 (JObj []) (JArr []) (JArr []) (JArr []) None in
  let intelligence_data := _prepare_intelligence_data env results in
  try_assign
    [ (v <- _generate_summary env target intelligence_data ;; ret (set_summary v));
      (v <- _calculate_risk_score env intelligence_data ;; ret (set_risk_score v));
      (v <- _analyze_attack_surface env intelligence_data ;; ret (set_attack_surface v));
      (v <- _identify_vulnerabilities env intelligence_data ;; ret (set_vulnerabilities v));
      (v <- _generate_recommendations env target intelligence_data ;;
       ret (set_recommendations v));
      (v <- _find_correlations env intelligence_data ;; ret (set_correlations v)) ]
    analysis.

(** The parameters of [analyze] after [self]. *)
Definition parameters : list string := ["target"; "results"].

(** A call [llm_analyzer.analyze(...)]: the arguments are bound first; the
    body runs with [target] a string and [results] a dictionary of module
    results, as the annotations say (no call site passes both parameters
    with other values). *)
Definition call_analyze (env : Env) (pos : list pyval) (kw : list (string * pyval))
  : M analysis :=
  bound <- lift (bind_arguments "LLMAnalyzer.analyze" parameters pos kw) ;;
  match dict_get bound "target", dict_get bound "results" with
  | Some (VStr target), Some (VResults results) => analyze env target results
  | _, _ => raise (PyExn "TypeError" "analyze() argument of the wrong type")
  end.

End LLMAnalyzer.

(** ** app.py and app_v2.py *)

(** What an endpoint does: it returns a response or raises an
    [HTTPException] to its caller. *)
Definition endpoint (A : Type) : Type := World -> Res HTTPException A * World.

(** [try: body  except Exception as e: raise HTTPException(status_code=500,
    detail=str(e))], the only handler of both [start_scan] endpoints. *)
Definition or_500 {A} (body : M A) : endpoint A :=
  fun w => match body w with
           | (Ok a, w') => (Ok a, w')
           | (Raise e, w') => (Raise (MkHTTPException 500 (exn_str e)), w')
           end.

(** The module instances shared by both entry points. *)
Definition domain_intel_scan (env : Env) (target : string) : M payload :=
  blob <- call (EvModule "domain" target) (env_domain_scan env target) ;;
  ret (OpaquePayload blob).

Definition web_intel_scan (env : Env) (target : string) : M payload :=
  blob <- call (EvModule "web" target) (env_web_scan env target) ;;
  ret (OpaquePayload blob).

Definition network_intel_scan (env : Env) (target : string) : M payload :=
  r <- NetworkIntelligence.scan env target ;;
  ret (NetworkPayload r).

Definition social_intel_scan (env : Env) (target : string) : M payload :=
  blob <- call (EvModule "social" target) (env_social_scan env target) ;;
  ret (OpaquePayload blob).

Definition threat_intel_scan (env : Env) (target : string) : M payload :=
  blob <- call (EvModule "threat" target) (env_threat_scan env target) ;;
  ret (OpaquePayload blob).

Definition person_intel_scan (env : Env) (target : string) (state dob : option string)
  : M payload :=
  blob <- call (EvModule "person" target) (env_person_scan env target state dob) ;;
  ret (OpaquePayload blob).

(** [if name in modules: results[name] = await module.scan(target)] *)
Definition run_if_selected (name : string) (modules : list string)
    (module_scan : M payload) (results : list (string * payload))
  : M (list (string * payload)) :=
  if str_in name modules then
    r <- module_scan ;; ret (dict_set results name r)
  else ret results.

(** "Execute selected modules": the five conditional statements, in the
    order of the source (the same text in both entry points). *)
Definition execute_selected_modules (env : Env) (target : string)
    (modules : list string) : M (list (string * payload)) :=
  let results := [] in
  results <- run_if_selected "domain" modules (domain_intel_scan env target) results ;;
  results <- run_if_selected "web" modules (web_intel_scan env target) results ;;
  results <- run_if_selected "network" modules (network_intel_scan env target) results ;;
  results <- run_if_selected "social" modules (social_intel_scan env target) results ;;
  results <- run_if_selected "threat" modules (threat_intel_scan env target) results ;;
  ret results.

(** What an endpoint without a handler of its own does: an exception of
    its body leaves it as it is, unhandled. *)
Inductive failure :=
| Http (e : HTTPException)
| Unhandled (e : pyexn).

Definition handler (A : Type) : Type := World -> Res failure A * World.

Definition unhandled {A} (body : M A) : handler A :=
  fun w => match body w with
           | (Ok a, w') => (Ok a, w')
           | (Raise e, w') => (Raise (Unhandled e), w')
           end.

Definition handler_bind {A B} (m : handler A) (k : A -> handler B) : handler B :=
  fun w => match m w with
           | (Ok a, w') => k a w'
           | (Raise e, w') => (Raise e, w')
           end.

Definition http_error {A} (status_code : Z) (detail : string) : handler A :=
  fun w => (Raise (Http (MkHTTPException status_code detail)), w).

Module App.

Record ReconRequest := MkReconRequest {
  target : string;
  scan_type : string;
  modules : list string
}.

Record ReconResponse := MkReconResponse {
  resp_scan_id : string;
  resp_target : string;
  resp_status : string;
  resp_results : list (string * payload);
  resp_analysis : analysis;
  resp_timestamp : string
}.

Definition start_scan (env : Env) (recon_request : ReconRequest)
  : endpoint ReconResponse :=
  or_500
    (scan_id <- Database.create_scan env (target recon_request)
                  (scan_type recon_request) ;;
     results <- execute_selected_modules env (target recon_request)
                  (modules recon_request) ;;
     analysis <- LLMAnalyzer.call_analyze env
                   [VStr (target recon_request); VResults results] [] ;;
     Database.save_results env scan_id results analysis ;;;
     timestamp <- utcnow env ;;
     ret (MkReconResponse scan_id (target recon_request) "completed"
            results analysis timestamp)).

(** [GET /api/scans] *)
Definition list_scans (limit : Z) : handler (list Database.scan_summary) :=
  unhandled (Database.get_recent_scans limit).

(** [GET /api/scan/{scan_id}] *)
Definition get_scan (env : Env) (scan_id : string) : handler Database.scan_record :=
  handler_bind (unhandled (Database.get_scan env scan_id)) (fun scan =>
  match scan with
  | None => http_error 404 "Scan not found"
  | Some scan => fun w => (Ok scan, w)
  end).

(** [GET /api/export/{scan_id}] *)
Definition export_scan (env : Env) (scan_id format : string)
  : handler Database.scan_record :=
  handler_bind (unhandled (Database.get_scan env scan_id)) (fun scan =>
  match scan with
  | None => http_error 404 "Scan not found"
  | Some scan =>
      if String.eqb format "json" then fun w => (Ok scan, w)
      else if String.eqb format "csv" then
        http_error 501 "CSV export not yet implemented"
      else http_error 400 "Unsupported format"
  end).

(** [GET /api/stats] *)
Definition get_stats (env : Env) (findings : nat) : handler Database.statistics :=
  unhandled (Database.get_statistics env findings).

End App.

Module AppV2.

Record ReconRequest := MkReconRequest {
  target : string;
  scan_type : string;
  target_type : string;
  modules : list string;
  state : option string;
  dob : option string
}.

Record ReconResponse := MkReconResponse {
  resp_scan_id : string;
  resp_target : string;
  resp_target_type : string;
  resp_status : string;
  resp_results : list (string * payload);
  resp_analysis : analysis;
  resp_timestamp : string
}.

(** [db.update_scan(scan_id, "completed", results, analysis)]: the
    attribute is looked up, then called with four arguments.  No method of
    [Database] takes four arguments. *)
Definition db_update_scan : M unit :=
  _ <- Database.getattr "update_scan" ;;
  raise (PyExn "TypeError" "update_scan() takes too many positional arguments").

(** The progress messages the endpoint prints are left out. *)
Definition start_scan (env : Env) (recon_request : ReconRequest)
  : endpoint ReconResponse :=
  or_500
    (scan_id <- Database.create_scan env (target recon_request)
                  (scan_type recon_request) ;;
     ra <- (if String.eqb (target_type recon_request) "person" then
              person <- person_intel_scan env (target recon_request)
                          (state recon_request) (dob recon_request) ;;
              let results := dict_set [] "person" person in
              analysis <- LLMAnalyzer.call_analyze env
                            [VResults results] [("target_type", VStr "person")] ;;
              ret (results, analysis)
            else
              results <- execute_selected_modules env (target recon_request)
                           (modules recon_request) ;;
              analysis <- LLMAnalyzer.call_analyze env
                            [VResults results] [("target_type", VStr "domain")] ;;
              ret (results, analysis)) ;;
     db_update_scan ;;;
     timestamp <- utcnow env ;;
     ret (MkReconResponse scan_id (target recon_request)
            (target_type recon_request) "completed"
            (fst ra) (snd ra) timestamp)).

End AppV2.

(** ** modules/threat_intel.py, modules/social_intel.py, modules/person_intel.py

    The parts of the other modules that compute on the target itself. *)

(** [c.lower()] on one character (code points below 256): the ASCII capitals
    and the Latin-1 capitals, the multiplication sign excepted. *)
Definition lower_char (c : Ascii.ascii) : Ascii.ascii :=
  let n := Ascii.nat_of_ascii c in
  if ((65 <=? n) && (n <=? 90) || (192 <=? n) && (n <=? 222) && negb (n =? 215))%nat
  then Ascii.ascii_of_nat (n + 32)
  else c.

(** [s.lower()] *)
Fixpoint lower (s : string) : string :=
  match s with
  | String c s' => String (lower_char c) (lower s')
  | EmptyString => EmptyString
  end.

(** [needle in haystack] *)
Fixpoint contains (needle haystack : string) : bool :=
  if startswith needle haystack then true
  else match haystack with
       | String _ rest => contains needle rest
       | EmptyString => false
       end.

(** [s.split()]: the maximal runs of characters that are not whitespace. *)
Fixpoint split (s : string) : list string :=
  match s with
  | EmptyString => []
  | String c s' =>
      if isspace c then split s'
      else match s' with
           | EmptyString => [String c EmptyString]
           | String c' _ =>
               if isspace c' then String c EmptyString :: split s'
               else match split s' with
                    | word :: words => String c word :: words
                    | [] => [String c EmptyString]
                    end
           end
  end.

Module ThreatIntelligence.

Record breach := MkBreach {
  breach_name : string;
  breach_date : string;
  breach_description : string;
  breach_severity : string
}.

Record breach_data := MkBreachData {
  checked : bool;
  breaches_found : list breach;
  total_breaches : Z;
  breach_note : string
}.

Definition common_breached_domains : list string :=
  ["adobe.com"; "linkedin.com"; "yahoo.com"; "dropbox.com";
   "myspace.com"; "tumblr.com"; "lastfm.com"].

Definition breach_note_text : string :=
  "Using simulated breach database. Use HaveIBeenPwned API for real data.".

Definition _check_breaches (domain : string) : breach_data :=
  let breach_data := MkBreachData true [] 0 breach_note_text in
  if existsb (fun breached => contains breached (lower domain)) common_breached_domains
  then
    let found :=
      (breaches_found breach_data ++
       [MkBreach "Historical Breach" "Various"
          "Domain associated with known historical breaches" "High"])%list in
    MkBreachData (checked breach_data) found (Z.of_nat (length found))
      (breach_note breach_data)
  else breach_data.

Record reputation := MkReputation {
  score : Z;
  status : string;
  categories : list string;
  threat_feeds : list string;
  reputation_note : string
}.

Definition suspicious_keywords : list string :=
  ["hack"; "crack"; "warez"; "phish"; "spam"].

Definition reputation_note_text : string :=
  "Using basic reputation check. Integrate with threat intelligence feeds for production.".

Definition _check_reputation (target : string) : reputation :=
  if existsb (fun keyword => contains keyword (lower target)) suspicious_keywords
  then MkReputation (-50) "Suspicious" ["Potentially Malicious"] []
         reputation_note_text
  else MkReputation 50 "Clean" ["No Known Threats"] [] reputation_note_text.

(** The dictionary [scan] returns; "malware_check" and "vulnerabilities" stay
    as they are initialized, empty. *)
Record threat_results := MkThreatResults {
  tr_target : string;
  tr_timestamp : string;
  tr_breach_check : breach_data;
  tr_malware_check : list (string * jsonv);
  tr_reputation : reputation;
  tr_vulnerabilities : list jsonv
}.

Definition scan (env : Env) (target : string) : M threat_results :=
  timestamp <- utcnow env ;;
  breach_check <- ret (_check_breaches target) ;;
  reputation <- ret (_check_reputation target) ;;
  ret (MkThreatResults target timestamp breach_check [] reputation []).

End ThreatIntelligence.

Module SocialIntelligence.

Definition dot : Ascii.ascii := Ascii.ascii_of_nat 46.

(** [target.split('.')[0]]: the text before the first dot. *)
Fixpoint split_dot_0 (s : string) : string :=
  match s with
  | String c s' =>
      if Ascii.eqb c dot then EmptyString else String c (split_dot_0 s')
  | EmptyString => EmptyString
  end.

(** The organization name [scan] looks up:
    [target.split('.')[0] if '.' in target else target]. *)
Definition org_name (target : string) : string :=
  if contains "." target then split_dot_0 target else target.

End SocialIntelligence.

Module PersonIntelligence.

Record parsed_name := MkParsedName {
  full_name : string;
  first_name : string;
  middle_name : string;
  last_name : string;
  suffix : string
}.

Definition _parse_name (full_name : string) : parsed_name :=
  let parts := split (strip full_name) in
  match parts with
  | [] => MkParsedName full_name "" "" "" ""
  | [p0] => MkParsedName full_name "" "" p0 ""
  | [p0; p1] => MkParsedName full_name p0 "" p1 ""
  | [p0; p1; p2] => MkParsedName full_name p0 p1 p2 ""
  | p0 :: p1 :: p2 :: rest => MkParsedName full_name p0 p1 p2 (String.concat " " rest)
  end.

End PersonIntelligence.

(** ** modules/web_intel.py

    The analysis of the response headers.  Python's floats are the binary64
    numbers of IEEE 754, as the primitive floats are. *)

Module WebIntelligence.

(** [float(n)], exact for the integers of magnitude up to 2^53. *)
Definition float_of_int (n : Z) : PrimFloat.float :=
  if Z.ltb n 0 then PrimFloat.opp (PrimFloat.of_uint63 (Uint63.of_Z (- n)))
  else PrimFloat.of_uint63 (Uint63.of_Z n).

(** [score / total] divides the integers as floats (for integers that
    binary64 represents exactly) and raises on a zero divisor; the
    comparisons of the float with the integer thresholds are exact. *)
Definition _calculate_grade (score total : Z) : Res pyexn string :=
  if Z.eqb total 0 then Raise (PyExn "ZeroDivisionError" "division by zero")
  else
    let percentage :=
      PrimFloat.mul (PrimFloat.div (float_of_int score) (float_of_int total))
        (float_of_int 100) in
    if PrimFloat.leb (float_of_int 90) percentage then Ok "A"
    else if PrimFloat.leb (float_of_int 80) percentage then Ok "B"
    else if PrimFloat.leb (float_of_int 70) percentage then Ok "C"
    else if PrimFloat.leb (float_of_int 60) percentage then Ok "D"
    else Ok "F".

Definition security_header_names : list string :=
  ["Strict-Transport-Security"; "Content-Security-Policy"; "X-Frame-Options";
   "X-Content-Type-Options"; "X-XSS-Protection"; "Referrer-Policy";
   "Permissions-Policy"].

(** The dictionary [_analyze_security_headers] returns: the seven header
    entries, then "score" and "grade". *)
Record security_headers := MkSecurityHeaders {
  sh_headers : list (string * string);
  sh_score : string;
  sh_grade : string
}.

(** [headers] is the mapping of the response headers, of which only
    [headers.get(name, default)] is used: [headers name] is the value it
    holds for [name], if any. *)
Definition _analyze_security_headers (headers : string -> option string)
  : Res pyexn security_headers :=
  let security_headers :=
    (fun name => (name, default "Missing" (headers name))) <$> security_header_names in
  let present :=
    Z.of_nat (length (filter (fun entry => entry.2 <> "Missing") security_headers)) in
  match _calculate_grade present 7 with
  | Raise e => Raise e
  | Ok grade => Ok (MkSecurityHeaders security_headers (pretty present ++ "/7") grade)
  end.

End WebIntelligence.

(** ** modules/domain_intel.py *)

Module DomainIntelligence.

(** What the scan asks of the outside: the outcome of the WHOIS lookup with
    the dictionary built from it, of [resolver.resolve(name, record_type)]
    with its answers as strings, and of [socket.gethostbyaddr(ip)] with the
    host name it returns. *)
Record Lookups := MkLookups {
  whois : string -> Res pyexn string;
  resolve : string -> string -> Res pyexn (list string);
  gethostbyaddr : string -> Res pyexn string
}.

(** The dictionary [scan] returns; "whois" holds the dictionary of the
    lookup or, when the lookup failed, its error message. *)
Record domain_results := MkDomainResults {
  dr_target : string;
  dr_timestamp : string;
  dr_whois : string + string;
  dr_dns_records : list (string * list string);
  dr_subdomains : list (string * list string);
  dr_ip_addresses : list string;
  dr_nameservers : list string;
  dr_mail_servers : list string;
  dr_reverse_dns : list (string * string)
}.

Definition record_types : list string :=
  ["A"; "AAAA"; "MX"; "NS"; "TXT"; "SOA"; "CNAME"].

Definition common_subdomains : list string :=
  ["www"; "mail"; "ftp"; "webmail"; "smtp"; "pop"; "ns1"; "ns2";
   "admin"; "api"; "dev"; "staging"; "test"; "blog"; "shop";
   "vpn"; "remote"; "portal"; "support"; "help"; "docs"].

(** The body of [for record_type in record_types], on the four entries of
    [results] it updates. *)
Definition dns_step (lk : Lookups) (target : string)
    (st : list (string * list string) * list string * list string * list string)
    (record_type : string)
  : list (string * list string) * list string * list string * list string :=
  let '(dns_records, ip_addresses, nameservers, mail_servers) := st in
  match resolve lk target record_type with
  | Ok answers =>
      let dns_records := dict_set dns_records record_type answers in
      if String.eqb record_type "A" then
        (dns_records, (ip_addresses ++ answers)%list, nameservers, mail_servers)
      else if String.eqb record_type "NS" then
        (dns_records, ip_addresses, (nameservers ++ answers)%list, mail_servers)
      else if String.eqb record_type "MX" then
        (dns_records, ip_addresses, nameservers, (mail_servers ++ answers)%list)
      else (dns_records, ip_addresses, nameservers, mail_servers)
  | Raise _ => (dict_set dns_records record_type [], ip_addresses, nameservers, mail_servers)
  end.

(** The body of [for subdomain in common_subdomains]. *)
Definition subdomain_step (lk : Lookups) (target : string)
    (subdomains : list (string * list string)) (subdomain : string)
  : list (string * list string) :=
  let full_domain := subdomain ++ "." ++ target in
  match resolve lk full_domain "A" with
  | Ok answers => (subdomains ++ [(full_domain, answers)])%list
  | Raise _ => subdomains
  end.

(** The body of the reverse lookup loop. *)
Definition reverse_step (lk : Lookups) (reverse_dns : list (string * string))
    (ip : string) : list (string * string) :=
  match gethostbyaddr lk ip with
  | Ok hostname => (reverse_dns ++ [(ip, hostname)])%list
  | Raise _ => reverse_dns
  end.

Definition scan (env : Env) (lk : Lookups) (target : string) : M domain_results :=
  timestamp <- utcnow env ;;
  let whois :=
    match whois lk target with
    | Ok whois_data => inl whois_data
    | Raise e => inr (exn_str e)
    end in
  let '(dns_records, ip_addresses, nameservers, mail_servers) :=
    foldl (dns_step lk target) ([], [], [], []) record_types in
  let subdomains := foldl (subdomain_step lk target) [] common_subdomains in
  let reverse_dns := foldl (reverse_step lk) [] (take 5 ip_addresses) in
  ret (MkDomainResults target timestamp whois dns_records subdomains
         ip_addresses nameservers mail_servers reverse_dns).

End DomainIntelligence.

(** ** Sample environments

    Concrete collaborators on which the statements below are exercised. *)

Module Sample.

Definition refused : pyexn :=
  PyExn "ConnectionRefusedError" "[Errno 111] Connect call failed".

Definition timed_out : pyexn := PyExn "TimeoutError" "".

Definition reset : pyexn :=
  PyExn "ConnectionResetError" "[Errno 104] Connection reset by peer".

Definition unresolved : pyexn :=
  PyExn "gaierror" "[Errno -2] Name or service not known".

(** "example.com" resolves, with ports 22, 80 and 443 open: port 22 sends a
    banner, port 80 sends nothing before its peer closes, the read on port
    443 times out.  Anything else does not resolve.  The web module
    rejects a malformed URL; the provider is down. *)
Definition env : Env :=
  MkEnv
    (fun t => if String.eqb t "example.com" then Ok "93.184.216.34"
              else Raise unresolved)
    (fun _ p => if Z.eqb p 22 || Z.eqb p 80 || Z.eqb p 443 then Ok tt
                else Raise refused)
    (fun _ p => if Z.eqb p 22 then Ok "SSH-2.0-OpenSSH_8.9 "
                else if Z.eqb p 80 then Ok ""
                else Raise timed_out)
    (fun _ _ => Ok tt)
    (fun _ _ => Ok tt)
    [8; 5; 30; 1; 5]%nat
    (fun _ => Ok "domain data")
    (fun t => if startswith "http://[" t then Raise (PyExn "ValueError" "Invalid IPv6 URL")
              else Ok "web data")
    (fun _ => Ok "social data")
    (fun _ => Ok "threat data")
    (fun _ _ _ => Ok "person data")
    (fun _ _ => [])
    (fun _ _ => Raise (PyExn "APIConnectionError" "Connection error."))
    (fun _ => Raise (PyExn "ValueError" "invalid literal for int()"))
    (fun _ => Raise (PyExn "JSONDecodeError" "Expecting value"))
    (fun _ => Ok "{}")
    (fun _ => Ok "{}")
    (fun n => "2024-01-01T00:00:0" ++ String (Ascii.ascii_of_nat (48 + n)) "")
    (fun n => "scan-" ++ String (Ascii.ascii_of_nat (48 + n)) "").

(** The same, except that the connection to port 443 is reset during the
    banner read, and the close handshake ends with that reset. *)
Definition env_reset : Env :=
  MkEnv
    (env_gethostbyname env) (env_open_connection env)
    (fun h p => if Z.eqb p 443 then Raise reset else env_read_banner env h p)
    (env_writer_close env)
    (fun _ p => if Z.eqb p 443 then Raise reset else Ok tt)
    (env_schedule env)
    (env_domain_scan env) (env_web_scan env) (env_social_scan env)
    (env_threat_scan env) (env_person_scan env) (env_describe env)
    (env_chat env) (env_int env) (env_json_loads env)
    (env_dumps_results env) (env_dumps_analysis env)
    (env_utcnow env) (env_uuid4 env).

(** An initialized, empty store. *)
Definition world : World := MkWorld ∅ true 0 0 [].

(** The same collaborators with a decoder that reads the text the sample
    encoder writes. *)
Definition env_decoding : Env :=
  MkEnv
    (env_gethostbyname env) (env_open_connection env) (env_read_banner env)
    (env_writer_close env) (env_wait_closed env) (env_schedule env)
    (env_domain_scan env) (env_web_scan env) (env_social_scan env)
    (env_threat_scan env) (env_person_scan env) (env_describe env)
    (env_chat env) (env_int env)
    (fun text => if String.eqb text "{}" then Ok (JObj [])
                 else Raise (PyExn "JSONDecodeError" "Expecting value"))
    (env_dumps_results env) (env_dumps_analysis env)
    (env_utcnow env) (env_uuid4 env).

(** The store before [initialize], and the store after one scan has been
    created and after its results have been saved. *)
Definition uninitialized : World := MkWorld ∅ false 0 0 [].

Definition analysis0 : analysis :=
  MkAnalysis "example.com" "" "" 0 JNull JNull JNull JNull None.

Definition created : World :=
  (Database.create_scan env "example.com" "full" world).2.

Definition saved : World :=
  (Database.save_results env "scan-0" [] analysis0 created).2.

Definition row0 : scan_row :=
  MkScanRow "example.com" "full" "running" "2024-01-01T00:00:00" None None None.

Definition request : App.ReconRequest :=
  App.MkReconRequest "example.com" "full" ["domain"; "network"].

End Sample.

(** ** Vocabulary of the statements *)

(** What a probe of [host:port] reports, read off the collaborators'
    answers (a specification of [NetworkIntelligence._scan_port]): open
    exactly when the connection and the close handshake both go through. *)
Definition probe_outcome (env : Env) (host : string) (port : Z)
  : Z * bool * option string :=
  match env_open_connection env host port,
        env_writer_close env host port, env_wait_closed env host port with
  | Ok _, Ok _, Ok _ =>
      (port, true,
       match env_read_banner env host port with
       | Ok banner_data => Some (strip banner_data)
       | Raise _ => None
       end)
  | _, _, _ => (port, false, None)
  end.

Definition reported_open (env : Env) (host : string) (port : Z) : bool :=
  snd (fst (probe_outcome env host port)).

(** The same collaborators under another completion order of the event
    loop. *)
Definition with_schedule (env : Env) (schedule : list nat) : Env :=
  MkEnv (env_gethostbyname env) (env_open_connection env) (env_read_banner env)
    (env_writer_close env) (env_wait_closed env) schedule
    (env_domain_scan env) (env_web_scan env) (env_social_scan env)
    (env_threat_scan env) (env_person_scan env) (env_describe env)
    (env_chat env) (env_int env) (env_json_loads env)
    (env_dumps_results env) (env_dumps_analysis env)
    (env_utcnow env) (env_uuid4 env).

(** The slots of a [gather] in progress: slot [i] is filled once task [i]
    has completed; the slots are consistent when there is one per task and
    every filled slot holds the result expected of its task. *)
Definition filled {A} (slots : list (option A)) (i : nat) : Prop :=
  exists v, slots !! i = Some (Some v).

Definition slots_consistent {A} (tasks : list (M A)) (expected : list A)
    (slots : list (option A)) : Prop :=
  length slots = length tasks /\
  forall i v, slots !! i = Some (Some v) -> expected !! i = Some v.

(** The loop of [NetworkIntelligence.scan] run over the outcomes of the
    probes of [ports], from the dictionary [r]. *)
Definition classified (env : Env) (host : string) (ports : list Z)
    (r : network_results) : network_results :=
  foldl NetworkIntelligence.classify r
    (probe_outcome env host <$> ports).

(** The writes to the [scans] table, as they appear in a trace. *)
Definition is_db_event (ev : event) : bool :=
  match ev with
  | EvInsert _ _ | EvUpdate _ _ => true
  | _ => false
  end.

Definition db_events (log : list event) : list event :=
  filter (fun ev => is_db_event ev) log.

(** A computation that leaves the store alone: whatever it returns or
    raises, the table and the connection are as before and the trace has
    grown by calls that are no writes to the table. *)
Definition db_silent {A} (m : M A) : Prop :=
  forall w,
    w_scans (m w).2 = w_scans w /\
    w_conn (m w).2 = w_conn w /\
    exists evs, w_log (m w).2 = (w_log w ++ evs)%list /\ db_events evs = [].

(** The status of a scan as a reader of the table sees it. *)
Definition status_of (w : World) (scan_id : string) : option string :=
  row_status <$> (w_scans w !! scan_id).

(** The statuses the program writes, and the rows it can leave in the
    table: running and not completed yet, or completed at some time. *)
Definition row_well_formed (row : scan_row) : Prop :=
  (row_status row = "running" /\ row_completed_at row = None) \/
  (row_status row = "completed" /\ is_Some (row_completed_at row)).

Definition table_well_formed (w : World) : Prop :=
  forall scan_id row, w_scans w !! scan_id = Some row -> row_well_formed row.

(** A use of the store by some request: [create_scan] or [save_results]
    with any arguments.  [run_call] is the world after the call, whether it
    returned or raised. *)
Inductive db_call :=
| CallCreateScan (target scan_type : string)
| CallSaveResults (scan_id : string) (results : list (string * payload))
    (analysis : analysis).

Definition run_call (env : Env) (c : db_call) (w : World) : World :=
  match c with
  | CallCreateScan target scan_type =>
      (Database.create_scan env target scan_type w).2
  | CallSaveResults scan_id results analysis =>
      (Database.save_results env scan_id results analysis w).2
  end.

(** The status of one scan as observed before the calls and after each of
    them. *)
Fixpoint observe (env : Env) (calls : list db_call) (w : World) (scan_id : string)
  : list (option string) :=
  status_of w scan_id ::
  match calls with
  | [] => []
  | c :: calls' => observe env calls' (run_call env c w) scan_id
  end.

(** The module names the entry points know, in the order in which they
    run them. *)
Definition known_modules : list string :=
  ["domain"; "web"; "network"; "social"; "threat"].

(** The exception of the first selected module, in that order, whose scan
    raises ([None] when there is none).  The network module is not listed:
    its scan always returns. *)
Definition first_failure (env : Env) (target : string) (modules : list string)
  : option pyexn :=
  head (omap (fun '(name, outcome) =>
                if str_in name modules then
                  match outcome with Raise e => Some e | Ok _ => None end
                else None)
          [("domain", env_domain_scan env target);
           ("web", env_web_scan env target);
           ("social", env_social_scan env target);
           ("threat", env_threat_scan env target)]).

(** The values [LLMAnalyzer.analyze] stores under each key, read off the
    provider's answers: what the answer yields, or the placeholder of the
    key when the request or the decoding of its answer fails. *)
Definition summary_value (env : Env) (target data : string) : string :=
  match env_chat env ReqSummary [target; data] with
  | Ok content => strip content
  | Raise e => "Summary generation failed: " ++ exn_str e
  end.

Definition risk_score_value (env : Env) (data : string) : Z :=
  match env_chat env ReqRiskScore [data] with
  | Ok content =>
      match env_int env (strip content) with
      | Ok n => n
      | Raise _ => 50
      end
  | Raise _ => 50
  end.

Definition json_value (env : Env) (kind : request_kind) (values : list string)
    (placeholder : jsonv) : jsonv :=
  match env_chat env kind values with
  | Ok content =>
      match env_json_loads env (remove_code_block (strip content)) with
      | Ok v => v
      | Raise _ => placeholder
      end
  | Raise _ => placeholder
  end.

Definition analysis_value (env : Env) (target timestamp : string)
    (results : list (string * payload)) : analysis :=
  let data := LLMAnalyzer._prepare_intelligence_data env results in
  MkAnalysis target timestamp
    (summary_value env target data)
    (risk_score_value env data)
    (json_value env ReqAttackSurface [data] LLMAnalyzer.attack_surface_placeholder)
    (json_value env ReqVulnerabilities [data] LLMAnalyzer.vulnerabilities_placeholder)
    (json_value env ReqRecommendations [target; data]
       LLMAnalyzer.recommendations_placeholder)
    (json_value env ReqCorrelations [data] LLMAnalyzer.correlations_placeholder)
    None.

(** What [Database.loads_or_empty] yields for a column. *)
Definition loads_value (env : Env) (column : option string) : Res pyexn jsonv :=
  match column with
  | Some (String c text) => env_json_loads env (String c text)
  | _ => Ok (JObj [])
  end.

(** The two counts of [get_statistics], as functions of the world. *)
Definition scans_total (w : World) : nat := size (w_scans w).

Definition scans_completed (w : World) : nat :=
  size (filter (fun entry : string * scan_row => row_status entry.2 = "completed")
          (w_scans w)).

(** The calls one probe makes, read off the collaborators' answers: the
    connection attempt, then, if it succeeds, the banner read and
    [writer.close()], and [wait_closed()] if that returns. *)
Definition probe_trace (env : Env) (host : string) (port : Z) : list event :=
  EvConnect host port ::
  match env_open_connection env host port with
  | Raise _ => []
  | Ok _ =>
      EvRead host port :: EvClose host port ::
      match env_writer_close env host port with
      | Raise _ => []
      | Ok _ => [EvWaitClosed host port]
      end
  end.

(** The connection attempts of a trace. *)
Definition is_connect (ev : event) : bool :=
  match ev with
  | EvConnect _ _ => true
  | _ => false
  end.

Definition connects (log : list event) : list event :=
  filter (fun ev => is_connect ev) log.

(** The ports whose probe has not completed yet in a [gather] in progress. *)
Fixpoint pending {A} (ports : list Z) (slots : list (option A)) : list Z :=
  match ports, slots with
  | p :: ports', slot :: slots' =>
      match slot with
      | None => p :: pending ports' slots'
      | Some _ => pending ports' slots'
      end
  | _, _ => []
  end.

(** An event of a probe of [host] on one of [ports]. *)
Definition probe_event (host : string) (ports : list Z) (ev : event) : Prop :=
  exists p, p ∈ ports /\
    ev ∈ [EvConnect host p; EvRead host p; EvClose host p; EvWaitClosed host p].

(** The world after the calls [evs] to the outside. *)
Definition after_calls (w : World) (evs : list event) : World :=
  MkWorld (w_scans w) (w_conn w) (w_clock w) (w_uuids w) (w_log w ++ evs).

(** The requests [LLMAnalyzer.analyze] sends, in the order of its
    assignments. *)
Definition analysis_requests : list event :=
  [EvProvider ReqSummary; EvProvider ReqRiskScore; EvProvider ReqAttackSurface;
   EvProvider ReqVulnerabilities; EvProvider ReqRecommendations;
   EvProvider ReqCorrelations].

(** The keys of the analysis that are decoded as JSON: the request each is
    filled from (given the target and the prepared data), and its
    placeholder. *)
Definition json_keys (target data : string)
  : list (request_kind * list string * jsonv * (analysis -> jsonv)) :=
  [(ReqAttackSurface, [data], LLMAnalyzer.attack_surface_placeholder, an_attack_surface);
   (ReqVulnerabilities, [data], LLMAnalyzer.vulnerabilities_placeholder, an_vulnerabilities);
   (ReqRecommendations, [target; data], LLMAnalyzer.recommendations_placeholder,
    an_recommendations);
   (ReqCorrelations, [data], LLMAnalyzer.correlations_placeholder, an_correlations)].

(** A word: a non-empty text without whitespace. *)
Fixpoint no_space (s : string) : bool :=
  match s with
  | String c s' => negb (isspace c) && no_space s'
  | EmptyString => true
  end.

Definition is_word (s : string) : Prop := s <> "" /\ no_space s = true.

(** The name components that are set, in the order of the name. *)
Definition name_words (p : PersonIntelligence.parsed_name) : list string :=
  (filter (fun part => part <> "")
     [PersonIntelligence.first_name p; PersonIntelligence.middle_name p;
      PersonIntelligence.last_name p] ++
   split (PersonIntelligence.suffix p))%list.

(** The security headers a response carries, a header whose value is the
    text "Missing" not counted. *)
Definition present_headers (headers : string -> option string) : list string :=
  filter (fun name => default "Missing" (headers name) <> "Missing")
    WebIntelligence.security_header_names.

(** The answers to a DNS query, none when the query fails. *)
Definition answers (lk : DomainIntelligence.Lookups) (name record_type : string)
  : list string :=
  match DomainIntelligence.resolve lk name record_type with
  | Ok found => found
  | Raise _ => []
  end.

(** * Properties *)

(** ** The monad *)

Lemma bind_ok {A B} (m : M A) (k : A -> M B) w a w' :
  m w = (Ok a, w') -> bind m k w = k a w'.
Proof. intros H. unfold bind. by rewrite H. Qed.

Lemma bind_raise {A B} (m : M A) (k : A -> M B) w e w' :
  m w = (Raise e, w') -> bind m k w = (Raise e, w').
Proof. intros H. unfold bind. by rewrite H. Qed.

Lemma call_log {A} ev (r : Res pyexn A) w :
  call ev r w = (r, MkWorld (w_scans w) (w_conn w) (w_clock w) (w_uuids w) (w_log w ++ [ev])).
Proof. reflexivity. Qed.

(** ** The port probe *)

Section Probe.
Import NetworkIntelligence.
Variable env : Env.

(** The probe always returns, and returns what [probe_outcome] says. *)
Lemma scan_port_outcome host port w :
  exists w', _scan_port env host port w = (Ok (probe_outcome env host port), w').
Proof.
  unfold _scan_port, probe_outcome, try_except, bind, call, emit, lift, ret.
  cbn.
  destruct (env_open_connection env host port) as [[]|e]; cbn; [|eauto].
  destruct (env_read_banner env host port) as [d|e]; cbn;
    destruct (env_writer_close env host port) as [[]|e1]; cbn; eauto;
    destruct (env_wait_closed env host port) as [[]|e2]; cbn; eauto.
Qed.

(** C5. For every host and port the single-port probe returns a result
    and never raises: the result carries the probed port, and when the
    connection attempt fails, for whatever reason, it is
    (port, is_open = false, banner = None). *)
Theorem scan_port_never_raises host port w :
  exists is_open banner w',
    _scan_port env host port w = (Ok (port, is_open, banner), w') /\
    (forall e, env_open_connection env host port = Raise e ->
               is_open = false /\ banner = None).
Proof.
  destruct (scan_port_outcome host port w) as [w' Hw'].
  unfold probe_outcome in Hw'.
  destruct (env_open_connection env host port) as [[]|e0].
  - destruct (env_writer_close env host port) as [[]|e1];
      [destruct (env_wait_closed env host port) as [[]|e2]|];
      eexists _, _, _; (split; [exact Hw'|intros e He; discriminate He]).
  - exists false, None, w'. split; [exact Hw'|]. intros e _. done.
Qed.

End Probe.

(** ** Gathering tasks *)

Section Gather.
Import NetworkIntelligence.
Context {A : Type}.
Variable tasks : list (M A).
Variable expected : list A.
Hypothesis expected_length : length expected = length tasks.
(* every task returns its expected result, whenever it is run *)
Hypothesis tasks_return :
  forall i t r, tasks !! i = Some t -> expected !! i = Some r ->
                forall w, exists w', t w = (Ok r, w').

Local Abbreviation consistent := (slots_consistent tasks expected).

Lemma consistent_insert (slots : list (option A)) i r :
  consistent slots -> expected !! i = Some r ->
  consistent (<[i := Some r]> slots).
Proof.
  intros [Hlen Hc] Hr. split; [by rewrite length_insert|].
  intros j v Hj. destruct (decide (i = j)) as [->|Hne].
  - rewrite list_lookup_insert_eq in Hj; [congruence|].
    rewrite Hlen, <- expected_length. by eapply lookup_lt_Some.
  - rewrite list_lookup_insert_ne in Hj by done. by apply Hc.
Qed.

Lemma filled_insert (slots : list (option A)) i j r :
  length slots = length tasks -> (i < length tasks)%nat ->
  filled slots j \/ i = j -> filled (<[i := Some r]> slots) j.
Proof.
  intros Hlen Hi Hj. destruct (decide (i = j)) as [->|Hne].
  - exists r. apply list_lookup_insert_eq. lia.
  - destruct Hj as [[v Hv]|?]; [|done]. exists v.
    by rewrite list_lookup_insert_ne.
Qed.

Lemma run_tasks_spec order :
  forall slots w, consistent slots ->
    exists slots' w',
      run_tasks order tasks slots w = (Ok slots', w') /\
      consistent slots' /\
      (forall i, filled slots i -> filled slots' i) /\
      (forall i, i ∈ order -> (i < length tasks)%nat -> filled slots' i).
Proof.
  induction order as [|i order IH]; intros slots w Hc.
  - exists slots, w. repeat split; try apply Hc; [done|].
    intros i Hi. by apply elem_of_nil in Hi.
  - cbn [run_tasks].
    destruct (tasks !! i) as [t|] eqn:Ht.
    + assert (Hi : (i < length tasks)%nat) by (by eapply lookup_lt_Some).
      destruct (lookup_lt_is_Some_2 expected i) as [r Hr]; [lia|].
      destruct (slots !! i) as [[v|]|] eqn:Hs.
      * destruct (IH slots w Hc) as (slots' & w' & Hrun & Hc' & Hkeep & Hnew).
        exists slots', w'. repeat split; try apply Hc'; [done..|].
        intros j Hj Hlt. apply elem_of_cons in Hj as [->|Hj]; [|by auto].
        apply Hkeep. by exists v.
      * destruct (tasks_return i t r Ht Hr w) as [w1 Hw1].
        rewrite (bind_ok _ _ _ _ _ Hw1).
        destruct (IH (<[i := Some r]> slots) w1) as (slots' & w' & Hrun & Hc' & Hkeep & Hnew);
          [by apply consistent_insert|].
        exists slots', w'. repeat split; try apply Hc'; [done|..].
        -- intros j Hj. apply Hkeep, filled_insert; [apply Hc|done|by left].
        -- intros j Hj Hlt. apply elem_of_cons in Hj as [->|Hj]; [|by auto].
           apply Hkeep, filled_insert; [apply Hc|done|by right].
      * apply lookup_ge_None in Hs. destruct Hc as [Hlen _]. lia.
    + destruct (IH slots w Hc) as (slots' & w' & Hrun & Hc' & Hkeep & Hnew).
      exists slots', w'. repeat split; try apply Hc'; [done..|].
      intros j Hj Hlt. apply elem_of_cons in Hj as [->|Hj]; [|by auto].
      apply lookup_ge_None in Ht. lia.
Qed.

Lemma omap_id_Some (l : list A) : omap id (Some <$> l) = l.
Proof. induction l as [|x l IH]; [done|]. cbn. by rewrite IH. Qed.

(** [gather] returns the tasks' results in task order, whatever the
    schedule. *)
Lemma gather_in_task_order env w :
  exists w', gather env tasks w = (Ok expected, w').
Proof.
  unfold gather.
  destruct (run_tasks_spec (completion_order (env_schedule env) (length tasks))
              (replicate (length tasks) None) w)
    as (slots' & w' & Hrun & [Hlen Hc'] & _ & Hnew).
  { split; [by rewrite length_replicate|].
    intros i v Hi. apply lookup_replicate in Hi as [? _]. done. }
  exists w'. rewrite (bind_ok _ _ _ _ _ Hrun). unfold ret. f_equal. f_equal.
  assert (slots' = Some <$> expected) as ->; [|apply omap_id_Some].
  apply list_eq. intros i. rewrite list_lookup_fmap.
  destruct (decide (i < length tasks)%nat) as [Hi|Hi].
  - destruct (Hnew i) as [v Hv]; [|done|].
    + unfold completion_order. apply elem_of_app. right.
      apply elem_of_seq. lia.
    + rewrite Hv, (Hc' _ _ Hv). done.
  - rewrite !(proj2 (lookup_ge_None _ _)); [done|lia..].
Qed.

End Gather.

(** ** The port scan *)

Section Scan.
Import NetworkIntelligence.
Variable env : Env.

Lemma classify_probe host p r :
  classify r (probe_outcome env host p) =
  if reported_open env host p then
    MkNetworkResults (nr_target r) (nr_timestamp r)
      (nr_open_ports r ++ [p]) (nr_closed_ports r)
      (<[p := _identify_service p]> (nr_services r))
      (if truthy (probe_outcome env host p).2
       then <[p := default "" (probe_outcome env host p).2]> (nr_banners r)
       else nr_banners r)
      (nr_ip_address r) (nr_error r)
  else
    MkNetworkResults (nr_target r) (nr_timestamp r)
      (nr_open_ports r) (nr_closed_ports r ++ [p])
      (nr_services r) (nr_banners r) (nr_ip_address r) (nr_error r).
Proof.
  unfold reported_open, probe_outcome.
  destruct (env_open_connection env host p) as [[]|?]; [|done].
  destruct (env_writer_close env host p) as [[]|?]; [|done].
  destruct (env_wait_closed env host p) as [[]|?]; done.
Qed.

Lemma truthy_reported_open host p :
  truthy (probe_outcome env host p).2 -> reported_open env host p.
Proof.
  unfold reported_open, probe_outcome.
  destruct (env_open_connection env host p) as [[]|?]; [|done].
  destruct (env_writer_close env host p) as [[]|?]; [|done].
  destruct (env_wait_closed env host p) as [[]|?]; done.
Qed.

Lemma classified_cons host p ports r :
  classified env host (p :: ports) r =
  classified env host ports (classify r (probe_outcome env host p)).
Proof. reflexivity. Qed.

Lemma classified_open_ports host ports : forall r,
  nr_open_ports (classified env host ports r) =
  (nr_open_ports r ++ filter (fun p => reported_open env host p) ports)%list.
Proof.
  induction ports as [|p ports IH]; intros r.
  - cbn. by rewrite app_nil_r.
  - rewrite classified_cons, IH, classify_probe, filter_cons.
    destruct (reported_open env host p); cbn; [|done].
    by rewrite <- app_assoc.
Qed.

Lemma classified_closed_ports host ports : forall r,
  nr_closed_ports (classified env host ports r) =
  (nr_closed_ports r ++ filter (fun p => ~ reported_open env host p) ports)%list.
Proof.
  induction ports as [|p ports IH]; intros r.
  - cbn. by rewrite app_nil_r.
  - rewrite classified_cons, IH, classify_probe, filter_cons.
    destruct (reported_open env host p); cbn.
    + rewrite decide_False; [done|]. intros H. by apply H.
    + rewrite decide_True; [|by intros []]. by rewrite <- app_assoc.
Qed.

Lemma classified_services host ports : forall r p,
  nr_services (classified env host ports r) !! p =
  if decide (p ∈ ports /\ reported_open env host p)
  then Some (_identify_service p) else nr_services r !! p.
Proof.
  induction ports as [|q ports IH]; intros r p.
  - cbn. rewrite decide_False; [done|]. intros [H _]. by apply elem_of_nil in H.
  - rewrite classified_cons, IH, classify_probe.
    destruct (decide (p ∈ ports /\ reported_open env host p)) as [[Hin Hop]|Hn].
    + rewrite decide_True; [done|]. split; [by apply elem_of_cons; right|done].
    + destruct (reported_open env host q) eqn:Hq; cbn.
      * destruct (decide (q = p)) as [->|Hne].
        -- rewrite lookup_insert_eq, decide_True; [done|].
           split; [by apply elem_of_cons; left|by rewrite Hq].
        -- rewrite lookup_insert_ne by done.
           destruct (decide (p ∈ q :: ports /\ _)) as [[Hin Hop]|_]; [|done].
           apply elem_of_cons in Hin as [->|Hin]; [done|]. by destruct Hn.
      * destruct (decide (p ∈ q :: ports /\ _)) as [[Hin Hop]|_]; [|done].
        apply elem_of_cons in Hin as [->|Hin]; [by rewrite Hq in Hop|].
        by destruct Hn.
Qed.

Lemma classified_banners host ports : forall r p,
  nr_banners (classified env host ports r) !! p =
  if decide (p ∈ ports /\ truthy (probe_outcome env host p).2)
  then (probe_outcome env host p).2 else nr_banners r !! p.
Proof.
  induction ports as [|q ports IH]; intros r p.
  - cbn. rewrite decide_False; [done|]. intros [H _]. by apply elem_of_nil in H.
  - rewrite classified_cons, IH, classify_probe.
    destruct (decide (p ∈ ports /\ truthy (probe_outcome env host p).2)) as [[Hin Hop]|Hn].
    + rewrite decide_True; [done|]. split; [by apply elem_of_cons; right|done].
    + pose proof (truthy_reported_open host q) as Hto.
      destruct (reported_open env host q) eqn:Hq; cbn;
        destruct (truthy (probe_outcome env host q).2) eqn:Htq; cbn.
      * destruct (decide (q = p)) as [->|Hne].
        -- rewrite lookup_insert_eq, decide_True.
           ++ by destruct ((probe_outcome env host p).2).
           ++ split; [by apply elem_of_cons; left|by rewrite Htq].
        -- rewrite lookup_insert_ne by done.
           destruct (decide (p ∈ q :: ports /\ _)) as [[Hin Hop]|_]; [|done].
           apply elem_of_cons in Hin as [->|Hin]; [done|]. by destruct Hn.
      * destruct (decide (p ∈ q :: ports /\ _)) as [[Hin Hop]|_]; [|done].
        apply elem_of_cons in Hin as [->|Hin]; [by rewrite Htq in Hop|].
        by destruct Hn.
      * by destruct Hto.
      * destruct (decide (p ∈ q :: ports /\ _)) as [[Hin Hop]|_]; [|done].
        apply elem_of_cons in Hin as [->|Hin]; [by rewrite Htq in Hop|].
        by destruct Hn.
Qed.

Lemma classified_other host ports : forall r,
  nr_ip_address (classified env host ports r) = nr_ip_address r /\
  nr_error (classified env host ports r) = nr_error r.
Proof.
  induction ports as [|q ports IH]; intros r; [done|].
  rewrite classified_cons. destruct (IH (classify r (probe_outcome env host q))) as [-> ->].
  rewrite classify_probe. by destruct (reported_open env host q).
Qed.

End Scan.

Lemma scan_resolved_at env target ip w :
  env_gethostbyname env target = Ok ip ->
  exists w',
    NetworkIntelligence.scan env target w =
    (Ok (classified env ip NetworkIntelligence.common_ports
           (MkNetworkResults target (env_utcnow env (w_clock w)) [] [] ∅ ∅ (Some ip) None)),
     w').
Proof.
  intros Hres. unfold NetworkIntelligence.scan.
  rewrite (bind_ok (utcnow env) _ w _ _ eq_refl).
  erewrite bind_ok;
    [|unfold try_except_Exception; erewrite bind_ok;
      [reflexivity|rewrite call_log, Hres; reflexivity]].
  cbn [NetworkIntelligence.set_ip_address nr_target nr_timestamp nr_open_ports
       nr_closed_ports nr_services nr_banners nr_error].
  match goal with |- context [NetworkIntelligence.gather env ?ts] =>
    destruct (gather_in_task_order ts
                (probe_outcome env ip <$> NetworkIntelligence.common_ports))
      with (env := env)
      (w := MkWorld (w_scans w) (w_conn w) (S (w_clock w)) (w_uuids w)
              (w_log w ++ [EvResolve target]))
      as [w' Hw'] end.
  - by rewrite !length_fmap.
  - intros i t r Ht Hr w0.
    apply list_lookup_fmap_Some in Ht as (p & -> & Hp).
    apply list_lookup_fmap_Some in Hr as (p' & -> & Hp').
    assert (p' = p) as -> by congruence.
    apply scan_port_outcome.
  - exists w'. erewrite bind_ok by exact Hw'. reflexivity.
Qed.

Section ScanTheorems.
Import NetworkIntelligence.
Variable env : Env.

Lemma scan_resolved target ip w :
  env_gethostbyname env target = Ok ip ->
  exists w',
    scan env target w =
    (Ok (classified env ip common_ports
           (MkNetworkResults target (env_utcnow env (w_clock w)) [] [] ∅ ∅ (Some ip) None)),
     w').
Proof. apply scan_resolved_at. Qed.

Lemma scan_unresolved target e w :
  env_gethostbyname env target = Raise e ->
  scan env target w =
  (Ok (MkNetworkResults target (env_utcnow env (w_clock w)) [] [] ∅ ∅ None
         (Some ("Could not resolve hostname: " ++ exn_str e))),
   MkWorld (w_scans w) (w_conn w) (S (w_clock w)) (w_uuids w)
     (w_log w ++ [EvResolve target])).
Proof.
  intros Hres. unfold scan.
  rewrite (bind_ok (utcnow env) _ w _ _ eq_refl).
  erewrite bind_ok;
    [|unfold try_except_Exception; erewrite bind_raise;
      [reflexivity|rewrite call_log, Hres; reflexivity]].
  reflexivity.
Qed.

(** C3. For every target hostname whose resolution fails, the network
    module's scan returns (it does not raise) a dictionary whose "error" is
    the resolution failure message; no address is recorded, the open-port,
    closed-port, service and banner collections are all empty, and no port
    is probed: the resolution attempt is the only call made. *)
Theorem scan_unresolved_probes_nothing target e w :
  env_gethostbyname env target = Raise e ->
  exists r w',
    scan env target w = (Ok r, w') /\
    nr_error r = Some ("Could not resolve hostname: " ++ exn_str e) /\
    nr_ip_address r = None /\
    nr_open_ports r = [] /\ nr_closed_ports r = [] /\
    nr_services r = ∅ /\ nr_banners r = ∅ /\
    w_log w' = (w_log w ++ [EvResolve target])%list.
Proof.
  intros Hres. eexists _, _. split; [by apply scan_unresolved|]. cbn. done.
Qed.

(** C6. For every hostname that resolves, gathering the probes yields
    exactly one result per port of the static 20-entry list, in the order of
    that list, whatever the order in which the probes complete (the schedule
    is part of [env], and the scan returns the same under any other); the
    open and closed sequences of the scan are the ports reported open,
    respectively not open, in list order: together they are a permutation
    of the list and each is a subsequence of it. *)
Theorem scan_partitions_port_list target ip w :
  env_gethostbyname env target = Ok ip ->
  (forall w0, exists w1,
      gather env (_scan_port env ip <$> common_ports) w0 =
      (Ok (probe_outcome env ip <$> common_ports), w1)) /\
  length (probe_outcome env ip <$> common_ports) = 20%nat /\
  (probe_outcome env ip <$> common_ports).*1.*1 = common_ports /\
  (forall schedule,
      (scan (with_schedule env schedule) target w).1 = (scan env target w).1) /\
  exists r w',
    scan env target w = (Ok r, w') /\
    nr_open_ports r = filter (fun p => reported_open env ip p) common_ports /\
    nr_closed_ports r = filter (fun p => ~ reported_open env ip p) common_ports /\
    (nr_open_ports r ++ nr_closed_ports r)%list ≡ₚ common_ports /\
    nr_open_ports r `sublist_of` common_ports /\
    nr_closed_ports r `sublist_of` common_ports.
Proof.
  intros Hres. split; [|split; [done|split; [|split]]].
  - intros w0. apply gather_in_task_order.
    + by rewrite !length_fmap.
    + intros i t r Ht Hr w1.
      apply list_lookup_fmap_Some in Ht as (p & -> & Hp).
      apply list_lookup_fmap_Some in Hr as (p' & -> & Hp').
      assert (p' = p) as -> by congruence.
      apply scan_port_outcome.
  - rewrite <- !list_fmap_compose. rewrite <- (list_fmap_id common_ports) at 2.
    apply list_fmap_ext. intros _ p _. cbn. unfold probe_outcome.
    repeat case_match; done.
  - intros schedule.
    destruct (scan_resolved target ip w Hres) as [w1 ->].
    destruct (scan_resolved_at (with_schedule env schedule) target ip w Hres) as [w2 ->].
    reflexivity.
  - destruct (scan_resolved target ip w Hres) as [w' Hw'].
    eexists _, w'. split; [exact Hw'|].
    rewrite classified_open_ports, classified_closed_ports. cbn [nr_open_ports nr_closed_ports app].
    repeat split.
    + apply filter_app_complement.
    + apply sublist_filter.
    + apply sublist_filter.
Qed.

(** C9. For every hostname that resolves, the ports the scan lists as open
    are the listed ports whose probe reports them open, and the services
    map of the scan holds, for exactly these ports, the label the static
    table gives the port: it holds nothing for any other port, closed
    ports included; the table maps 22 to SSH, 443 to HTTPS and 3306 to
    MySQL (and every listed port to its label), and a port absent from it
    to "Unknown". *)
Theorem services_map_of_open_ports target ip w :
  env_gethostbyname env target = Ok ip ->
  exists r w',
    scan env target w = (Ok r, w') /\
    nr_open_ports r = filter (fun p => reported_open env ip p) common_ports /\
    (forall p,
        nr_services r !! p =
        if decide (p ∈ common_ports /\ reported_open env ip p)
        then Some (_identify_service p) else None) /\
    (forall p, p ∈ nr_open_ports r -> nr_services r !! p = Some (_identify_service p)) /\
    (forall p, p ∉ nr_open_ports r -> nr_services r !! p = None) /\
    (forall p, p ∈ nr_closed_ports r -> nr_services r !! p = None) /\
    _identify_service 22 = "SSH" /\ _identify_service 443 = "HTTPS" /\
    _identify_service 3306 = "MySQL" /\
    (forall p label, services !! p = Some label -> _identify_service p = label) /\
    (forall p, services !! p = None -> _identify_service p = "Unknown").
Proof.
  intros Hres. destruct (scan_resolved target ip w Hres) as [w' Hw'].
  eexists _, w'. split; [exact Hw'|].
  rewrite classified_open_ports, classified_closed_ports.
  cbn [nr_open_ports nr_closed_ports app].
  assert (Htied : forall p,
    nr_services (classified env ip common_ports
      (MkNetworkResults target (env_utcnow env (w_clock w)) [] [] ∅ ∅ (Some ip) None)) !! p =
    if decide (p ∈ common_ports /\ reported_open env ip p)
    then Some (_identify_service p) else None).
  { intros p. rewrite classified_services. cbn [nr_services].
    by rewrite lookup_empty. }
  assert (Hsvc : forall p,
    nr_services (classified env ip common_ports
      (MkNetworkResults target (env_utcnow env (w_clock w)) [] [] ∅ ∅ (Some ip) None)) !! p =
    if decide (p ∈ filter (fun p => reported_open env ip p) common_ports)
    then Some (_identify_service p) else None).
  { intros p. rewrite Htied.
    destruct (decide (p ∈ common_ports /\ _)) as [H|H];
      [rewrite decide_True|rewrite decide_False]; try done.
    - apply list_elem_of_filter. tauto.
    - intros Hin. apply H. apply list_elem_of_filter in Hin. tauto. }
  split; [done|]. split; [exact Htied|].
  split; [|split; [|split]].
  - intros p Hp. by rewrite Hsvc, decide_True.
  - intros p Hp. by rewrite Hsvc, decide_False.
  - intros p Hp. rewrite Hsvc, decide_False; [done|].
    intros Hin. apply list_elem_of_filter in Hp as [Hp _].
    apply list_elem_of_filter in Hin as [Hin _]. by apply Hp.
  - repeat split.
    + intros p label Hp. unfold _identify_service. by rewrite Hp.
    + intros p Hp. unfold _identify_service. by rewrite Hp.
Qed.

End ScanTheorems.

Lemma scan_unresolved_probes_nothing_witness :
  env_gethostbyname Sample.env "nope" = Raise Sample.unresolved /\
  exists r w',
    NetworkIntelligence.scan Sample.env "nope" Sample.world = (Ok r, w') /\
    nr_error r = Some ("Could not resolve hostname: " ++ exn_str Sample.unresolved) /\
    nr_ip_address r = None /\
    nr_open_ports r = [] /\ nr_closed_ports r = [] /\
    nr_services r = ∅ /\ nr_banners r = ∅ /\
    w_log w' = (w_log Sample.world ++ [EvResolve "nope"])%list.
Proof.
  split; [reflexivity|].
  apply (scan_unresolved_probes_nothing Sample.env "nope" Sample.unresolved Sample.world).
  reflexivity.
Defined.

Lemma scan_partitions_port_list_witness :
  env_gethostbyname Sample.env "example.com" = Ok "93.184.216.34" /\
  exists r w',
    NetworkIntelligence.scan Sample.env "example.com" Sample.world = (Ok r, w') /\
    (nr_open_ports r ++ nr_closed_ports r)%list ≡ₚ NetworkIntelligence.common_ports /\
    nr_open_ports r `sublist_of` NetworkIntelligence.common_ports /\
    nr_closed_ports r `sublist_of` NetworkIntelligence.common_ports.
Proof.
  split; [reflexivity|].
  destruct (scan_partitions_port_list Sample.env "example.com" "93.184.216.34"
              Sample.world eq_refl)
    as (_ & _ & _ & _ & r & w' & Hscan & _ & _ & Hperm & Hopen & Hclosed).
  exists r, w'. auto.
Defined.

Lemma services_map_of_open_ports_witness :
  env_gethostbyname Sample.env "example.com" = Ok "93.184.216.34" /\
  exists r w',
    NetworkIntelligence.scan Sample.env "example.com" Sample.world = (Ok r, w') /\
    nr_open_ports r = [22; 80; 443] /\
    nr_services r !! 22 = Some "SSH" /\
    nr_services r !! 443 = Some "HTTPS" /\
    nr_services r !! 21 = None /\
    (forall p, p ∈ nr_open_ports r ->
               nr_services r !! p = Some (NetworkIntelligence._identify_service p)) /\
    (forall p, p ∉ nr_open_ports r -> nr_services r !! p = None).
Proof.
  split; [reflexivity|].
  destruct (services_map_of_open_ports Sample.env "example.com" "93.184.216.34"
              Sample.world eq_refl)
    as (r & w' & Hscan & Hports & Htied & Hopen & Hnot & _).
  exists r, w'. split; [exact Hscan|]. split; [rewrite Hports; reflexivity|].
  rewrite !Htied.
  split; [reflexivity|]. split; [reflexivity|]. split; [reflexivity|].
  split; assumption.
Defined.

(** The scan of the sample host: ports 22, 80 and 443 are open, in list
    order, though the probe of 443 completed first and that of 80 second;
    only port 22 has a banner. *)
Example scan_example :
  exists r,
    (NetworkIntelligence.scan Sample.env "example.com" Sample.world).1 = Ok r /\
    nr_open_ports r = [22; 80; 443] /\
    nr_services r = {[ 22 := "SSH"; 80 := "HTTP"; 443 := "HTTPS" ]} /\
    nr_banners r = {[ 22 := "SSH-2.0-OpenSSH_8.9" ]} /\
    nr_error r = None.
Proof. eexists. split; [vm_compute; reflexivity|]. vm_compute. done. Qed.

(** ** Absent banners *)

(** C8, as the code has it. For every port whose connection succeeds and
    whose close handshake completes, if the banner read yields no data, a
    reset or a timeout, the probe reports the port open; the banner it
    reports is None after a reset or a timeout (any exception of the read)
    and the empty string when the read returned no data.  In both cases the
    banner counts as absent: the scan lists the port as open and records no
    banner for it. *)
Theorem banner_absence_keeps_port_open env host port w :
  env_open_connection env host port = Ok tt ->
  env_writer_close env host port = Ok tt ->
  env_wait_closed env host port = Ok tt ->
  (env_read_banner env host port = Ok "" \/
   exists e, env_read_banner env host port = Raise e) ->
  (exists banner w',
      NetworkIntelligence._scan_port env host port w = (Ok (port, true, banner), w') /\
      (forall e, env_read_banner env host port = Raise e -> banner = None) /\
      (env_read_banner env host port = Ok "" -> banner = Some "") /\
      NetworkIntelligence.truthy banner = false) /\
  (forall target w0,
      env_gethostbyname env target = Ok host ->
      port ∈ NetworkIntelligence.common_ports ->
      exists r w1,
        NetworkIntelligence.scan env target w0 = (Ok r, w1) /\
        port ∈ nr_open_ports r /\ nr_banners r !! port = None).
Proof.
  intros Hopen Hclose Hwait Hread.
  assert (Hout : exists banner,
             probe_outcome env host port = (port, true, banner) /\
             (forall e, env_read_banner env host port = Raise e -> banner = None) /\
             (env_read_banner env host port = Ok "" -> banner = Some "") /\
             NetworkIntelligence.truthy banner = false).
  { unfold probe_outcome. rewrite Hopen, Hclose, Hwait.
    destruct Hread as [Hr|[e Hr]]; rewrite Hr; eexists; (split; [reflexivity|]);
      repeat split; try done. }
  destruct Hout as (banner & Hout & Hexn & Hnodata & Htruthy).
  split.
  - destruct (scan_port_outcome env host port w) as [w' Hw'].
    exists banner, w'. rewrite Hw', Hout. done.
  - intros target w0 Hres Hin.
    destruct (scan_resolved env target host w0 Hres) as [w1 Hw1].
    eexists _, w1. split; [exact Hw1|]. split.
    + rewrite classified_open_ports. cbn [nr_open_ports app].
      apply list_elem_of_filter. split; [|done].
      unfold reported_open. by rewrite Hout.
    + rewrite classified_banners. cbn [nr_banners].
      rewrite Hout. cbn [snd]. rewrite Htruthy.
      rewrite decide_False; [apply lookup_empty|]. by intros [_ ?].
Qed.

Lemma banner_absence_keeps_port_open_witness :
  exists banner w',
    NetworkIntelligence._scan_port Sample.env "93.184.216.34" 443 Sample.world =
    (Ok (443, true, banner), w') /\
    (forall e, env_read_banner Sample.env "93.184.216.34" 443 = Raise e -> banner = None) /\
    (env_read_banner Sample.env "93.184.216.34" 443 = Ok "" -> banner = Some "") /\
    NetworkIntelligence.truthy banner = false.
Proof.
  apply (banner_absence_keeps_port_open Sample.env "93.184.216.34" 443 Sample.world);
    [reflexivity|reflexivity|reflexivity|].
  right. exists Sample.timed_out. reflexivity.
Defined.

(** Where C8 fails as stated.  The connection to port 80 of the sample
    host succeeds and its banner read yields no data: the probe reports the
    port open with the empty string as banner, which is not None.  And when
    the connection to port 443 is reset during the banner read and the close
    handshake ends with that reset, the probe reports the port closed,
    although the connection had succeeded. *)
Lemma absent_banner_counterexample :
  (env_open_connection Sample.env "93.184.216.34" 80 = Ok tt /\
   env_read_banner Sample.env "93.184.216.34" 80 = Ok "" /\
   (NetworkIntelligence._scan_port Sample.env "93.184.216.34" 80 Sample.world).1 =
     Ok (80, true, Some "") /\
   (NetworkIntelligence._scan_port Sample.env "93.184.216.34" 80 Sample.world).1 <>
     Ok (80, true, None)) /\
  (env_open_connection Sample.env_reset "93.184.216.34" 443 = Ok tt /\
   env_read_banner Sample.env_reset "93.184.216.34" 443 = Raise Sample.reset /\
   (NetworkIntelligence._scan_port Sample.env_reset "93.184.216.34" 443 Sample.world).1 =
     Ok (443, false, None) /\
   (NetworkIntelligence._scan_port Sample.env_reset "93.184.216.34" 443 Sample.world).1 <>
     Ok (443, true, None)).
Proof. repeat split; try reflexivity; vm_compute; discriminate. Qed.

(** ** Computations that leave the store alone *)

Create HintDb silent.

Lemma db_silent_ret {A} (a : A) : db_silent (ret a).
Proof. intros w. cbn. repeat split. exists []. by rewrite app_nil_r. Qed.

Lemma db_silent_raise {A} e : db_silent (@raise A e).
Proof. intros w. cbn. repeat split. exists []. by rewrite app_nil_r. Qed.

Lemma db_silent_lift {A} (r : Res pyexn A) : db_silent (lift r).
Proof. intros w. cbn. repeat split. exists []. by rewrite app_nil_r. Qed.

Lemma db_silent_utcnow env : db_silent (utcnow env).
Proof. intros w. cbn. repeat split. exists []. by rewrite app_nil_r. Qed.

Lemma db_silent_uuid4 env : db_silent (uuid4 env).
Proof. intros w. cbn. repeat split. exists []. by rewrite app_nil_r. Qed.

Lemma db_silent_bind {A B} (m : M A) (k : A -> M B) :
  db_silent m -> (forall a, db_silent (k a)) -> db_silent (bind m k).
Proof.
  intros Hm Hk w. specialize (Hm w). unfold bind.
  destruct (m w) as [[a|e] w1]; cbn in *; [|done].
  destruct Hm as (Hs & Hc & evs & Hl & He).
  destruct (Hk a w1) as (Hs' & Hc' & evs' & Hl' & He').
  rewrite Hs', Hc', Hl', Hs, Hc, Hl. repeat split.
  exists (evs ++ evs')%list. split; [by rewrite app_assoc|].
  unfold db_events in *. by rewrite filter_app, He, He'.
Qed.

Lemma db_silent_try_except_Exception {A} (body : M A) handler :
  db_silent body -> (forall e, db_silent (handler e)) ->
  db_silent (try_except_Exception body handler).
Proof.
  intros Hm Hk w. specialize (Hm w). unfold try_except_Exception.
  destruct (body w) as [[a|e] w1]; cbn in *; [done|].
  destruct Hm as (Hs & Hc & evs & Hl & He).
  destruct (Hk e w1) as (Hs' & Hc' & evs' & Hl' & He').
  rewrite Hs', Hc', Hl', Hs, Hc, Hl. repeat split.
  exists (evs ++ evs')%list. split; [by rewrite app_assoc|].
  unfold db_events in *. by rewrite filter_app, He, He'.
Qed.

Lemma db_silent_try_except {A} (body handler : M A) :
  db_silent body -> db_silent handler -> db_silent (try_except body handler).
Proof.
  intros Hm Hk.
  apply (db_silent_try_except_Exception body (fun _ => handler)); auto.
Qed.

Lemma db_silent_emit ev : is_db_event ev = false -> db_silent (emit ev).
Proof.
  intros Hev w. cbn. repeat split. exists [ev]. split; [done|].
  unfold db_events. rewrite filter_cons, decide_False; [done|].
  rewrite Hev. by intros [].
Qed.

Lemma db_silent_call {A} ev (r : Res pyexn A) :
  is_db_event ev = false -> db_silent (call ev r).
Proof.
  intros Hev. apply db_silent_bind; [by apply db_silent_emit|].
  intros _. apply db_silent_lift.
Qed.

#[local] Hint Resolve db_silent_ret db_silent_raise db_silent_lift db_silent_utcnow
  db_silent_uuid4 db_silent_emit db_silent_call : silent.

(** Goals of the form [db_silent m], by the structure of [m]. *)
Ltac silent :=
  repeat first
    [ solve [auto with silent]
    | match goal with
      | |- db_silent (bind _ _) => apply db_silent_bind; [|intros ?]
      | |- db_silent (try_except _ _) => apply db_silent_try_except
      | |- db_silent (try_except_Exception _ _) =>
          apply db_silent_try_except_Exception; [|intros ?]
      | |- db_silent (match ?x with _ => _ end) => destruct x
      end ].

Lemma db_silent_scan_port env host port :
  db_silent (NetworkIntelligence._scan_port env host port).
Proof. unfold NetworkIntelligence._scan_port. silent. Qed.

Lemma db_silent_run_tasks {A} (tasks : list (M A)) :
  (forall i t, tasks !! i = Some t -> db_silent t) ->
  forall order slots, db_silent (NetworkIntelligence.run_tasks order tasks slots).
Proof.
  intros Htasks order. induction order as [|i order IH]; intros slots; cbn.
  - silent.
  - destruct (tasks !! i) as [t|] eqn:Ht; [|apply IH].
    destruct (slots !! i) as [[v|]|]; try apply IH.
    apply db_silent_bind; [by eapply Htasks|]. intros r. apply IH.
Qed.

Lemma db_silent_gather {A} env (tasks : list (M A)) :
  (forall i t, tasks !! i = Some t -> db_silent t) ->
  db_silent (NetworkIntelligence.gather env tasks).
Proof.
  intros Htasks. unfold NetworkIntelligence.gather.
  apply db_silent_bind; [by apply db_silent_run_tasks|]. intros. silent.
Qed.

Lemma db_silent_scan env target :
  db_silent (NetworkIntelligence.scan env target).
Proof.
  unfold NetworkIntelligence.scan. silent.
  apply db_silent_gather. intros i t Ht.
  apply list_lookup_fmap_Some in Ht as (p & -> & _).
  apply db_silent_scan_port.
Qed.

#[local] Hint Resolve db_silent_scan : silent.

(** ** The store *)

Section Store.
Variable env : Env.

Lemma create_scan_eq target scan_type w :
  Database.create_scan env target scan_type w =
  let scan_id := env_uuid4 env (w_uuids w) in
  if w_conn w then
    match w_scans w !! scan_id with
    | None =>
        (Ok scan_id,
         MkWorld (<[scan_id := MkScanRow target scan_type "running"
                                 (env_utcnow env (w_clock w)) None None None]> (w_scans w))
           (w_conn w) (S (w_clock w)) (S (w_uuids w))
           (w_log w ++ [EvInsert scan_id "running"]))
    | Some _ =>
        (Raise (PyExn "IntegrityError" "UNIQUE constraint failed: scans.scan_id"),
         MkWorld (w_scans w) (w_conn w) (S (w_clock w)) (S (w_uuids w)) (w_log w))
    end
  else
    (Raise (PyExn "AttributeError" "'NoneType' object has no attribute 'cursor'"),
     MkWorld (w_scans w) (w_conn w) (w_clock w) (S (w_uuids w)) (w_log w)).
Proof.
  destruct w as [scans conn clock uuids log].
  unfold Database.create_scan, Database.cursor, Database.insert_scan, bind, uuid4,
    utcnow, emit, ret. cbn.
  destruct conn; [|done]. cbn. by destruct (scans !! env_uuid4 env uuids).
Qed.

Lemma save_results_eq scan_id results analysis w :
  Database.save_results env scan_id results analysis w =
  if w_conn w then
    match env_dumps_results env results, env_dumps_analysis env analysis with
    | Ok results_json, Ok analysis_json =>
        (Ok tt,
         MkWorld (alter (Database.update_scan_row "completed"
                           (env_utcnow env (w_clock w)) results_json analysis_json)
                    scan_id (w_scans w))
           (w_conn w) (S (w_clock w)) (w_uuids w)
           (w_log w ++ [EvUpdate scan_id "completed"]))
    | Raise e, _ | Ok _, Raise e =>
        (Raise e, MkWorld (w_scans w) (w_conn w) (S (w_clock w)) (w_uuids w) (w_log w))
    end
  else
    (Raise (PyExn "AttributeError" "'NoneType' object has no attribute 'cursor'"), w).
Proof.
  destruct w as [scans conn clock uuids log].
  unfold Database.save_results, Database.cursor, Database.update_scans, bind,
    utcnow, emit, lift, ret. cbn.
  destruct conn; [|done]. cbn.
  destruct (env_dumps_results env results); [|done].
  by destruct (env_dumps_analysis env analysis).
Qed.

Lemma row_well_formed_running target scan_type created_at :
  row_well_formed (MkScanRow target scan_type "running" created_at None None None).
Proof. by left. Qed.

Lemma row_well_formed_completed completed_at results analysis row :
  row_well_formed (Database.update_scan_row "completed" completed_at results analysis row).
Proof. right. by split. Qed.

(** One step of any request keeps the table well formed and moves the
    status of a scan forward, if at all. *)
Lemma run_call_step c w scan_id :
  table_well_formed w ->
  table_well_formed (run_call env c w) /\
  (status_of (run_call env c w) scan_id = status_of w scan_id \/
   (status_of w scan_id = None /\
    status_of (run_call env c w) scan_id = Some "running") \/
   (status_of w scan_id = Some "running" /\
    status_of (run_call env c w) scan_id = Some "completed")).
Proof.
  intros Hwf. unfold status_of, run_call, table_well_formed.
  destruct c as [target scan_type|id results analysis].
  - rewrite create_scan_eq. cbv zeta.
    destruct (w_conn w); [|by split; [|left]].
    destruct (w_scans w !! env_uuid4 env (w_uuids w)) eqn:Hfresh; [by split; [|left]|].
    cbn [snd w_scans]. split.
    + intros id row. destruct (decide (env_uuid4 env (w_uuids w) = id)) as [->|Hne].
      * rewrite lookup_insert_eq. intros [= <-]. apply row_well_formed_running.
      * rewrite lookup_insert_ne by done. apply Hwf.
    + destruct (decide (env_uuid4 env (w_uuids w) = scan_id)) as [Heq|Hne].
      * subst scan_id. right; left. by rewrite lookup_insert_eq, Hfresh.
      * left. by rewrite lookup_insert_ne.
  - rewrite save_results_eq.
    destruct (w_conn w); [|by split; [|left]].
    destruct (env_dumps_results env results); [|by split; [|left]].
    destruct (env_dumps_analysis env analysis); [|by split; [|left]].
    cbn [snd w_scans]. split.
    + intros id' row. rewrite lookup_alter.
      destruct (decide (id = id')) as [->|Hne]; [|apply Hwf].
      destruct (w_scans w !! id'); [|done].
      intros [= <-]. apply row_well_formed_completed.
    + rewrite lookup_alter.
      destruct (decide (id = scan_id)) as [->|Hne]; [|by left].
      destruct (w_scans w !! scan_id) as [row|] eqn:Hrow; [|by left]. cbn.
      destruct (Hwf _ _ Hrow) as [[Hst _]|[Hst _]]; rewrite Hst; [right; right|left]; done.
Qed.

Lemma observe_head calls w scan_id :
  head (observe env calls w scan_id) = Some (status_of w scan_id).
Proof. by destruct calls. Qed.

(** Any sequence of requests shows each scan absent, then running, then
    completed. *)
Lemma observe_monotonic calls : forall w scan_id,
  table_well_formed w ->
  exists a b c,
    observe env calls w scan_id =
    (replicate a None ++ replicate b (Some "running") ++
     replicate c (Some "completed"))%list.
Proof.
  induction calls as [|call calls IH]; intros w scan_id Hwf.
  - cbn. unfold status_of.
    destruct (w_scans w !! scan_id) as [row|] eqn:Hrow; cbn.
    + destruct (Hwf _ _ Hrow) as [[-> _]|[-> _]];
        [by exists 0%nat, 1%nat, 0%nat|by exists 0%nat, 0%nat, 1%nat].
    + by exists 1%nat, 0%nat, 0%nat.
  - destruct (run_call_step call w scan_id Hwf) as [Hwf' Hstep].
    destruct (IH (run_call env call w) scan_id Hwf') as (a & b & c & Htail).
    pose proof (observe_head calls (run_call env call w) scan_id) as Hhead.
    cbn [observe]. rewrite Htail in Hhead |- *.
    destruct Hstep as [Heq|[[Hnone _]|[Hrun Hdone]]].
    + rewrite Heq in Hhead. unfold status_of in *.
      destruct (w_scans w !! scan_id) as [row|] eqn:Hrow; cbn in *.
      * destruct (Hwf _ _ Hrow) as [[Hst _]|[Hst _]]; rewrite Hst in *.
        -- destruct a as [|a]; [|done]. by exists 0%nat, (S b), c.
        -- destruct a as [|a]; [|done]. destruct b as [|b]; [|done].
           by exists 0%nat, 0%nat, (S c).
      * by exists (S a), b, c.
    + rewrite Hnone. by exists (S a), b, c.
    + rewrite Hrun. rewrite Hdone in Hhead.
      destruct a as [|a]; [|done]. destruct b as [|b]; [|done].
      by exists 0%nat, 1%nat, c.
Qed.

End Store.

(** ** The modules *)

Lemma scan_returns env target w :
  exists r w', NetworkIntelligence.scan env target w = (Ok r, w').
Proof.
  destruct (env_gethostbyname env target) as [ip|e] eqn:Hres.
  - destruct (scan_resolved env target ip w Hres) as [w' ->]. eauto.
  - rewrite (scan_unresolved env target e w Hres). eauto.
Qed.

Lemma db_silent_execute_selected_modules env target modules :
  db_silent (execute_selected_modules env target modules).
Proof.
  unfold execute_selected_modules, run_if_selected, domain_intel_scan, web_intel_scan,
    network_intel_scan, social_intel_scan, threat_intel_scan.
  silent.
Qed.

#[local] Hint Resolve db_silent_execute_selected_modules : silent.

Section Modules.
Variables (env : Env) (target : string) (modules : list string).

#[local] Arguments NetworkIntelligence.scan : simpl never.

(** Every step of the chain either is skipped, or runs its module and
    stores the payload under the module's name, or ends the chain with the
    module's exception. *)
Lemma execute_selected_modules_cases w :
  match first_failure env target modules with
  | Some e => exists w', execute_selected_modules env target modules w = (Raise e, w')
  | None =>
      exists results w',
        execute_selected_modules env target modules w = (Ok results, w') /\
        dict_keys results = List.filter (fun k => str_in k modules) known_modules
  end.
Proof.
  unfold execute_selected_modules, run_if_selected, first_failure,
    domain_intel_scan, web_intel_scan, network_intel_scan, social_intel_scan,
    threat_intel_scan, bind, call, emit, lift, ret.
  cbn -[str_in].
  destruct (str_in "domain" modules);
    [destruct (env_domain_scan env target) as [b1|e1]; [|by eexists]|];
  (destruct (str_in "web" modules);
    [destruct (env_web_scan env target) as [b2|e2]; [|by eexists]|]);
  (destruct (str_in "network" modules);
    [match goal with |- context [NetworkIntelligence.scan env target ?w0] =>
       destruct (scan_returns env target w0) as (r & w1 & ->) end|]);
  (destruct (str_in "social" modules);
    [destruct (env_social_scan env target) as [b4|e4]; [|by eexists]|]);
  (destruct (str_in "threat" modules);
    [destruct (env_threat_scan env target) as [b5|e5]; [|by eexists]|]);
  by eexists _, _.
Qed.

End Modules.

(** ** The analyzer *)

Example remove_code_block_fenced :
  remove_code_block (strip "  ```json[1, 2]``` ") = "[1, 2]".
Proof. reflexivity. Qed.

Example remove_code_block_plain : remove_code_block "[1, 2]" = "[1, 2]".
Proof. reflexivity. Qed.

Example bind_arguments_positional :
  bind_arguments "LLMAnalyzer.analyze" LLMAnalyzer.parameters
    [VStr "example.com"; VResults []] [] =
  Ok [("target", VStr "example.com"); ("results", VResults [])].
Proof. reflexivity. Qed.

Example bind_arguments_missing :
  exists message,
    bind_arguments "LLMAnalyzer.analyze" LLMAnalyzer.parameters [VResults []] [] =
    Raise (PyExn "TypeError" message).
Proof. eexists. reflexivity. Qed.

Section Analyzer.
Import LLMAnalyzer.
Variable env : Env.




Lemma try_assign_ok step steps a w assign w' :
  step w = (Ok assign, w') ->
  try_assign (step :: steps) a w = try_assign steps (assign a) w'.
Proof. intros H. cbn. by rewrite H. Qed.


Lemma db_silent_try_assign steps :
  Forall db_silent steps -> forall a, db_silent (try_assign steps a).
Proof.
  induction 1 as [|step steps Hstep _ IH]; intros a; [apply db_silent_ret|].
  intros w. cbn. specialize (Hstep w).
  destruct (step w) as [[assign|e] w1]; cbn in *.
  - destruct Hstep as (Hs & Hc & evs & Hl & He).
    destruct (IH (assign a) w1) as (Hs' & Hc' & evs' & Hl' & He').
    rewrite Hs', Hc', Hl', Hs, Hc, Hl. repeat split.
    exists (evs ++ evs')%list. split; [by rewrite app_assoc|].
    unfold db_events in *. by rewrite filter_app, He, He'.
  - done.
Qed.

Lemma db_silent_analyze target results : db_silent (analyze env target results).
Proof.
  unfold analyze. apply db_silent_bind; [apply db_silent_utcnow|]. intros ts.
  apply db_silent_try_assign.
  unfold _generate_summary, _calculate_risk_score, _analyze_attack_surface,
    _identify_vulnerabilities, _generate_recommendations, _find_correlations,
    json_request, chat.
  repeat (apply Forall_cons_2; [silent|]). apply Forall_nil_2.
Qed.

(** The call of app.py binds both arguments; those of app_v2.py name a
    parameter that [analyze] does not have. *)
Lemma call_analyze_positional target results w :
  call_analyze env [VStr target; VResults results] [] w = analyze env target results w.
Proof. reflexivity. Qed.

Lemma call_analyze_target_type results target_type w :
  call_analyze env [VResults results] [("target_type", VStr target_type)] w =
  (Raise (PyExn "TypeError"
            "LLMAnalyzer.analyze() got an unexpected keyword argument 'target_type'"),
   w).
Proof. reflexivity. Qed.

End Analyzer.

#[local] Hint Resolve db_silent_analyze : silent.

(** ** The entry points *)

Lemma db_silent_run {A} (m : M A) w r w' :
  db_silent m -> m w = (r, w') ->
  w_scans w' = w_scans w /\ w_conn w' = w_conn w /\
  db_events (w_log w') = db_events (w_log w).
Proof.
  intros Hm Hrun. destruct (Hm w) as (Hs & Hc & evs & Hl & He).
  rewrite Hrun in Hs, Hc, Hl. cbn in *. repeat split; try done.
  rewrite Hl. unfold db_events in *. by rewrite filter_app, He, app_nil_r.
Qed.

Lemma db_silent_person_intel_scan env target state dob :
  db_silent (person_intel_scan env target state dob).
Proof. unfold person_intel_scan. silent. Qed.

(** The stages of app.py's [start_scan], one after the other; the first
    exception ends the request as HTTP 500. *)
Lemma start_scan_eq env req w :
  App.start_scan env req w =
  match Database.create_scan env (App.target req) (App.scan_type req) w with
  | (Raise e, w1) => (Raise (MkHTTPException 500 (exn_str e)), w1)
  | (Ok scan_id, w1) =>
      match execute_selected_modules env (App.target req) (App.modules req) w1 with
      | (Raise e, w2) => (Raise (MkHTTPException 500 (exn_str e)), w2)
      | (Ok results, w2) =>
          match LLMAnalyzer.analyze env (App.target req) results w2 with
          | (Raise e, w3) => (Raise (MkHTTPException 500 (exn_str e)), w3)
          | (Ok analysis, w3) =>
              match Database.save_results env scan_id results analysis w3 with
              | (Raise e, w4) => (Raise (MkHTTPException 500 (exn_str e)), w4)
              | (Ok _, w4) =>
                  (Ok (App.MkReconResponse scan_id (App.target req) "completed"
                         results analysis (env_utcnow env (w_clock w4))),
                   MkWorld (w_scans w4) (w_conn w4) (S (w_clock w4)) (w_uuids w4)
                     (w_log w4))
              end
          end
      end
  end.
Proof.
  unfold App.start_scan, or_500, bind.
  destruct (Database.create_scan _ _ _ w) as [[scan_id|e] w1]; [|done].
  destruct (execute_selected_modules _ _ _ w1) as [[results|e] w2]; [|done].
  rewrite call_analyze_positional.
  destruct (LLMAnalyzer.analyze _ _ _ w2) as [[analysis|e] w3]; [|done].
  destruct (Database.save_results _ _ _ _ w3) as [[[]|e] w4]; done.
Qed.

(** The stages of app_v2.py's [start_scan]: whichever branch is taken, the
    call of [analyze] is the last thing that happens. *)
Lemma start_scan_v2_eq env req w :
  AppV2.start_scan env req w =
  match Database.create_scan env (AppV2.target req) (AppV2.scan_type req) w with
  | (Raise e, w1) => (Raise (MkHTTPException 500 (exn_str e)), w1)
  | (Ok scan_id, w1) =>
      match
        (if String.eqb (AppV2.target_type req) "person" then
           person_intel_scan env (AppV2.target req) (AppV2.state req) (AppV2.dob req) w1
         else
           match execute_selected_modules env (AppV2.target req) (AppV2.modules req) w1 with
           | (Ok _, w2) => (Ok (OpaquePayload ""), w2)
           | (Raise e, w2) => (Raise e, w2)
           end)
      with
      | (Raise e, w2) => (Raise (MkHTTPException 500 (exn_str e)), w2)
      | (Ok _, w2) =>
          (Raise (MkHTTPException 500
                    "LLMAnalyzer.analyze() got an unexpected keyword argument 'target_type'"),
           w2)
      end
  end.
Proof.
  unfold AppV2.start_scan, or_500, bind.
  destruct (Database.create_scan _ _ _ w) as [[scan_id|e] w1]; [|done].
  destruct (String.eqb (AppV2.target_type req) "person").
  - destruct (person_intel_scan _ _ _ _ w1) as [[person|e] w2]; [|done].
    by rewrite call_analyze_target_type.
  - destruct (execute_selected_modules _ _ _ w1) as [[results|e] w2]; [|done].
    by rewrite call_analyze_target_type.
Qed.

Lemma create_scan_inv env target scan_type w scan_id w1 :
  Database.create_scan env target scan_type w = (Ok scan_id, w1) ->
  w_scans w !! scan_id = None /\
  w_scans w1 = <[scan_id := MkScanRow target scan_type "running"
                              (env_utcnow env (w_clock w)) None None None]> (w_scans w) /\
  w_conn w = true /\ w_conn w1 = true /\
  w_log w1 = (w_log w ++ [EvInsert scan_id "running"])%list.
Proof.
  rewrite create_scan_eq. cbv zeta.
  destruct (w_conn w); [|done].
  destruct (w_scans w !! env_uuid4 env (w_uuids w)) eqn:Hfresh; [done|].
  intros [= <- <-]. done.
Qed.

Lemma create_scan_raise_inv env target scan_type w e w1 :
  Database.create_scan env target scan_type w = (Raise e, w1) ->
  w_scans w1 = w_scans w /\ w_log w1 = w_log w.
Proof.
  rewrite create_scan_eq. cbv zeta.
  destruct (w_conn w); [|by intros [= <- <-]].
  destruct (w_scans w !! env_uuid4 env (w_uuids w)); [|done].
  by intros [= <- <-].
Qed.

Lemma db_events_snoc log ev :
  is_db_event ev = true -> db_events (log ++ [ev]) = (db_events log ++ [ev])%list.
Proof.
  intros Hev. unfold db_events. rewrite filter_app, filter_cons, decide_True; [done|].
  by rewrite Hev.
Qed.

Lemma str_in_elem_of k l : str_in k l = true <-> k ∈ l.
Proof.
  unfold str_in. rewrite existsb_exists. split.
  - intros (x & Hin & Heq). apply String.eqb_eq in Heq as ->.
    by apply list_elem_of_In.
  - intros Hin. exists k. split; [by apply list_elem_of_In|apply String.eqb_refl].
Qed.

(** C1, as the code has it. Neither entry point isolates a module: when a
    selected module's scan raises (the first to do so, in the order in which
    the modules run), the exception ends the request at the single handler
    of [start_scan], which raises HTTP 500 with the exception's message to
    the caller.  No response is returned, so the payloads of the modules
    that had already succeeded are not delivered; the results are not
    saved, and the scan record stays as it was created, in status
    'running'.  This holds for app.py, and for both branches of app_v2.py. *)
Theorem module_exception_fails_request env :
  (forall req w scan_id w1 e,
      Database.create_scan env (App.target req) (App.scan_type req) w = (Ok scan_id, w1) ->
      first_failure env (App.target req) (App.modules req) = Some e ->
      exists w2,
        App.start_scan env req w = (Raise (MkHTTPException 500 (exn_str e)), w2) /\
        w_scans w2 = w_scans w1 /\
        status_of w2 scan_id = Some "running" /\
        db_events (w_log w2) = (db_events (w_log w) ++ [EvInsert scan_id "running"])%list) /\
  (forall req w scan_id w1 e,
      Database.create_scan env (AppV2.target req) (AppV2.scan_type req) w = (Ok scan_id, w1) ->
      (if String.eqb (AppV2.target_type req) "person"
       then env_person_scan env (AppV2.target req) (AppV2.state req) (AppV2.dob req) = Raise e
       else first_failure env (AppV2.target req) (AppV2.modules req) = Some e) ->
      exists w2,
        AppV2.start_scan env req w = (Raise (MkHTTPException 500 (exn_str e)), w2) /\
        w_scans w2 = w_scans w1 /\
        status_of w2 scan_id = Some "running" /\
        db_events (w_log w2) = (db_events (w_log w) ++ [EvInsert scan_id "running"])%list).
Proof.
  assert (Hkept : forall {A} (m : M A) target scan_type w scan_id w1 r w2,
             Database.create_scan env target scan_type w = (Ok scan_id, w1) ->
             db_silent m -> m w1 = (r, w2) ->
             w_scans w2 = w_scans w1 /\
             status_of w2 scan_id = Some "running" /\
             db_events (w_log w2) = (db_events (w_log w) ++ [EvInsert scan_id "running"])%list).
  { intros A m target scan_type w scan_id w1 r w2 Hcreate Hm Hrun.
    destruct (create_scan_inv _ _ _ _ _ _ Hcreate) as (_ & Hs1 & _ & _ & Hl1).
    destruct (db_silent_run m w1 r w2 Hm Hrun) as (Hs & _ & Hl).
    split; [done|]. split.
    - unfold status_of. by rewrite Hs, Hs1, lookup_insert_eq.
    - by rewrite Hl, Hl1, db_events_snoc. }
  split.
  - intros req w scan_id w1 e Hcreate Hfail.
    rewrite start_scan_eq, Hcreate.
    pose proof (execute_selected_modules_cases env (App.target req) (App.modules req) w1)
      as Hcases.
    rewrite Hfail in Hcases. destruct Hcases as [w2 Hw2]. rewrite Hw2.
    exists w2. split; [done|].
    eapply Hkept; [exact Hcreate|apply db_silent_execute_selected_modules|exact Hw2].
  - intros req w scan_id w1 e Hcreate Hfail.
    rewrite start_scan_v2_eq, Hcreate.
    destruct (String.eqb (AppV2.target_type req) "person").
    + destruct (person_intel_scan env (AppV2.target req) (AppV2.state req)
                  (AppV2.dob req) w1) as [r w2] eqn:Hw2.
      assert (r = Raise e) as ->.
      { revert Hw2. unfold person_intel_scan, bind, call, emit, lift. cbn.
        rewrite Hfail. by intros [= <- _]. }
      exists w2. split; [done|].
      eapply Hkept; [exact Hcreate|apply db_silent_person_intel_scan|exact Hw2].
    + pose proof (execute_selected_modules_cases env (AppV2.target req)
                    (AppV2.modules req) w1) as Hcases.
      rewrite Hfail in Hcases. destruct Hcases as [w2 Hw2]. rewrite Hw2.
      exists w2. split; [done|].
      eapply Hkept; [exact Hcreate|apply db_silent_execute_selected_modules|exact Hw2].
Qed.

Lemma module_exception_fails_request_witness :
  exists w2,
    App.start_scan Sample.env (App.MkReconRequest "http://[" "full" ["domain"; "web"])
      Sample.world =
    (Raise (MkHTTPException 500 "Invalid IPv6 URL"), w2) /\
    status_of w2 "scan-0" = Some "running".
Proof.
  destruct (module_exception_fails_request Sample.env) as [Happ _].
  destruct (Happ (App.MkReconRequest "http://[" "full" ["domain"; "web"]) Sample.world
              "scan-0" _ (PyExn "ValueError" "Invalid IPv6 URL") eq_refl eq_refl)
    as (w2 & Hrun & _ & Hstatus & _).
  exists w2. split; [exact Hrun|exact Hstatus].
Defined.

(** Where C1 fails as stated: the domain module returns its payload, the web
    module raises on a malformed URL; the exception reaches the caller as
    HTTP 500, no payload is returned and the scan stays 'running'. *)
Lemma module_exception_reaches_caller :
  env_domain_scan Sample.env "http://[" = Ok "domain data" /\
  env_web_scan Sample.env "http://[" = Raise (PyExn "ValueError" "Invalid IPv6 URL") /\
  (App.start_scan Sample.env (App.MkReconRequest "http://[" "full" ["domain"; "web"])
     Sample.world).1 = Raise (MkHTTPException 500 "Invalid IPv6 URL") /\
  status_of (App.start_scan Sample.env
               (App.MkReconRequest "http://[" "full" ["domain"; "web"])
               Sample.world).2 "scan-0" = Some "running".
Proof. repeat split; vm_compute; reflexivity. Qed.

(** C2, as the code has it. Whenever app.py's [start_scan] returns a
    response, the keys of its result map are the known module names
    (domain, web, network, social, threat) that occur in the requested list,
    each once and in that fixed order of the source, whatever the order,
    repetitions or other names of the request; that same map is the one
    the analysis was computed from.  (When a selected module raises there is
    no result map: see C1.) *)
Theorem result_keys_in_source_order env req w resp w' :
  App.start_scan env req w = (Ok resp, w') ->
  dict_keys (App.resp_results resp) =
    List.filter (fun k => str_in k (App.modules req)) known_modules /\
  (forall k, k ∈ dict_keys (App.resp_results resp) <->
             k ∈ known_modules /\ k ∈ App.modules req) /\
  NoDup (dict_keys (App.resp_results resp)) /\
  App.resp_status resp = "completed" /\
  exists w1 w2,
    LLMAnalyzer.analyze env (App.target req) (App.resp_results resp) w1 =
    (Ok (App.resp_analysis resp), w2).
Proof.
  rewrite start_scan_eq.
  destruct (Database.create_scan _ _ _ w) as [[scan_id|e] w1]; [|done].
  pose proof (execute_selected_modules_cases env (App.target req) (App.modules req) w1)
    as Hcases.
  destruct (execute_selected_modules _ _ _ w1) as [[results|e] w2] eqn:Hexec; [|done].
  destruct (LLMAnalyzer.analyze _ _ _ w2) as [[analysis|e] w3] eqn:Han; [|done].
  destruct (Database.save_results _ _ _ _ w3) as [[[]|e] w4]; [|done].
  intros [= <- <-]. cbn [App.resp_results App.resp_status App.resp_analysis].
  assert (Hkeys : dict_keys results =
                  List.filter (fun k => str_in k (App.modules req)) known_modules).
  { destruct (first_failure env (App.target req) (App.modules req)).
    - by destruct Hcases as [? [=]].
    - by destruct Hcases as (? & ? & [= <- <-] & ?). }
  split; [exact Hkeys|]. split; [|split; [|split; [done|eauto]]].
  - intros k. rewrite Hkeys, list_elem_of_In, filter_In, <- list_elem_of_In.
    by rewrite str_in_elem_of.
  - rewrite Hkeys. apply NoDup_ListNoDup, List.NoDup_filter, NoDup_ListNoDup.
    by apply (bool_decide_unpack _).
Qed.

Lemma result_keys_in_source_order_witness :
  exists resp,
    (App.start_scan Sample.env (App.MkReconRequest "example.com" "full" ["threat"; "web"])
       Sample.world).1 = Ok resp /\
    dict_keys (App.resp_results resp) =
      List.filter (fun k => str_in k ["threat"; "web"]) known_modules.
Proof.
  destruct (App.start_scan Sample.env
              (App.MkReconRequest "example.com" "full" ["threat"; "web"]) Sample.world)
    as [[resp|e] w'] eqn:Hrun; [|vm_compute in Hrun; discriminate Hrun].
  exists resp. split; [reflexivity|].
  apply (result_keys_in_source_order Sample.env _ _ _ _ Hrun).
Defined.

(** Where C2 fails as stated: modules requested as web, domain come back as
    domain, web. *)
Lemma keys_not_in_request_order :
  exists resp,
    (App.start_scan Sample.env (App.MkReconRequest "example.com" "full" ["web"; "domain"])
       Sample.world).1 = Ok resp /\
    dict_keys (App.resp_results resp) = ["domain"; "web"] /\
    dict_keys (App.resp_results resp) <> ["web"; "domain"].
Proof.
  eexists. split; [vm_compute; reflexivity|]. split; [reflexivity|discriminate].
Qed.

(** Names the entry point does not know are dropped without notice. *)
Example unknown_module_is_omitted :
  exists resp,
    (App.start_scan Sample.env (App.MkReconRequest "example.com" "full" ["whois"; "threat"])
       Sample.world).1 = Ok resp /\
    dict_keys (App.resp_results resp) = ["threat"].
Proof. eexists. split; [vm_compute; reflexivity|reflexivity]. Qed.

Lemma save_results_inv env scan_id results analysis w r w' :
  Database.save_results env scan_id results analysis w = (r, w') ->
  (r = Ok tt /\
   (exists results_json analysis_json,
       w_scans w' = alter (Database.update_scan_row "completed"
                             (env_utcnow env (w_clock w)) results_json analysis_json)
                      scan_id (w_scans w)) /\
   w_log w' = (w_log w ++ [EvUpdate scan_id "completed"])%list) \/
  ((exists e, r = Raise e) /\ w_scans w' = w_scans w /\ w_log w' = w_log w).
Proof.
  rewrite save_results_eq.
  destruct (w_conn w); [|intros [= <- <-]; right; eauto].
  destruct (env_dumps_results env results) as [rj|e]; [|intros [= <- <-]; right; eauto].
  destruct (env_dumps_analysis env analysis) as [aj|e]; [|intros [= <- <-]; right; eauto].
  intros [= <- <-]. left. eauto 6.
Qed.

(** The writes one request to app.py makes to the table: none when the
    record cannot be created, then the creation alone when a later stage
    fails, and the creation followed by one final update of the same record
    exactly when a response is returned. *)
Lemma start_scan_writes env req w :
  exists evs,
    db_events (w_log (App.start_scan env req w).2) = (db_events (w_log w) ++ evs)%list /\
    match (App.start_scan env req w).1 with
    | Ok resp =>
        evs = [EvInsert (App.resp_scan_id resp) "running";
               EvUpdate (App.resp_scan_id resp) "completed"]
    | Raise _ => evs = [] \/ exists scan_id, evs = [EvInsert scan_id "running"]
    end.
Proof.
  rewrite start_scan_eq.
  destruct (Database.create_scan _ _ _ w) as [[scan_id|e] w1] eqn:Hcreate.
  2:{ destruct (create_scan_raise_inv _ _ _ _ _ _ Hcreate) as [_ Hl].
      exists []. cbn. rewrite Hl, app_nil_r. auto. }
  destruct (create_scan_inv _ _ _ _ _ _ Hcreate) as (_ & _ & _ & _ & Hl1).
  assert (H1 : db_events (w_log w1) = (db_events (w_log w) ++ [EvInsert scan_id "running"])%list)
    by (by rewrite Hl1, db_events_snoc).
  destruct (execute_selected_modules _ _ _ w1) as [[results|e] w2] eqn:Hexec;
    destruct (db_silent_run _ _ _ _ (db_silent_execute_selected_modules _ _ _) Hexec)
      as (_ & _ & H2).
  2:{ exists [EvInsert scan_id "running"]. cbn. rewrite H2, H1. eauto. }
  destruct (LLMAnalyzer.analyze _ _ _ w2) as [[analysis|e] w3] eqn:Han;
    destruct (db_silent_run _ _ _ _ (db_silent_analyze _ _ _) Han) as (_ & _ & H3).
  2:{ exists [EvInsert scan_id "running"]. cbn. rewrite H3, H2, H1. eauto. }
  destruct (Database.save_results _ _ _ _ w3) as [[[]|e] w4] eqn:Hsave;
    destruct (save_results_inv _ _ _ _ _ _ _ Hsave) as [(Hr & _ & Hl4)|([e' Hr] & _ & Hl4)];
    try discriminate Hr.
  - exists [EvInsert scan_id "running"; EvUpdate scan_id "completed"]. cbn.
    rewrite Hl4, db_events_snoc, H3, H2, H1 by done. by rewrite <- app_assoc.
  - exists [EvInsert scan_id "running"]. cbn. rewrite Hl4, H3, H2, H1. eauto.
Qed.

Lemma initial_table_well_formed conn clock uuids log :
  table_well_formed (MkWorld ∅ conn clock uuids log).
Proof. intros scan_id row. cbn. by rewrite lookup_empty. Qed.

(** C4. The persisted status of a scan takes only the values 'running' and
    'completed', in that order: [create_scan] writes a record that did not
    exist, with status 'running', created_at set and completed_at unset;
    [save_results] rewrites the record to status 'completed' with
    completed_at set; over any sequence of uses of the store, from a table
    holding only such records, every scan is observed absent, then
    'running', then 'completed', and never otherwise; and a request to
    app.py writes the record once at creation and at most once more, with
    its single final update, made exactly when the request succeeds. *)
Theorem scan_status_running_then_completed env :
  (forall target scan_type w scan_id w',
      Database.create_scan env target scan_type w = (Ok scan_id, w') ->
      status_of w scan_id = None /\
      w_scans w' !! scan_id =
        Some (MkScanRow target scan_type "running" (env_utcnow env (w_clock w))
                None None None)) /\
  (forall scan_id results analysis w w' row,
      Database.save_results env scan_id results analysis w = (Ok tt, w') ->
      w_scans w !! scan_id = Some row ->
      exists row',
        w_scans w' !! scan_id = Some row' /\
        row_status row' = "completed" /\
        row_completed_at row' = Some (env_utcnow env (w_clock w)) /\
        row_created_at row' = row_created_at row) /\
  (forall calls w scan_id,
      table_well_formed w ->
      exists a b c,
        observe env calls w scan_id =
        (replicate a None ++ replicate b (Some "running") ++
         replicate c (Some "completed"))%list) /\
  (forall req w,
      exists evs,
        db_events (w_log (App.start_scan env req w).2) = (db_events (w_log w) ++ evs)%list /\
        match (App.start_scan env req w).1 with
        | Ok resp =>
            evs = [EvInsert (App.resp_scan_id resp) "running";
                   EvUpdate (App.resp_scan_id resp) "completed"]
        | Raise _ => evs = [] \/ exists scan_id, evs = [EvInsert scan_id "running"]
        end).
Proof.
  split; [|split; [|split]].
  - intros target scan_type w scan_id w' Hcreate.
    destruct (create_scan_inv _ _ _ _ _ _ Hcreate) as (Hfresh & Hs & _).
    unfold status_of. rewrite Hfresh, Hs, lookup_insert_eq. done.
  - intros scan_id results analysis w w' row Hsave Hrow.
    destruct (save_results_inv _ _ _ _ _ _ _ Hsave)
      as [(_ & (rj & aj & Hs) & _)|([e [=]] & _)].
    eexists. rewrite Hs, lookup_alter, decide_True, Hrow by done. cbn. done.
  - intros calls w scan_id Hwf. by apply observe_monotonic.
  - apply start_scan_writes.
Qed.

Lemma scan_status_running_then_completed_witness :
  exists a b c,
    observe Sample.env
      [CallCreateScan "example.com" "full";
       CallSaveResults "scan-0" []
         (MkAnalysis "example.com" "" "" 0 JNull JNull JNull JNull None);
       CallCreateScan "example.org" "quick"]
      Sample.world "scan-0" =
    (replicate a None ++ replicate b (Some "running") ++
     replicate c (Some "completed"))%list.
Proof.
  destruct (scan_status_running_then_completed Sample.env) as (_ & _ & Hobserve & _).
  apply Hobserve. apply initial_table_well_formed.
Defined.

(** A scan created and then saved on the sample store is observed absent,
    running, completed. *)
Example observe_example :
  observe Sample.env
    [CallCreateScan "example.com" "full";
     CallSaveResults "scan-0" []
       (MkAnalysis "example.com" "" "" 0 JNull JNull JNull JNull None)]
    Sample.world "scan-0" =
  [None; Some "running"; Some "completed"].
Proof. vm_compute. reflexivity. Qed.



(** With the provider down, every field of the sample analysis holds its
    placeholder and the scan completes. *)
Example analysis_example :
  exists a,
    (LLMAnalyzer.analyze Sample.env "example.com" [] Sample.world).1 = Ok a /\
    an_summary a = "Summary generation failed: Connection error." /\
    an_risk_score a = 50 /\
    an_recommendations a = JArr [JStr "Unable to generate recommendations"] /\
    an_error a = None.
Proof. eexists. split; [vm_compute; reflexivity|]. repeat split. Qed.

(** C10. In app_v2.py every call of [analyze] passes the keyword
    [target_type], which [analyze(target, results)] does not accept: the
    call raises TypeError before the body runs ([Database] has no
    [update_scan] attribute either, for the step that would follow).  So
    for every request, of either target kind, [start_scan] raises HTTP 500
    and returns no response; no record is ever updated: the record created
    at the start of the request, if any, is left in status 'running'; and
    when the record was created and the selected modules returned, the error
    reported is that TypeError: the detail of the HTTP error is its
    message. *)
Theorem v2_scan_always_fails env :
  (exists e,
      exn_class e = "TypeError" /\
      forall results target_type w,
        LLMAnalyzer.call_analyze env [VResults results]
          [("target_type", VStr target_type)] w = (Raise e, w)) /\
  (forall w,
      Database.getattr "update_scan" w =
      (Raise (PyExn "AttributeError"
                "'Database' object has no attribute 'update_scan'"), w)) /\
  (forall req w,
      exists d w',
        AppV2.start_scan env req w = (Raise (MkHTTPException 500 d), w') /\
        (forall scan_id,
            status_of w' scan_id = status_of w scan_id \/
            (status_of w scan_id = None /\ status_of w' scan_id = Some "running")) /\
        (exists evs,
            db_events (w_log w') = (db_events (w_log w) ++ evs)%list /\
            (evs = [] \/ exists scan_id, evs = [EvInsert scan_id "running"])) /\
        (forall scan_id w1,
            Database.create_scan env (AppV2.target req) (AppV2.scan_type req) w =
              (Ok scan_id, w1) ->
            status_of w' scan_id = Some "running" /\
            ((if String.eqb (AppV2.target_type req) "person"
              then exists blob,
                  env_person_scan env (AppV2.target req) (AppV2.state req)
                    (AppV2.dob req) = Ok blob
              else first_failure env (AppV2.target req) (AppV2.modules req) = None) ->
             exists e,
               exn_class e = "TypeError" /\
               (forall results target_type w0,
                   LLMAnalyzer.call_analyze env [VResults results]
                     [("target_type", VStr target_type)] w0 = (Raise e, w0)) /\
               d = exn_str e))).
Proof.
  assert (Herr : exists e,
             exn_class e = "TypeError" /\
             (forall results target_type w0,
                 LLMAnalyzer.call_analyze env [VResults results]
                   [("target_type", VStr target_type)] w0 = (Raise e, w0)) /\
             exn_str e =
               "LLMAnalyzer.analyze() got an unexpected keyword argument 'target_type'").
  { eexists (PyExn _ _). split; [reflexivity|]. split; [|reflexivity].
    intros. apply call_analyze_target_type. }
  destruct Herr as (err & Hclass & Hcall & Hstr).
  split; [by exists err|]. split; [by intros|].
  intros req w. rewrite start_scan_v2_eq.
  destruct (Database.create_scan _ _ _ w) as [[scan_id|e] w1] eqn:Hcreate.
  2:{ destruct (create_scan_raise_inv _ _ _ _ _ _ Hcreate) as [Hs Hl].
      eexists _, w1. split; [reflexivity|]. split; [|split].
      - intros id. left. unfold status_of. by rewrite Hs.
      - exists []. rewrite Hl, app_nil_r. auto.
      - intros ? ? [=]. }
  destruct (create_scan_inv _ _ _ _ _ _ Hcreate) as (Hfresh & Hs1 & _ & _ & Hl1).
  assert (Hafter : forall {A} (m : M A) r w2,
             db_silent m -> m w1 = (r, w2) ->
             (forall id,
                 status_of w2 id = status_of w id \/
                 (status_of w id = None /\ status_of w2 id = Some "running")) /\
             (exists evs,
                 db_events (w_log w2) = (db_events (w_log w) ++ evs)%list /\
                 (evs = [] \/ exists id, evs = [EvInsert id "running"])) /\
             status_of w2 scan_id = Some "running").
  { intros A m r w2 Hm Hrun.
    destruct (db_silent_run m w1 r w2 Hm Hrun) as (Hs & _ & Hl).
    unfold status_of. rewrite Hs, Hs1. split; [|split].
    - intros id. destruct (decide (scan_id = id)) as [<-|Hne].
      + right. by rewrite lookup_insert_eq, Hfresh.
      + left. by rewrite lookup_insert_ne.
    - exists [EvInsert scan_id "running"]. rewrite Hl, Hl1, db_events_snoc by done. eauto.
    - by rewrite lookup_insert_eq. }
  destruct (String.eqb (AppV2.target_type req) "person").
  - destruct (person_intel_scan env (AppV2.target req) (AppV2.state req)
                (AppV2.dob req) w1) as [[p|e] w2] eqn:Hrun;
      destruct (Hafter _ _ _ _ (db_silent_person_intel_scan _ _ _ _) Hrun)
        as (Hst & Hev & Hrunning);
      eexists _, w2; (split; [reflexivity|]); (split; [exact Hst|]);
      (split; [exact Hev|]); intros id w1' [= <- <-]; (split; [exact Hrunning|]).
    + intros _. exists err. by rewrite Hstr.
    + intros [blob Hblob]. exfalso. revert Hrun.
      unfold person_intel_scan, bind, call, emit, lift. cbn. by rewrite Hblob.
  - pose proof (execute_selected_modules_cases env (AppV2.target req)
                  (AppV2.modules req) w1) as Hcases.
    destruct (execute_selected_modules env (AppV2.target req) (AppV2.modules req) w1)
      as [[results|e] w2] eqn:Hrun;
      destruct (Hafter _ _ _ _ (db_silent_execute_selected_modules _ _ _) Hrun)
        as (Hst & Hev & Hrunning);
      eexists _, w2; (split; [reflexivity|]); (split; [exact Hst|]);
      (split; [exact Hev|]); intros id w1' [= <- <-]; (split; [exact Hrunning|]).
    + intros _. exists err. by rewrite Hstr.
    + intros Hnone. rewrite Hnone in Hcases. by destruct Hcases as (? & ? & [=] & _).
Qed.

Lemma v2_scan_always_fails_witness :
  exists d w',
    AppV2.start_scan Sample.env
      (AppV2.MkReconRequest "John Smith" "full" "person" [] (Some "CA") None)
      Sample.world = (Raise (MkHTTPException 500 d), w') /\
    status_of w' "scan-0" = Some "running".
Proof.
  destruct (v2_scan_always_fails Sample.env) as (_ & _ & Hscan).
  destruct (Hscan (AppV2.MkReconRequest "John Smith" "full" "person" [] (Some "CA") None)
              Sample.world) as (d & w' & Hrun & _ & _ & Hcreated).
  exists d, w'. split; [exact Hrun|].
  by destruct (Hcreated "scan-0" _ eq_refl).
Defined.

(** A domain scan and a person scan on the sample collaborators. *)
Example v2_domain_scan_example :
  (AppV2.start_scan Sample.env
     (AppV2.MkReconRequest "example.com" "full" "domain" ["network"; "web"] None None)
     Sample.world).1 =
  Raise (MkHTTPException 500
           "LLMAnalyzer.analyze() got an unexpected keyword argument 'target_type'") /\
  status_of (AppV2.start_scan Sample.env
               (AppV2.MkReconRequest "example.com" "full" "domain" ["network"; "web"]
                  None None)
               Sample.world).2 "scan-0" = Some "running".
Proof. split; vm_compute; reflexivity. Qed.

Example v2_person_scan_example :
  (AppV2.start_scan Sample.env
     (AppV2.MkReconRequest "John Smith" "full" "person" [] (Some "CA") None)
     Sample.world).1 =
  Raise (MkHTTPException 500
           "LLMAnalyzer.analyze() got an unexpected keyword argument 'target_type'").
Proof. vm_compute. reflexivity. Qed.

(** * Further properties *)

(** ** The store: identifiers, updates and reads *)

Section StoreMore.
Variable env : Env.

(** X1. Two scans created one after the other, of the same target or not,
    get distinct identifiers and independent records: both records are in
    the table, each as it was created, and every other record is as it was
    before. *)
Theorem create_scan_twice_distinct target1 scan_type1 target2 scan_type2
    w scan_id1 w1 scan_id2 w2 :
  Database.create_scan env target1 scan_type1 w = (Ok scan_id1, w1) ->
  Database.create_scan env target2 scan_type2 w1 = (Ok scan_id2, w2) ->
  scan_id1 <> scan_id2 /\
  w_scans w2 !! scan_id1 =
    Some (MkScanRow target1 scan_type1 "running" (env_utcnow env (w_clock w))
            None None None) /\
  w_scans w2 !! scan_id2 =
    Some (MkScanRow target2 scan_type2 "running" (env_utcnow env (w_clock w1))
            None None None) /\
  (forall scan_id, scan_id <> scan_id1 -> scan_id <> scan_id2 ->
                   w_scans w2 !! scan_id = w_scans w !! scan_id).
Proof.
  intros H1 H2.
  destruct (create_scan_inv _ _ _ _ _ _ H1) as (Hf1 & Hs1 & _).
  destruct (create_scan_inv _ _ _ _ _ _ H2) as (Hf2 & Hs2 & _).
  assert (Hne : scan_id1 <> scan_id2).
  { intros <-. by rewrite Hs1, lookup_insert_eq in Hf2. }
  split; [done|]. rewrite Hs2, Hs1. split; [|split].
  - by rewrite lookup_insert_ne, lookup_insert_eq by done.
  - by rewrite lookup_insert_eq.
  - intros id Hn1 Hn2. by rewrite !lookup_insert_ne by done.
Qed.

(** X2. When the generated identifier is already a key of the table,
    [create_scan] raises the integrity error of the primary key and the
    table is left as it was: an existing record is never overwritten. *)
Theorem create_scan_collision target scan_type w row :
  w_conn w = true ->
  w_scans w !! env_uuid4 env (w_uuids w) = Some row ->
  exists w',
    Database.create_scan env target scan_type w =
    (Raise (PyExn "IntegrityError" "UNIQUE constraint failed: scans.scan_id"), w') /\
    w_scans w' = w_scans w /\ w_log w' = w_log w.
Proof.
  intros Hconn Hrow. rewrite create_scan_eq. cbv zeta. rewrite Hconn, Hrow.
  eexists. split; [reflexivity|]. done.
Qed.


End StoreMore.

Section StoreReads.
Variable env : Env.

Lemma get_scan_eq scan_id w :
  Database.get_scan env scan_id w =
  (if w_conn w then
     match w_scans w !! scan_id with
     | None => Ok None
     | Some row =>
         match loads_value env (row_results row) with
         | Raise e => Raise e
         | Ok results =>
             match loads_value env (row_analysis row) with
             | Raise e => Raise e
             | Ok analysis =>
                 Ok (Some (Database.MkScanRecord scan_id (row_target row)
                             (row_scan_type row) (row_status row) (row_created_at row)
                             (row_completed_at row) results analysis))
             end
         end
     end
   else Raise (PyExn "AttributeError" "'NoneType' object has no attribute 'cursor'"),
   w).
Proof.
  unfold Database.get_scan, Database.cursor, Database.select_scan, bind.
  destruct (w_conn w); [|done].
  destruct (w_scans w !! scan_id) as [row|]; [|done].
  unfold Database.loads_or_empty, loads_value, lift, ret.
  destruct (row_results row) as [[|c t]|]; destruct (row_analysis row) as [[|c' t']|];
    repeat first [done | match goal with |- context [env_json_loads env ?x] =>
                           destruct (env_json_loads env x) end].
Qed.

(** X4. [get_scan] only reads: whatever it returns or raises, the world is
    as before; on an initialized store it returns None exactly for the
    identifiers that are not in the table. *)
Theorem get_scan_reads_only scan_id w :
  (Database.get_scan env scan_id w).2 = w /\
  (w_conn w = true ->
   ((Database.get_scan env scan_id w).1 = Ok None <-> w_scans w !! scan_id = None)).
Proof.
  rewrite get_scan_eq. split; [done|]. intros ->. cbn.
  destruct (w_scans w !! scan_id) as [row|]; [|done].
  destruct (loads_value env (row_results row)); [|done].
  destruct (loads_value env (row_analysis row)); done.
Qed.

(** X5. A scan that has just been created is retrieved as it was created:
    status 'running', no completion time, and empty dictionaries for the
    results and the analysis it does not have yet (nothing is decoded). *)
Theorem get_scan_after_create target scan_type w scan_id w1 :
  Database.create_scan env target scan_type w = (Ok scan_id, w1) ->
  Database.get_scan env scan_id w1 =
  (Ok (Some (Database.MkScanRecord scan_id target scan_type "running"
               (env_utcnow env (w_clock w)) None (JObj []) (JObj []))), w1).
Proof.
  intros Hcreate.
  destruct (create_scan_inv _ _ _ _ _ _ Hcreate) as (_ & Hs & _ & Hc & _).
  by rewrite get_scan_eq, Hc, Hs, lookup_insert_eq.
Qed.

(** X6. After [save_results] on an existing record, [get_scan] returns the
    record with status 'completed', its completion time, and for results and
    analysis what [json.loads] makes of exactly the texts [json.dumps]
    produced. *)
Theorem get_scan_after_save scan_id results analysis w w' row
    results_json analysis_json results_value analysis_value :
  Database.save_results env scan_id results analysis w = (Ok tt, w') ->
  w_scans w !! scan_id = Some row ->
  env_dumps_results env results = Ok results_json ->
  env_dumps_analysis env analysis = Ok analysis_json ->
  loads_value env (Some results_json) = Ok results_value ->
  loads_value env (Some analysis_json) = Ok analysis_value ->
  Database.get_scan env scan_id w' =
  (Ok (Some (Database.MkScanRecord scan_id (row_target row) (row_scan_type row)
               "completed" (row_created_at row)
               (Some (env_utcnow env (w_clock w))) results_value analysis_value)), w').
Proof.
  intros Hsave Hrow Hdr Hda Hlr Hla. revert Hsave.
  rewrite save_results_eq, Hdr, Hda.
  destruct (w_conn w) eqn:Hconn; [|done]. intros [= <-].
  rewrite get_scan_eq. cbn [w_conn w_scans]. rewrite lookup_alter_eq, Hrow. cbn.
  unfold loads_value in Hlr, Hla. by rewrite Hlr, Hla.
Qed.

Lemma get_statistics_eq findings w :
  Database.get_statistics env findings w =
  if w_conn w then
    (Ok (Database.MkStatistics (scans_total w) (scans_completed w) findings
           (env_utcnow env (w_clock w))),
     MkWorld (w_scans w) (w_conn w) (S (w_clock w)) (w_uuids w) (w_log w))
  else (Raise (PyExn "AttributeError" "'NoneType' object has no attribute 'cursor'"), w).
Proof.
  unfold Database.get_statistics, Database.cursor, Database.count_scans,
    Database.count_completed, scans_total, scans_completed, bind, utcnow, ret.
  destruct w as [scans conn clock uuids log]. cbn. by destruct conn.
Qed.

(** X7. On an initialized store [get_statistics] returns, without changing
    the table: the completed scans it counts are never more than the scans
    it counts, and it counts no scan exactly when the table is empty. *)
Theorem get_statistics_counts findings w :
  w_conn w = true ->
  exists st w',
    Database.get_statistics env findings w = (Ok st, w') /\
    w_scans w' = w_scans w /\
    (Database.completed_scans st <= Database.total_scans st)%nat /\
    Database.total_findings st = findings /\
    (Database.total_scans st = 0%nat <-> w_scans w = ∅).
Proof.
  intros Hconn. rewrite get_statistics_eq, Hconn. eexists _, _.
  split; [reflexivity|]. cbn. repeat split.
  - apply map_subseteq_size, map_filter_subseteq.
  - apply map_size_empty_inv.
  - unfold scans_total. intros ->. apply map_size_empty.
Qed.

End StoreReads.

Section StoreCounts.
Variable env : Env.

Lemma scans_completed_insert_running scan_id row (scans : gmap string scan_row) :
  scans !! scan_id = None -> row_status row <> "completed" ->
  size (filter (fun entry : string * scan_row => row_status entry.2 = "completed")
          (<[scan_id := row]> scans)) =
  size (filter (fun entry : string * scan_row => row_status entry.2 = "completed") scans).
Proof.
  intros Hfresh Hrow. rewrite map_filter_insert_not'; [done|done|].
  intros y Hy. by rewrite Hfresh in Hy.
Qed.

Lemma scans_completed_insert_completed scan_id old row (scans : gmap string scan_row) :
  scans !! scan_id = old -> row_status row = "completed" ->
  size (filter (fun entry : string * scan_row => row_status entry.2 = "completed")
          (<[scan_id := row]> scans)) =
  (size (filter (fun entry : string * scan_row => row_status entry.2 = "completed") scans) +
   match old with
   | Some old_row => if decide (row_status old_row = "completed") then 0 else 1
   | None => 1
   end)%nat.
Proof.
  intros Hold Hrow. rewrite map_filter_insert_True by done.
  rewrite map_size_insert, map_lookup_filter, Hold.
  destruct old as [old_row|]; [|cbn; lia].
  cbn [mbind option_bind snd].
  destruct (decide (row_status old_row = "completed")) as [Hdone|Hnot].
  - rewrite option_guard_True by done. cbn. lia.
  - rewrite option_guard_False by done. cbn. lia.
Qed.

(** X8. Creating a scan adds one to the scans [get_statistics] counts and
    leaves the number of completed scans as it was. *)
Theorem statistics_after_create target scan_type w scan_id w1 findings :
  Database.create_scan env target scan_type w = (Ok scan_id, w1) ->
  (Database.get_statistics env findings w1).1 =
  Ok (Database.MkStatistics (S (scans_total w)) (scans_completed w) findings
        (env_utcnow env (w_clock w1))).
Proof.
  intros Hcreate.
  destruct (create_scan_inv _ _ _ _ _ _ Hcreate) as (Hfresh & Hs & _ & Hc & _).
  rewrite get_statistics_eq, Hc. cbn. unfold scans_total, scans_completed. rewrite Hs.
  by rewrite map_size_insert_None, scans_completed_insert_running.
Qed.

(** X9. [save_results] never changes the number of scans, and adds one to
    the number of completed scans exactly when its record exists and was
    not completed already: saving twice, or for an unknown identifier,
    counts nothing. *)
Theorem statistics_after_save scan_id results analysis w w' :
  Database.save_results env scan_id results analysis w = (Ok tt, w') ->
  scans_total w' = scans_total w /\
  scans_completed w' =
    (scans_completed w +
     match w_scans w !! scan_id with
     | Some row => if decide (row_status row = "completed") then 0 else 1
     | None => 0
     end)%nat.
Proof.
  intros Hsave.
  destruct (save_results_inv _ _ _ _ _ _ _ Hsave) as [(_ & (rj & aj & Hs) & _)|([e [=]] & _)].
  unfold scans_total, scans_completed. rewrite Hs.
  destruct (w_scans w !! scan_id) as [row|] eqn:Hrow.
  - assert (alter (Database.update_scan_row "completed" (env_utcnow env (w_clock w)) rj aj)
              scan_id (w_scans w) =
            <[scan_id := Database.update_scan_row "completed"
                           (env_utcnow env (w_clock w)) rj aj row]> (w_scans w)) as ->.
    { apply map_eq. intros i. destruct (decide (scan_id = i)) as [<-|Hne].
      - by rewrite lookup_alter_eq, lookup_insert_eq, Hrow.
      - by rewrite lookup_alter_ne, lookup_insert_ne. }
    split; [by rewrite map_size_insert_Some|].
    by rewrite (scans_completed_insert_completed scan_id (Some row)).
  - assert (alter (Database.update_scan_row "completed" (env_utcnow env (w_clock w)) rj aj)
              scan_id (w_scans w) = w_scans w) as ->; [|split; lia].
    apply map_eq. intros i. rewrite lookup_alter. case_decide; [subst; by rewrite Hrow|done].
Qed.

End StoreCounts.

Lemma statistics_after_create_witness :
  (Database.get_statistics Sample.env 0
     (Database.create_scan Sample.env "example.com" "full" Sample.world).2).1 =
  Ok (Database.MkStatistics 1 0 0 "2024-01-01T00:00:01").
Proof.
  apply (statistics_after_create Sample.env "example.com" "full" Sample.world "scan-0").
  reflexivity.
Defined.

(** ** Recent scans *)

Lemma string_leb_trans (a b c : string) :
  String.leb a b = true -> String.leb b c = true -> String.leb a c = true.
Proof.
  unfold String.leb. revert b c.
  induction a as [|x a IH]; intros [|y b] [|z c]; cbn; try done.
  unfold Ascii.compare.
  destruct (N.compare_spec (Ascii.N_of_ascii x) (Ascii.N_of_ascii y)) as [Hxy|Hxy|Hxy];
  destruct (N.compare_spec (Ascii.N_of_ascii y) (Ascii.N_of_ascii z)) as [Hyz|Hyz|Hyz];
  destruct (N.compare_spec (Ascii.N_of_ascii x) (Ascii.N_of_ascii z)) as [Hxz|Hxz|Hxz];
  try done; try lia.
  apply IH.
Qed.

#[local] Instance newer_first_transitive : Transitive Database.newer_first.
Proof.
  intros a b c Hab Hbc. unfold Database.newer_first in *.
  apply Is_true_true. apply Is_true_true in Hab, Hbc.
  by eapply string_leb_trans.
Qed.

#[local] Instance newer_first_total : Total Database.newer_first.
Proof.
  intros a b. unfold Database.newer_first.
  destruct (String.leb_total (row_created_at a.2) (row_created_at b.2)) as [H|H];
    rewrite H; [by right|by left].
Qed.

Lemma sql_limit_split {A} limit (rows : list A) :
  exists rest, rows = (Database.sql_limit limit rows ++ rest)%list.
Proof.
  unfold Database.sql_limit. destruct (Z.ltb limit 0).
  - exists []. by rewrite app_nil_r.
  - exists (drop (Z.to_nat limit) rows). by rewrite take_drop.
Qed.

(** X10. On an initialized store [get_recent_scans] only reads.  For a
    limit that fits a signed 64-bit integer it returns the summaries of
    rows of the table, each at most once, most recent first: every row it
    returns was created no earlier than the rows after it and than every
    row of the table it leaves out; it returns [limit] rows, or all of them
    when the table has fewer or the limit is negative.  For any other
    limit the query is refused with OverflowError. *)
Theorem get_recent_scans_most_recent limit w :
  w_conn w = true ->
  ((- 2 ^ 63 <= limit < 2 ^ 63)%Z ->
   exists rows,
     Database.get_recent_scans limit w = (Ok (Database.summary_of <$> rows), w) /\
     StronglySorted Database.newer_first rows /\
     NoDup rows.*1 /\
     (forall scan_id row, (scan_id, row) ∈ rows -> w_scans w !! scan_id = Some row) /\
     (forall scan_id row kept,
         w_scans w !! scan_id = Some row -> (scan_id, row) ∉ rows -> kept ∈ rows ->
         Database.newer_first kept (scan_id, row)) /\
     length rows =
       (if Z.ltb limit 0 then size (w_scans w)
        else Nat.min (Z.to_nat limit) (size (w_scans w)))) /\
  ((limit < - 2 ^ 63 \/ 2 ^ 63 <= limit)%Z ->
   exists e,
     Database.get_recent_scans limit w = (Raise e, w) /\
     exn_class e = "OverflowError").
Proof.
  intros Hconn. split.
  - intros Hrange.
    set (sorted := Database.order_by_created_at_desc (map_to_list (w_scans w))).
    assert (Hperm : sorted ≡ₚ map_to_list (w_scans w)) by apply merge_sort_Permutation.
    assert (Hsorted : StronglySorted Database.newer_first sorted)
      by (apply StronglySorted_merge_sort; apply _).
    destruct (sql_limit_split limit sorted) as [rest Hsplit].
    exists (Database.sql_limit limit sorted). split; [|split; [|split; [|split; [|split]]]].
    + unfold Database.get_recent_scans, Database.cursor, Database.select_recent, bind, ret.
      rewrite Hconn.
      rewrite (proj2 (Z.leb_le _ _) (proj1 Hrange)), (proj2 (Z.ltb_lt _ _) (proj2 Hrange)).
      done.
    + rewrite Hsplit in Hsorted. by eapply StronglySorted_app_1_l.
    + assert (Hnd : NoDup sorted.*1).
      { rewrite Hperm. apply NoDup_fst_map_to_list. }
      rewrite Hsplit, fmap_app in Hnd. by apply NoDup_app in Hnd as (? & _).
    + intros scan_id row Hin. apply elem_of_map_to_list. rewrite <- Hperm, Hsplit.
      apply elem_of_app. by left.
    + intros scan_id row kept Hrow Hout Hkept.
      apply elem_of_map_to_list in Hrow. rewrite <- Hperm, Hsplit in Hrow.
      apply elem_of_app in Hrow as [Hin|Hin]; [done|].
      rewrite Hsplit in Hsorted. by eapply StronglySorted_app_1_elem_of.
    + unfold Database.sql_limit.
      assert (Hlen : length sorted = size (w_scans w)).
      { by rewrite Hperm, length_map_to_list. }
      destruct (Z.ltb limit 0); [done|]. by rewrite length_take, Hlen.
  - intros Hout. eexists.
    unfold Database.get_recent_scans, Database.cursor, Database.select_recent, bind, raise.
    rewrite Hconn.
    assert (Z.leb (- 2 ^ 63) limit && Z.ltb limit (2 ^ 63) = false) as ->; [|done].
    apply andb_false_iff. destruct Hout as [Hlow|Hhigh].
    + left. apply Z.leb_gt. exact Hlow.
    + right. apply Z.ltb_ge. exact Hhigh.
Qed.

Lemma get_recent_scans_most_recent_witness :
  (exists rows,
     Database.get_recent_scans 1
       (run_call Sample.env (CallCreateScan "example.org" "quick")
          (run_call Sample.env (CallCreateScan "example.com" "full") Sample.world)) =
     (Ok (Database.summary_of <$> rows),
      run_call Sample.env (CallCreateScan "example.org" "quick")
        (run_call Sample.env (CallCreateScan "example.com" "full") Sample.world)) /\
     length rows = 1%nat) /\
  (exists e,
     Database.get_recent_scans (2 ^ 63) Sample.world = (Raise e, Sample.world) /\
     exn_class e = "OverflowError").
Proof.
  split.
  - destruct (get_recent_scans_most_recent 1
                (run_call Sample.env (CallCreateScan "example.org" "quick")
                   (run_call Sample.env (CallCreateScan "example.com" "full") Sample.world))
                eq_refl) as [Hin _].
    destruct Hin as (rows & Hrun & _ & _ & _ & _ & Hlen); [lia|].
    exists rows. split; [exact Hrun|]. rewrite Hlen. reflexivity.
  - destruct (get_recent_scans_most_recent (2 ^ 63) Sample.world eq_refl) as [_ Hout].
    apply Hout. right. lia.
Defined.

(** Of two scans created one after the other, the one listed first is the
    second. *)
Example get_recent_scans_example :
  Database.sum_target <$>
    default [] (match (Database.get_recent_scans 5
                  (run_call Sample.env (CallCreateScan "example.org" "quick")
                     (run_call Sample.env (CallCreateScan "example.com" "full")
                        Sample.world))).1 with
                | Ok l => Some l
                | Raise _ => None
                end) =
  ["example.org"; "example.com"].
Proof. vm_compute. reflexivity. Qed.

(** ** Requests and the store *)

Section Requests.
Variable env : Env.

(** The record a successful request to app.py leaves: created fresh, then
    completed with what was serialized from the response. *)
Lemma start_scan_ok_table req w resp w' :
  App.start_scan env req w = (Ok resp, w') ->
  w_conn w = true /\
  w_scans w !! App.resp_scan_id resp = None /\
  App.resp_target resp = App.target req /\
  exists created_at completed_at results_json analysis_json,
    env_dumps_results env (App.resp_results resp) = Ok results_json /\
    env_dumps_analysis env (App.resp_analysis resp) = Ok analysis_json /\
    w_scans w' =
      <[App.resp_scan_id resp :=
          MkScanRow (App.target req) (App.scan_type req) "completed" created_at
            (Some completed_at) (Some results_json) (Some analysis_json)]> (w_scans w) /\
    w_conn w' = true.
Proof.
  rewrite start_scan_eq.
  destruct (Database.create_scan _ _ _ w) as [[scan_id|e] w1] eqn:Hcreate; [|done].
  destruct (create_scan_inv _ _ _ _ _ _ Hcreate) as (Hfresh & Hs1 & Hc & Hc1 & _).
  destruct (execute_selected_modules _ _ _ w1) as [[results|e] w2] eqn:Hexec; [|done].
  destruct (db_silent_run _ _ _ _ (db_silent_execute_selected_modules _ _ _) Hexec)
    as (Hs2 & Hc2 & _).
  destruct (LLMAnalyzer.analyze _ _ _ w2) as [[analysis|e] w3] eqn:Han; [|done].
  destruct (db_silent_run _ _ _ _ (db_silent_analyze _ _ _) Han) as (Hs3 & Hc3 & _).
  rewrite save_results_eq, Hc3, Hc2, Hc1.
  destruct (env_dumps_results env results) as [rj|] eqn:Hrj; [|done].
  destruct (env_dumps_analysis env analysis) as [aj|] eqn:Haj; [|done].
  intros [= <- <-]. cbn. split; [done|]. split; [done|]. split; [done|].
  eexists _, _, rj, aj. split; [done|]. split; [done|]. split; [|done].
  rewrite Hs3, Hs2, Hs1, alter_insert_eq. reflexivity.
Qed.

(** The table after a request to app.py that fails. *)
Lemma start_scan_raise_table req w e w' :
  App.start_scan env req w = (Raise e, w') ->
  w_scans w' = w_scans w \/
  exists scan_id created_at,
    w_scans w !! scan_id = None /\
    w_scans w' = <[scan_id := MkScanRow (App.target req) (App.scan_type req) "running"
                                created_at None None None]> (w_scans w).
Proof.
  rewrite start_scan_eq.
  destruct (Database.create_scan _ _ _ w) as [[scan_id|e0] w1] eqn:Hcreate.
  2:{ intros [= _ <-]. left. by destruct (create_scan_raise_inv _ _ _ _ _ _ Hcreate). }
  destruct (create_scan_inv _ _ _ _ _ _ Hcreate) as (Hfresh & Hs1 & Hc & Hc1 & _).
  destruct (execute_selected_modules _ _ _ w1) as [[results|e1] w2] eqn:Hexec;
    destruct (db_silent_run _ _ _ _ (db_silent_execute_selected_modules _ _ _) Hexec)
      as (Hs2 & Hc2 & _).
  2:{ intros [= _ <-]. right. eexists _, _. split; [done|]. by rewrite Hs2, Hs1. }
  destruct (LLMAnalyzer.analyze _ _ _ w2) as [[analysis|e2] w3] eqn:Han;
    destruct (db_silent_run _ _ _ _ (db_silent_analyze _ _ _) Han) as (Hs3 & Hc3 & _).
  2:{ intros [= _ <-]. right. eexists _, _. split; [done|]. by rewrite Hs3, Hs2, Hs1. }
  destruct (Database.save_results _ _ _ _ w3) as [[[]|e3] w4] eqn:Hsave; [done|].
  destruct (save_results_inv _ _ _ _ _ _ _ Hsave) as [([=] & _)|(_ & Hs4 & _)].
  intros [= _ <-]. right. eexists _, _. split; [done|]. by rewrite Hs4, Hs3, Hs2, Hs1.
Qed.

(** X11. Before [initialize] has run (the connection is still None), every
    request to app.py fails at once with HTTP 500: no module is run, no
    request is sent to the provider, and the table is not touched. *)
Theorem start_scan_before_initialize req w :
  w_conn w = false ->
  exists w',
    App.start_scan env req w =
    (Raise (MkHTTPException 500 "'NoneType' object has no attribute 'cursor'"), w') /\
    w_scans w' = w_scans w /\ w_log w' = w_log w.
Proof.
  intros Hconn. rewrite start_scan_eq, create_scan_eq. cbv zeta. rewrite Hconn.
  eexists. split; [reflexivity|]. done.
Qed.

(** X12. A request to app.py never changes or removes the record of another
    scan: whether it returns or raises, every record that was in the table
    is still there, unchanged. *)
Theorem start_scan_keeps_other_records req w scan_id row :
  w_scans w !! scan_id = Some row ->
  w_scans (App.start_scan env req w).2 !! scan_id = Some row.
Proof.
  intros Hrow.
  destruct (App.start_scan env req w) as [[resp|e] w'] eqn:Hrun; cbn.
  - destruct (start_scan_ok_table _ _ _ _ Hrun)
      as (_ & Hfresh & _ & c & d & rj & aj & _ & _ & Hs & _).
    rewrite Hs, lookup_insert_ne; [done|]. intros <-. by rewrite Hfresh in Hrow.
  - destruct (start_scan_raise_table _ _ _ _ Hrun) as [Hs|(id & c & Hfresh & Hs)];
      rewrite Hs; [done|].
    rewrite lookup_insert_ne; [done|]. intros <-. by rewrite Hfresh in Hrow.
Qed.

(** X13. A scan that app.py reported as completed can be retrieved: when
    [json.loads] reads back the two texts that were saved, [get_scan] with
    the identifier of the response returns the record of that scan, with
    the requested target and scan type, status 'completed' and the decoded
    results and analysis. *)
Theorem start_scan_then_get_scan req w resp w' :
  App.start_scan env req w = (Ok resp, w') ->
  exists results_json analysis_json,
    env_dumps_results env (App.resp_results resp) = Ok results_json /\
    env_dumps_analysis env (App.resp_analysis resp) = Ok analysis_json /\
    forall results_value analysis_value,
      loads_value env (Some results_json) = Ok results_value ->
      loads_value env (Some analysis_json) = Ok analysis_value ->
      exists created_at completed_at,
        Database.get_scan env (App.resp_scan_id resp) w' =
        (Ok (Some (Database.MkScanRecord (App.resp_scan_id resp) (App.target req)
                     (App.scan_type req) "completed" created_at (Some completed_at)
                     results_value analysis_value)), w').
Proof.
  intros Hrun.
  destruct (start_scan_ok_table _ _ _ _ Hrun)
    as (_ & _ & _ & c & d & rj & aj & Hrj & Haj & Hs & Hc).
  exists rj, aj. split; [done|]. split; [done|].
  intros rv av Hrv Hav. exists c, d.
  rewrite get_scan_eq, Hc, Hs, lookup_insert_eq. cbn [row_results row_analysis].
  by rewrite Hrv, Hav.
Qed.

(** X14. A request to app.py that returns a response adds exactly one scan,
    a completed one, to what [get_statistics] counts; a request that fails
    adds no completed scan, and at most one scan. *)
Theorem start_scan_statistics req w :
  match (App.start_scan env req w).1 with
  | Ok _ =>
      scans_total (App.start_scan env req w).2 = S (scans_total w) /\
      scans_completed (App.start_scan env req w).2 = S (scans_completed w)
  | Raise _ =>
      (scans_total (App.start_scan env req w).2 = scans_total w \/
       scans_total (App.start_scan env req w).2 = S (scans_total w)) /\
      scans_completed (App.start_scan env req w).2 = scans_completed w
  end.
Proof.
  destruct (App.start_scan env req w) as [[resp|e] w'] eqn:Hrun; cbn.
  - destruct (start_scan_ok_table _ _ _ _ Hrun)
      as (_ & Hfresh & _ & c & d & rj & aj & _ & _ & Hs & _).
    unfold scans_total, scans_completed. rewrite Hs. split.
    + by rewrite map_size_insert_None.
    + rewrite (scans_completed_insert_completed _ None) by done. lia.
  - destruct (start_scan_raise_table _ _ _ _ Hrun) as [Hs|(id & c & Hfresh & Hs)];
      unfold scans_total, scans_completed; rewrite Hs.
    + auto.
    + split; [right; by rewrite map_size_insert_None|].
      by apply scans_completed_insert_running.
Qed.

End Requests.

(** ** The calls of a port scan *)

Section ProbeCalls.
Variable env : Env.

Lemma scan_port_run host port w :
  NetworkIntelligence._scan_port env host port w =
  (Ok (probe_outcome env host port),
   MkWorld (w_scans w) (w_conn w) (w_clock w) (w_uuids w)
     (w_log w ++ probe_trace env host port)).
Proof.
  destruct w as [scans conn clock uuids log].
  unfold NetworkIntelligence._scan_port, probe_outcome, probe_trace, try_except,
    bind, call, emit, lift, ret. cbn.
  destruct (env_open_connection env host port) as [[]|e]; cbn; [|done].
  destruct (env_read_banner env host port) as [d|e]; cbn;
    destruct (env_writer_close env host port) as [[]|e1]; cbn;
    try destruct (env_wait_closed env host port) as [[]|e2]; cbn;
    by rewrite <- ?app_assoc.
Qed.

(** X15. A probe attempts the connection exactly once.  When the attempt
    fails it makes no other call; when it succeeds the banner read and
    [writer.close()] follow whatever the banner read did, and
    [wait_closed()] follows when [close()] returned. *)
Theorem scan_port_calls host port w :
  exists evs,
    w_log (NetworkIntelligence._scan_port env host port w).2 = (w_log w ++ evs)%list /\
    connects evs = [EvConnect host port] /\
    (forall e, env_open_connection env host port = Raise e ->
               evs = [EvConnect host port]) /\
    (env_open_connection env host port = Ok tt ->
     exists rest,
       evs = EvConnect host port :: EvRead host port :: EvClose host port :: rest /\
       (env_writer_close env host port = Ok tt -> rest = [EvWaitClosed host port]) /\
       (forall e, env_writer_close env host port = Raise e -> rest = [])).
Proof.
  rewrite scan_port_run. exists (probe_trace env host port). cbn [snd w_log].
  split; [done|]. unfold probe_trace.
  destruct (env_open_connection env host port) as [[]|e0].
  - destruct (env_writer_close env host port) as [[]|e1]; (split; [done|]);
      (split; [done|]); intros _; eexists; (split; [reflexivity|]); split; done.
  - split; [done|]. split; [done|]. done.
Qed.

Lemma connects_probe_trace host port :
  connects (probe_trace env host port) = [EvConnect host port].
Proof.
  unfold probe_trace.
  destruct (env_open_connection env host port) as [[]|e0]; [|done].
  by destruct (env_writer_close env host port) as [[]|e1].
Qed.

Lemma probe_trace_events host port ev :
  ev ∈ probe_trace env host port ->
  ev ∈ [EvConnect host port; EvRead host port; EvClose host port;
        EvWaitClosed host port].
Proof.
  unfold probe_trace.
  destruct (env_open_connection env host port) as [[]|e0];
    [destruct (env_writer_close env host port) as [[]|e1]|];
    intros Hev; rewrite !elem_of_cons, ?elem_of_nil in *; tauto.
Qed.

Lemma pending_insert {A} (ports : list Z) : forall (slots : list (option A)) i p r,
  ports !! i = Some p -> slots !! i = Some None ->
  pending ports slots ≡ₚ p :: pending ports (<[i := Some r]> slots).
Proof.
  induction ports as [|q ports IH]; intros [|slot slots] [|i] p r Hp Hs; try done.
  - cbn in *. by simplify_eq.
  - cbn in Hp, Hs. cbn [pending]. change (<[S i:=Some r]> (slot :: slots))
      with (slot :: <[i:=Some r]> slots).
    destruct slot; cbn [pending].
    + by apply IH.
    + rewrite (IH slots i p r Hp Hs). apply Permutation_swap.
Qed.

Lemma pending_filled {A} (ports : list Z) : forall (slots : list (option A)),
  (forall i p, ports !! i = Some p -> filled slots i) -> pending ports slots = [].
Proof.
  induction ports as [|q ports IH]; intros [|slot slots] Hall; try done.
  cbn. destruct (Hall 0%nat q eq_refl) as [v Hv]. cbn in Hv. simplify_eq.
  apply IH. intros i p Hp. destruct (Hall (S i) p Hp) as [v' Hv']. by exists v'.
Qed.

Lemma pending_replicate {A} (ports : list Z) :
  pending ports (replicate (length ports) (@None A)) = ports.
Proof. induction ports as [|q ports IH]; [done|]. cbn. by rewrite IH. Qed.

(** While the probes of [ports] are gathered, every connection attempt in
    the trace is that of a probe that was pending and is no longer. *)
Lemma run_tasks_connects host ports order :
  forall (slots : list (option (Z * bool * option string))) w,
    exists slots' evs,
      (NetworkIntelligence.run_tasks order
         (NetworkIntelligence._scan_port env host <$> ports) slots w).1 = Ok slots' /\
      w_log (NetworkIntelligence.run_tasks order
               (NetworkIntelligence._scan_port env host <$> ports) slots w).2 =
        (w_log w ++ evs)%list /\
      (connects evs ++ (EvConnect host <$> pending ports slots'))%list ≡ₚ
        EvConnect host <$> pending ports slots /\
      Forall (probe_event host ports) evs.
Proof.
  induction order as [|i order IH]; intros slots w.
  - exists slots, []. cbn. by rewrite app_nil_r.
  - cbn [NetworkIntelligence.run_tasks]. rewrite list_lookup_fmap.
    destruct (ports !! i) as [p|] eqn:Hp; cbn [fmap option_fmap option_map]; [|apply IH].
    destruct (slots !! i) as [[v|]|] eqn:Hs; try apply IH.
    unfold bind at 1 2. rewrite scan_port_run.
    destruct (IH (<[i := Some (probe_outcome env host p)]> slots)
                (MkWorld (w_scans w) (w_conn w) (w_clock w) (w_uuids w)
                   (w_log w ++ probe_trace env host p)))
      as (slots' & evs & Hrun & Hlog & Hperm & Hall).
    exists slots', (probe_trace env host p ++ evs)%list.
    split; [exact Hrun|]. split; [by rewrite Hlog; cbn; rewrite <- app_assoc|].
    split.
    + unfold connects in *. rewrite filter_app. fold (connects (probe_trace env host p)).
      rewrite connects_probe_trace, <- app_assoc, Hperm.
      rewrite (pending_insert ports slots i p (probe_outcome env host p) Hp Hs). done.
    + apply Forall_app. split; [|exact Hall].
      apply Forall_forall. intros ev Hev. exists p.
      split; [by eapply list_elem_of_lookup_2|by apply probe_trace_events].
Qed.

Lemma gather_connects host ports w :
  exists evs,
    w_log (NetworkIntelligence.gather env
             (NetworkIntelligence._scan_port env host <$> ports) w).2 =
      (w_log w ++ evs)%list /\
    connects evs ≡ₚ EvConnect host <$> ports /\
    Forall (probe_event host ports) evs.
Proof.
  unfold NetworkIntelligence.gather.
  set (tasks := NetworkIntelligence._scan_port env host <$> ports).
  set (order := NetworkIntelligence.completion_order (env_schedule env) (length tasks)).
  destruct (run_tasks_spec tasks (probe_outcome env host <$> ports)) with
    (order := order) (slots := replicate (length tasks) (@None (Z * bool * option string)))
    (w := w) as (slots' & w' & Hrun & [Hlen Hc'] & _ & Hnew).
  - unfold tasks. by rewrite !length_fmap.
  - intros i t r Ht Hr w0. unfold tasks in Ht.
    apply list_lookup_fmap_Some in Ht as (p & -> & Hp).
    apply list_lookup_fmap_Some in Hr as (p' & -> & Hp').
    assert (p' = p) as -> by congruence.
    apply scan_port_outcome.
  - split; [by rewrite length_replicate|].
    intros i v Hi. apply lookup_replicate in Hi as [? _]. done.
  - destruct (run_tasks_connects host ports order
                (replicate (length tasks) None) w)
      as (slots'' & evs & Hrun' & Hlog & Hperm & Hall).
    fold tasks in Hrun', Hlog. rewrite Hrun in Hrun', Hlog. cbn in Hrun', Hlog.
    simplify_eq. exists evs.
    split; [by rewrite (bind_ok _ _ _ _ _ Hrun)|]. split; [|exact Hall].
    unfold tasks in Hperm. rewrite length_fmap, pending_replicate in Hperm.
    rewrite <- Hperm, pending_filled; [by rewrite app_nil_r|].
    intros i p Hp. apply Hnew.
    + unfold order, NetworkIntelligence.completion_order. apply elem_of_app. right.
      apply elem_of_seq. apply lookup_lt_Some in Hp. unfold tasks.
      rewrite length_fmap. lia.
    + apply lookup_lt_Some in Hp. unfold tasks. by rewrite length_fmap.
Qed.

(** X16. When the target resolves, a network scan first resolves it and
    then attempts a connection to every port of the list exactly once, at
    the resolved address, whatever order the event loop completes the
    probes in; every other call it makes is the banner read or the close
    handshake of one of these probes. *)
Theorem scan_probes_each_port_once target ip w :
  env_gethostbyname env target = Ok ip ->
  exists evs,
    w_log (NetworkIntelligence.scan env target w).2 =
      (w_log w ++ EvResolve target :: evs)%list /\
    connects evs ≡ₚ EvConnect ip <$> NetworkIntelligence.common_ports /\
    Forall (probe_event ip NetworkIntelligence.common_ports) evs.
Proof.
  intros Hres. unfold NetworkIntelligence.scan.
  rewrite (bind_ok (utcnow env) _ w _ _ eq_refl).
  erewrite bind_ok;
    [|unfold try_except_Exception; erewrite bind_ok;
      [reflexivity|rewrite call_log, Hres; reflexivity]].
  cbn [NetworkIntelligence.set_ip_address nr_target nr_timestamp nr_open_ports
       nr_closed_ports nr_services nr_banners nr_error].
  match goal with |- context [bind (NetworkIntelligence.gather env ?ts) ?k ?w0] =>
    destruct (gather_connects ip NetworkIntelligence.common_ports w0)
      as (evs & Hlog & Hperm & Hall);
    destruct (gather_in_task_order ts
                (probe_outcome env ip <$> NetworkIntelligence.common_ports))
      with (env := env) (w := w0) as [w' Hw'] end.
  - by rewrite !length_fmap.
  - intros i t r Ht Hr w0.
    apply list_lookup_fmap_Some in Ht as (p & -> & Hp).
    apply list_lookup_fmap_Some in Hr as (p' & -> & Hp').
    assert (p' = p) as -> by congruence.
    apply scan_port_outcome.
  - exists evs. erewrite bind_ok by exact Hw'. rewrite Hw' in Hlog.
    unfold ret. cbn [snd w_log] in *. rewrite Hlog, <- app_assoc. done.
Qed.

End ProbeCalls.

Lemma scan_probes_each_port_once_witness :
  exists evs,
    w_log (NetworkIntelligence.scan Sample.env "example.com" Sample.world).2 =
      (w_log Sample.world ++ EvResolve "example.com" :: evs)%list /\
    connects evs ≡ₚ EvConnect "93.184.216.34" <$> NetworkIntelligence.common_ports /\
    Forall (probe_event "93.184.216.34" NetworkIntelligence.common_ports) evs.
Proof.
  exact (scan_probes_each_port_once Sample.env "example.com" "93.184.216.34"
           Sample.world eq_refl).
Defined.

(** ** What a port scan records *)

Lemma rstrip_idempotent s : rstrip (rstrip s) = rstrip s.
Proof.
  induction s as [|c s IH]; [done|]. cbn [rstrip].
  destruct (rstrip s) as [|d t] eqn:Hr.
  - destruct (isspace c) eqn:Hc; [done|]. cbn. by rewrite Hc.
  - cbn [rstrip] in *. by rewrite IH.
Qed.

Lemma lstrip_head s :
  lstrip s = "" \/ exists c t, lstrip s = String c t /\ isspace c = false.
Proof.
  induction s as [|c s IH]; [by left|]. cbn.
  destruct (isspace c) eqn:Hc; [done|]. right. by exists c, s.
Qed.

Lemma rstrip_head c t :
  isspace c = false -> exists t', rstrip (String c t) = String c t'.
Proof.
  intros Hc. cbn. destruct (rstrip t); [|by eexists]. rewrite Hc. by eexists.
Qed.

Lemma strip_idempotent s : strip (strip s) = strip s.
Proof.
  unfold strip. destruct (lstrip_head s) as [->|(c & t & -> & Hc)]; [done|].
  destruct (rstrip_head c t Hc) as [t' Ht']. rewrite Ht' at 1.
  cbn [lstrip]. rewrite Hc, <- Ht'. apply rstrip_idempotent.
Qed.

Lemma common_ports_identified p :
  p ∈ NetworkIntelligence.common_ports ->
  NetworkIntelligence.services !! p = Some (NetworkIntelligence._identify_service p) /\
  NetworkIntelligence._identify_service p <> "Unknown".
Proof.
  intros Hp.
  assert (Hall : Forall (fun p =>
            NetworkIntelligence.services !! p =
              Some (NetworkIntelligence._identify_service p) /\
            NetworkIntelligence._identify_service p <> "Unknown")
          NetworkIntelligence.common_ports).
  { unfold NetworkIntelligence.common_ports.
    repeat (apply Forall_cons_2; [by vm_compute|]). apply Forall_nil_2. }
  by apply (proj1 (Forall_forall _ _) Hall).
Qed.

Section ScanRecords.
Variable env : Env.

(** X17. Whatever the network answers, every banner a scan records belongs
    to a port the scan lists as open, and is the text read from that port at
    the resolved address, stripped: it is not empty and has no whitespace
    left at either end. *)
Theorem scan_banners_of_open_ports target w :
  exists r,
    (NetworkIntelligence.scan env target w).1 = Ok r /\
    forall p banner,
      nr_banners r !! p = Some banner ->
      p ∈ nr_open_ports r /\ banner <> "" /\ strip banner = banner /\
      exists ip banner_data,
        env_gethostbyname env target = Ok ip /\
        env_read_banner env ip p = Ok banner_data /\
        banner = strip banner_data.
Proof.
  destruct (env_gethostbyname env target) as [ip|e] eqn:Hres.
  - destruct (scan_resolved env target ip w Hres) as [w' ->].
    eexists. split; [reflexivity|]. intros p banner.
    rewrite classified_banners, classified_open_ports.
    cbn [nr_banners nr_open_ports app]. rewrite lookup_empty.
    destruct (decide _) as [[Hin Htruthy]|]; [|done].
    intros Hb. pose proof (truthy_reported_open env ip p Htruthy) as Hopen.
    split; [by apply list_elem_of_filter|].
    rewrite Hb in Htruthy. unfold probe_outcome in Hb.
    destruct (env_open_connection env ip p) as [[]|]; [|done].
    destruct (env_writer_close env ip p) as [[]|]; [|done].
    destruct (env_wait_closed env ip p) as [[]|]; [|done].
    cbn in Hb. destruct (env_read_banner env ip p) as [data|] eqn:Hread; [|done].
    simplify_eq. split; [by destruct (strip data); cbn in Htruthy|].
    split; [apply strip_idempotent|]. by exists ip, data.
  - rewrite (scan_unresolved env target e w Hres). eexists. split; [reflexivity|].
    intros p banner. cbn. by rewrite lookup_empty.
Qed.

(** X18. Whatever the network answers, every service a scan records is that
    of a port of the scanned list, labelled as the static table labels it:
    the fallback label "Unknown" never appears in a scan. *)
Theorem scan_services_never_unknown target w :
  exists r,
    (NetworkIntelligence.scan env target w).1 = Ok r /\
    forall p label,
      nr_services r !! p = Some label ->
      p ∈ NetworkIntelligence.common_ports /\
      NetworkIntelligence.services !! p = Some label /\
      label <> "Unknown".
Proof.
  destruct (env_gethostbyname env target) as [ip|e] eqn:Hres.
  - destruct (scan_resolved env target ip w Hres) as [w' ->].
    eexists. split; [reflexivity|]. intros p label.
    rewrite classified_services. cbn [nr_services]. rewrite lookup_empty.
    destruct (decide _) as [[Hin _]|]; [|done].
    intros [= <-]. destruct (common_ports_identified p Hin). done.
  - rewrite (scan_unresolved env target e w Hres). eexists. split; [reflexivity|].
    intros p label. cbn. by rewrite lookup_empty.
Qed.

End ScanRecords.

(** ** The requests of the analysis *)

Section AnalyzerCalls.
Import LLMAnalyzer.
Variable env : Env.

Lemma generate_summary_run target data w :
  _generate_summary env target data w =
  (Ok (summary_value env target data), after_calls w [EvProvider ReqSummary]).
Proof.
  unfold _generate_summary, summary_value, try_except_Exception, chat, bind, call,
    emit, lift, ret. cbn.
  by destruct (env_chat env ReqSummary [target; data]).
Qed.

Lemma calculate_risk_score_run data w :
  _calculate_risk_score env data w =
  (Ok (risk_score_value env data), after_calls w [EvProvider ReqRiskScore]).
Proof.
  unfold _calculate_risk_score, risk_score_value, try_except, chat, bind, call,
    emit, lift, ret. cbn.
  destruct (env_chat env ReqRiskScore [data]) as [content|]; [|done].
  by destruct (env_int env (strip content)).
Qed.

Lemma json_request_run kind values placeholder w :
  json_request env kind values placeholder w =
  (Ok (json_value env kind values placeholder), after_calls w [EvProvider kind]).
Proof.
  unfold json_request, json_value, try_except, chat, bind, call, emit, lift, ret. cbn.
  destruct (env_chat env kind values) as [content|]; [|done].
  by destruct (env_json_loads env (remove_code_block (strip content))).
Qed.

Lemma analyze_run target results w :
  analyze env target results w =
  (Ok (analysis_value env target (env_utcnow env (w_clock w)) results),
   MkWorld (w_scans w) (w_conn w) (S (w_clock w)) (w_uuids w)
     (w_log w ++ analysis_requests)).
Proof.
  unfold analyze. rewrite (bind_ok (utcnow env) _ w _ _ eq_refl).
  set (data := _prepare_intelligence_data env results).
  erewrite try_assign_ok
    by (erewrite bind_ok by apply generate_summary_run; reflexivity).
  erewrite try_assign_ok
    by (erewrite bind_ok by apply calculate_risk_score_run; reflexivity).
  erewrite try_assign_ok
    by (erewrite bind_ok by apply json_request_run; reflexivity).
  erewrite try_assign_ok
    by (erewrite bind_ok by apply json_request_run; reflexivity).
  erewrite try_assign_ok
    by (erewrite bind_ok by apply json_request_run; reflexivity).
  erewrite try_assign_ok
    by (erewrite bind_ok by apply json_request_run; reflexivity).
  unfold try_assign, ret, after_calls, analysis_requests. cbn.
  by rewrite <- !app_assoc.
Qed.

(** X19. Whatever the provider answers, one analysis sends it exactly six
    requests, in the order summary, risk score, attack surface,
    vulnerabilities, recommendations, correlations: a request that fails
    does not cancel the later ones.  The analysis reads the clock once and
    leaves the store alone. *)
Theorem analyze_sends_six_requests target results w :
  exists a w',
    analyze env target results w = (Ok a, w') /\
    w_log w' = (w_log w ++ analysis_requests)%list /\
    length analysis_requests = 6%nat /\
    w_clock w' = S (w_clock w) /\
    an_timestamp a = env_utcnow env (w_clock w) /\
    w_scans w' = w_scans w /\ w_conn w' = w_conn w /\ w_uuids w' = w_uuids w.
Proof. rewrite analyze_run. eexists _, _. split; [reflexivity|]. done. Qed.

(** X20. Whatever the provider answers, the analysis has no "error" key, and
    each answer that arrives is decoded on its own: the summary is the
    answer stripped; the risk score is the integer the answer denotes,
    whatever its size (nothing confines it to 0..100), and 50 when the
    answer is not an integer; each of the four JSON keys holds the value
    decoded from its answer, stripped and taken out of its code fence, and
    its placeholder when that text is not valid JSON. *)
Theorem analyze_decodes_each_answer target results w :
  exists a,
    (analyze env target results w).1 = Ok a /\
    an_target a = target /\
    an_error a = None /\
    let data := _prepare_intelligence_data env results in
    (forall content,
        env_chat env ReqSummary [target; data] = Ok content ->
        an_summary a = strip content) /\
    (forall content,
        env_chat env ReqRiskScore [data] = Ok content ->
        an_risk_score a = match env_int env (strip content) with
                          | Ok n => n
                          | Raise _ => 50
                          end) /\
    Forall (fun '(kind, values, placeholder, key) =>
              forall content,
                env_chat env kind values = Ok content ->
                key a = match env_json_loads env (remove_code_block (strip content)) with
                        | Ok v => v
                        | Raise _ => placeholder
                        end)
           (json_keys target data).
Proof.
  rewrite analyze_run. eexists. split; [reflexivity|]. split; [done|]. split; [done|].
  cbv zeta. unfold analysis_value, summary_value, risk_score_value, json_value, json_keys.
  cbn [an_summary an_risk_score an_attack_surface an_vulnerabilities
       an_recommendations an_correlations].
  split; [by intros content ->|]. split; [by intros content ->|].
  repeat (apply Forall_cons_2; [by intros content ->|]). apply Forall_nil_2.
Qed.

End AnalyzerCalls.

(** ** Code fences *)

Lemma before_fence_cons c s :
  before_fence (String c s) =
  if startswith fence (String c s) then EmptyString else String c (before_fence s).
Proof. reflexivity. Qed.

Lemma startswith_fence_app s : startswith fence (fence ++ s) = true.
Proof. by destruct s. Qed.

Lemma string_drop_fence_app s : string_drop 3 (fence ++ s) = s.
Proof. by destruct s. Qed.

Lemma before_fence_body body : forall rest,
  contains "`" body = false ->
  before_fence (body ++ fence ++ rest) = body /\ before_fence body = body.
Proof.
  induction body as [|c body IH]; intros rest Hno; [by destruct rest|].
  cbn [contains] in Hno.
  change (String c body ++ fence ++ rest) with (String c (body ++ fence ++ rest)).
  rewrite !before_fence_cons.
  unfold startswith, fence in *. cbn [String.prefix] in *.
  destruct (Ascii.ascii_dec _ c) as [<-|Hne].
  - by destruct body.
  - destruct (IH rest Hno) as [-> ->]. done.
Qed.

(** X21. An answer wrapped in a code fence is reduced to the body of the
    fence: for a body without backticks, the opening fence, the language
    tag [json] if the body starts with it, the closing fence and anything
    after it are dropped; a fence that is never closed is dropped just the
    same.  A tag other than [json] stays in the text. *)
Theorem remove_code_block_extracts_body body rest :
  contains "`" body = false ->
  remove_code_block (fence ++ body ++ fence ++ rest) =
    (if startswith "json" body then string_drop 4 body else body) /\
  remove_code_block (fence ++ body) =
    (if startswith "json" body then string_drop 4 body else body).
Proof.
  intros Hno. destruct (before_fence_body body rest Hno) as [Hclosed Hopen].
  unfold remove_code_block, split_fence_1.
  rewrite !startswith_fence_app, !string_drop_fence_app.
  cbv zeta. by rewrite Hclosed, Hopen.
Qed.

Lemma remove_code_block_extracts_body_witness :
  remove_code_block (fence ++ "json [1, 2] " ++ fence ++ " trailing") = " [1, 2] " /\
  remove_code_block (fence ++ "json [1, 2] ") = " [1, 2] ".
Proof.
  exact (remove_code_block_extracts_body "json [1, 2] " " trailing" eq_refl).
Defined.

(** ** Export *)

Section ExportScan.
Variable env : Env.

(** X22. Exporting a scan reads it as [get_scan] does and changes nothing.
    Whenever the read fails, by an exception of the store or because there
    is no such scan (404), the export fails the same way whatever the
    format; for a scan that exists, only the format [json] returns it, as
    the scan endpoint does: [csv] is refused with 501 and any other format
    with 400. *)
Theorem export_scan_formats scan_id format w :
  (App.export_scan env scan_id format w).2 = w /\
  (format = "json" ->
   App.export_scan env scan_id format w = App.get_scan env scan_id w) /\
  (forall e, (App.get_scan env scan_id w).1 = Raise e ->
             (App.export_scan env scan_id format w).1 = Raise e) /\
  (w_conn w = true -> w_scans w !! scan_id = None ->
   (App.export_scan env scan_id format w).1 =
   Raise (Http (MkHTTPException 404 "Scan not found"))) /\
  (forall scan, (App.get_scan env scan_id w).1 = Ok scan ->
     (App.export_scan env scan_id format w).1 =
     if decide (format = "json") then Ok scan
     else if decide (format = "csv")
          then Raise (Http (MkHTTPException 501 "CSV export not yet implemented"))
          else Raise (Http (MkHTTPException 400 "Unsupported format"))).
Proof.
  unfold App.export_scan, App.get_scan, handler_bind, unhandled, http_error.
  rewrite get_scan_eq.
  destruct (w_conn w) eqn:Hconn; cbn; [|by repeat split].
  destruct (w_scans w !! scan_id) as [row|] eqn:Hrow; cbn; [|by repeat split].
  destruct (loads_value env (row_results row)) as [results|]; cbn; [|by repeat split].
  destruct (loads_value env (row_analysis row)) as [analysis|]; cbn; [|by repeat split].
  destruct (String.eqb_spec format "json") as [->|Hj].
  - by repeat split.
  - destruct (String.eqb_spec format "csv") as [->|Hc].
    + repeat split; done.
    + repeat split; try done. intros scan [= <-]. by rewrite !decide_False.
Qed.

End ExportScan.

(** ** Checks on the target's text *)

Lemma prefix_nil s : String.prefix "" s = true.
Proof. by destruct s. Qed.

Lemma prefix_app_r n : forall h b,
  String.prefix n h = true -> String.prefix n (h ++ b) = true.
Proof.
  induction n as [|a n IH]; intros h b Hp; [apply prefix_nil|].
  destruct h as [|c h]; [done|].
  change (String c h ++ b) with (String c (h ++ b)). cbn [String.prefix] in *.
  destruct (Ascii.ascii_dec a c); [by apply IH|done].
Qed.

Lemma contains_cons n c h :
  contains n (String c h) = if startswith n (String c h) then true else contains n h.
Proof. reflexivity. Qed.

Lemma contains_app_r n h : forall b,
  contains n h = true -> contains n (h ++ b) = true.
Proof.
  induction h as [|c h IH]; intros b Hc.
  - cbn in Hc. destruct n; [|done]. by destruct b.
  - change (String c h ++ b) with (String c (h ++ b)).
    rewrite contains_cons in *. unfold startswith in *.
    destruct (String.prefix n (String c h)) eqn:Hp.
    + change (String c (h ++ b)) with (String c h ++ b).
      by rewrite (prefix_app_r _ _ _ Hp).
    + rewrite (IH b Hc). by case_match.
Qed.

Lemma contains_app_l n h a :
  contains n h = true -> contains n (a ++ h) = true.
Proof.
  intros Hc. induction a as [|c a IH]; [done|].
  change (String c a ++ h) with (String c (a ++ h)).
  rewrite contains_cons, IH. by case_match.
Qed.

Lemma lower_char_idempotent c : lower_char (lower_char c) = lower_char c.
Proof. by destruct c as [[] [] [] [] [] [] [] []]. Qed.

Lemma lower_idempotent s : lower (lower s) = lower s.
Proof.
  induction s as [|c s IH]; [done|]. cbn. by rewrite lower_char_idempotent, IH.
Qed.

Lemma lower_app a b : lower (a ++ b) = lower a ++ lower b.
Proof.
  induction a as [|c a IH]; [done|].
  change (String c a ++ b) with (String c (a ++ b)). cbn [lower].
  by rewrite IH.
Qed.

Lemma any_keyword_embedded keywords a t b :
  existsb (fun keyword => contains keyword (lower t)) keywords = true ->
  existsb (fun keyword => contains keyword (lower (a ++ t ++ b))) keywords = true.
Proof.
  rewrite !existsb_exists. intros (k & Hin & Hk). exists k. split; [done|].
  rewrite !lower_app. by apply contains_app_l, contains_app_r.
Qed.

(** X23. The reputation check has two verdicts: score -50 and status
    "Suspicious", or score 50 and status "Clean"; the initial score 0 and
    status "Unknown" are never returned.  The verdict does not depend on
    the case of the target's letters. *)
Theorem check_reputation_two_verdicts target :
  let r := ThreatIntelligence._check_reputation target in
  ((ThreatIntelligence.score r = -50 /\ ThreatIntelligence.status r = "Suspicious" /\
    ThreatIntelligence.categories r = ["Potentially Malicious"]) \/
   (ThreatIntelligence.score r = 50 /\ ThreatIntelligence.status r = "Clean" /\
    ThreatIntelligence.categories r = ["No Known Threats"])) /\
  ThreatIntelligence.threat_feeds r = [] /\
  ThreatIntelligence._check_reputation (lower target) = r.
Proof.
  cbv zeta. unfold ThreatIntelligence._check_reputation.
  rewrite lower_idempotent.
  destruct (existsb _ _); cbn; [split; [left|]|split; [right|]]; done.
Qed.

(** X24. A target that is flagged as suspicious stays flagged wherever it
    is embedded: the check looks for its keywords anywhere in the text, so
    every name that contains a flagged one is flagged as well. *)
Theorem check_reputation_flags_superstrings before target after :
  ThreatIntelligence.status (ThreatIntelligence._check_reputation target) = "Suspicious" ->
  ThreatIntelligence.status
    (ThreatIntelligence._check_reputation (before ++ target ++ after)) = "Suspicious".
Proof.
  unfold ThreatIntelligence._check_reputation.
  destruct (existsb _ _) eqn:Hany; [|done]. intros _.
  by rewrite (any_keyword_embedded _ before target after Hany).
Qed.

Lemma check_reputation_flags_superstrings_witness :
  ThreatIntelligence.status
    (ThreatIntelligence._check_reputation ("s" ++ "Hack" ++ "leton.org")) = "Suspicious".
Proof.
  exact (check_reputation_flags_superstrings "s" "Hack" "leton.org" eq_refl).
Defined.

(** X25. The breach check reports as many breaches as it lists, none or
    one: the count is the length of the list, which holds at most the one
    simulated entry.  The answer does not depend on the case of the
    domain's letters. *)
Theorem check_breaches_count_consistent domain :
  let d := ThreatIntelligence._check_breaches domain in
  ThreatIntelligence.total_breaches d =
    Z.of_nat (length (ThreatIntelligence.breaches_found d)) /\
  (length (ThreatIntelligence.breaches_found d) <= 1)%nat /\
  ThreatIntelligence.checked d = true /\
  ThreatIntelligence._check_breaches (lower domain) = d.
Proof.
  cbv zeta. unfold ThreatIntelligence._check_breaches.
  rewrite lower_idempotent.
  destruct (existsb _ _); cbn; repeat split; lia.
Qed.

(** X26. A domain reported as breached stays reported wherever it is
    embedded: the listed domains are looked for anywhere in the text, so
    every name that contains one of them is reported with it. *)
Theorem check_breaches_flags_superstrings before domain after :
  ThreatIntelligence.total_breaches (ThreatIntelligence._check_breaches domain) = 1 ->
  ThreatIntelligence.total_breaches
    (ThreatIntelligence._check_breaches (before ++ domain ++ after)) = 1.
Proof.
  unfold ThreatIntelligence._check_breaches.
  destruct (existsb _ _) eqn:Hany; [|done]. intros _.
  by rewrite (any_keyword_embedded _ before domain after Hany).
Qed.

Lemma check_breaches_flags_superstrings_witness :
  ThreatIntelligence.total_breaches
    (ThreatIntelligence._check_breaches ("not" ++ "Adobe.com" ++ ".example.org")) = 1.
Proof.
  exact (check_breaches_flags_superstrings "not" "Adobe.com" ".example.org" eq_refl).
Defined.

(** ** The organization name *)

Lemma contains_dot_cons c s :
  contains "." (String c s) =
  if Ascii.eqb c SocialIntelligence.dot then true else contains "." s.
Proof.
  rewrite contains_cons. unfold startswith. cbn [String.prefix].
  destruct (Ascii.ascii_dec _ c) as [<-|Hne]; [by rewrite prefix_nil|].
  destruct (Ascii.eqb_spec c SocialIntelligence.dot) as [->|]; done.
Qed.

Lemma startswith_dot_cons c s :
  startswith "." (String c s) = Ascii.eqb c SocialIntelligence.dot.
Proof.
  unfold startswith. cbn [String.prefix].
  destruct (Ascii.ascii_dec _ c) as [<-|Hne]; [by rewrite prefix_nil|].
  destruct (Ascii.eqb_spec c SocialIntelligence.dot) as [->|]; done.
Qed.

Lemma split_dot_0_spec t :
  contains "." (SocialIntelligence.split_dot_0 t) = false /\
  exists rest,
    t = SocialIntelligence.split_dot_0 t ++ rest /\
    (rest = "" <-> contains "." t = false) /\
    (rest = "" \/ startswith "." rest = true).
Proof.
  induction t as [|c t (IHno & rest & IHeq & IHiff & IHrest)].
  - split; [done|]. exists "". by repeat split; try left.
  - cbn [SocialIntelligence.split_dot_0]. rewrite contains_dot_cons.
    destruct (Ascii.eqb_spec c SocialIntelligence.dot) as [->|Hne].
    + split; [done|]. exists (String SocialIntelligence.dot t).
      split; [done|]. split; [done|]. right. unfold startswith. cbn.
      apply prefix_nil.
    + rewrite contains_dot_cons.
      destruct (Ascii.eqb_spec c SocialIntelligence.dot) as [|_]; [done|].
      split; [done|]. exists rest.
      change (String c (SocialIntelligence.split_dot_0 t) ++ rest)
        with (String c (SocialIntelligence.split_dot_0 t ++ rest)).
      by rewrite <- IHeq.
Qed.

(** X27. The organization name looked up for a target is the text before
    its first dot, and the whole target when it has none: the name has no
    dot, the target starts with it, and what follows it in the target is
    nothing or starts with a dot.  (A target that starts with a dot gives
    the empty name.) *)
Theorem org_name_before_first_dot target :
  contains "." (SocialIntelligence.org_name target) = false /\
  (contains "." target = false -> SocialIntelligence.org_name target = target) /\
  (startswith "." target = true -> SocialIntelligence.org_name target = "") /\
  exists rest,
    target = SocialIntelligence.org_name target ++ rest /\
    (rest = "" \/ startswith "." rest = true).
Proof.
  unfold SocialIntelligence.org_name.
  destruct (split_dot_0_spec target) as (Hno & rest & Heq & Hiff & Hrest).
  destruct (contains "." target) eqn:Hdot.
  - split; [done|]. split; [done|]. split; [|by exists rest].
    destruct target as [|c t]; [done|]. rewrite startswith_dot_cons.
    cbn [SocialIntelligence.split_dot_0]. by intros ->.
  - split; [done|]. split; [done|]. split.
    + destruct target as [|c t]; [done|]. rewrite contains_cons in Hdot.
      by destruct (startswith "." (String c t)).
    + exists "". split; [|by left]. clear. induction target as [|c t IH]; [done|].
      change (String c t ++ "") with (String c (t ++ "")). by rewrite <- IH.
Qed.

(** ** Names *)

Lemma split_cons c s :
  split (String c s) =
  if isspace c then split s
  else match s with
       | EmptyString => [String c EmptyString]
       | String c' _ =>
           if isspace c' then String c EmptyString :: split s
           else match split s with
                | word :: words => String c word :: words
                | [] => [String c EmptyString]
                end
       end.
Proof. reflexivity. Qed.

Lemma split_words s : Forall is_word (split s).
Proof.
  induction s as [|c s IH]; [apply Forall_nil_2|]. rewrite split_cons.
  destruct (isspace c) eqn:Hc; [done|].
  assert (Hone : is_word (String c "")) by (split; [done|]; cbn; by rewrite Hc).
  destruct s as [|c' s']; [by apply Forall_cons_2|].
  destruct (isspace c') eqn:Hc'; [by apply Forall_cons_2|].
  destruct (split (String c' s')) as [|word words]; [by apply Forall_cons_2|].
  apply Forall_cons in IH as [[_ Hword] Hwords]. apply Forall_cons_2; [|done].
  split; [done|]. cbn. by rewrite Hc, Hword.
Qed.

Lemma split_word w : forall c,
  isspace c = false -> no_space w = true -> split (String c w) = [String c w].
Proof.
  induction w as [|d w IH]; intros c Hc Hw; rewrite split_cons, Hc; [done|].
  cbn in Hw. apply andb_prop in Hw as [Hd Hw]. apply negb_true_iff in Hd.
  by rewrite Hd, (IH d Hd Hw).
Qed.

Lemma split_word_then w : forall c s,
  isspace c = false -> no_space w = true ->
  split (String c (w ++ " " ++ s)) = String c w :: split s.
Proof.
  induction w as [|d w IH]; intros c s Hc Hw; rewrite split_cons, Hc.
  - change ("" ++ " " ++ s) with (String (Ascii.ascii_of_nat 32) s).
    cbv beta iota. change (isspace (Ascii.ascii_of_nat 32)) with true.
    cbv iota. by rewrite split_cons.
  - cbn in Hw. apply andb_prop in Hw as [Hd Hw]. apply negb_true_iff in Hd.
    change (String d w ++ " " ++ s) with (String d (w ++ " " ++ s)).
    cbv iota. by rewrite Hd, (IH d s Hd Hw).
Qed.

Lemma split_join words :
  Forall is_word words -> split (String.concat " " words) = words.
Proof.
  induction 1 as [|w words [Hne Hw] Hwords IH]; [done|].
  destruct w as [|c w]; [done|]. cbn in Hw. apply andb_prop in Hw as [Hc Hw].
  apply negb_true_iff in Hc. cbn [String.concat].
  destruct words as [|w' words'].
  - by apply split_word.
  - change (String c w ++ " " ++ String.concat " " (w' :: words'))
      with (String c (w ++ " " ++ String.concat " " (w' :: words'))).
    by rewrite split_word_then, IH.
Qed.

(** X28. Parsing a name loses no word and invents none: the input is kept
    verbatim as the full name, and the components that are set, read in the
    order first, middle, last, suffix, are the whitespace-separated words
    of the input in their order.  A single word is taken as the last name;
    from four words on the third word is the last name and all later words
    form the suffix. *)
Theorem parse_name_keeps_words full_name :
  let p := PersonIntelligence._parse_name full_name in
  PersonIntelligence.full_name p = full_name /\
  name_words p = split (strip full_name) /\
  (forall word, split (strip full_name) = [word] ->
                PersonIntelligence.last_name p = word /\
                PersonIntelligence.first_name p = "") /\
  (forall first middle third fourth others,
      split (strip full_name) = first :: middle :: third :: fourth :: others ->
      PersonIntelligence.last_name p = third /\
      split (PersonIntelligence.suffix p) = fourth :: others).
Proof.
  cbv zeta. unfold PersonIntelligence._parse_name, name_words.
  pose proof (split_words (strip full_name)) as Hwords.
  destruct (split (strip full_name)) as [|p0 [|p1 [|p2 [|p3 rest]]]] eqn:Hparts;
    cbn [PersonIntelligence.full_name PersonIntelligence.first_name
         PersonIntelligence.middle_name PersonIntelligence.last_name
         PersonIntelligence.suffix];
    do 3 try match goal with
             | H : Forall is_word (_ :: _) |- _ =>
                 apply Forall_cons in H as [[? _] H]
             end;
    try rewrite (split_join _ Hwords);
    (split; [done|]);
    (split; [|split; [by intros ? ?; simplify_eq|by intros ? ? ? ? ? ?; simplify_eq]]);
    rewrite !filter_cons, !filter_nil;
    rewrite ?(decide_False (P := "" <> "")) by (by intros Hne; apply Hne);
    rewrite ?decide_True by done; done.
Qed.

(** ** The statements on the sample collaborators *)

Lemma create_scan_twice_distinct_witness :
  "scan-0" <> "scan-1" /\
  w_scans (Database.create_scan Sample.env "example.org" "quick" Sample.created).2
    !! "scan-0" = Some Sample.row0.
Proof.
  destruct (create_scan_twice_distinct Sample.env "example.com" "full"
              "example.org" "quick" Sample.world "scan-0" Sample.created "scan-1"
              (Database.create_scan Sample.env "example.org" "quick" Sample.created).2
              eq_refl eq_refl) as (Hne & Hfirst & _).
  split; [exact Hne|exact Hfirst].
Defined.

Lemma create_scan_collision_witness :
  exists w',
    Database.create_scan Sample.env "example.org" "quick"
      (MkWorld {["scan-0" := Sample.row0]} true 0 0 []) =
    (Raise (PyExn "IntegrityError" "UNIQUE constraint failed: scans.scan_id"), w') /\
    w_scans w' = {["scan-0" := Sample.row0]}.
Proof.
  assert (Hkey : w_scans (MkWorld {["scan-0" := Sample.row0]} true 0 0 [])
                   !! env_uuid4 Sample.env 0 = Some Sample.row0)
    by (vm_compute; reflexivity).
  destruct (create_scan_collision Sample.env "example.org" "quick"
              (MkWorld {["scan-0" := Sample.row0]} true 0 0 []) Sample.row0
              eq_refl Hkey) as (w' & Hrun & Hscans & _).
  exists w'. split; [exact Hrun|exact Hscans].
Defined.


Lemma get_scan_after_create_witness :
  Database.get_scan Sample.env "scan-0" Sample.created =
  (Ok (Some (Database.MkScanRecord "scan-0" "example.com" "full" "running"
               "2024-01-01T00:00:00" None (JObj []) (JObj []))), Sample.created).
Proof.
  exact (get_scan_after_create Sample.env "example.com" "full" Sample.world "scan-0"
           Sample.created eq_refl).
Defined.

Lemma get_scan_after_save_witness :
  Database.get_scan Sample.env_decoding "scan-0" Sample.saved =
  (Ok (Some (Database.MkScanRecord "scan-0" "example.com" "full" "completed"
               "2024-01-01T00:00:00" (Some "2024-01-01T00:00:01")
               (JObj []) (JObj []))), Sample.saved).
Proof.
  exact (get_scan_after_save Sample.env_decoding "scan-0" [] Sample.analysis0
           Sample.created Sample.saved Sample.row0 "{}" "{}" (JObj []) (JObj [])
           eq_refl eq_refl eq_refl eq_refl eq_refl eq_refl).
Defined.

Lemma get_statistics_counts_witness :
  exists st w',
    Database.get_statistics Sample.env 0 Sample.saved = (Ok st, w') /\
    (Database.completed_scans st <= Database.total_scans st)%nat.
Proof.
  destruct (get_statistics_counts Sample.env 0 Sample.saved eq_refl)
    as (st & w' & Hrun & _ & Hle & _).
  exists st, w'. split; [exact Hrun|exact Hle].
Defined.

Lemma statistics_after_save_witness :
  scans_total Sample.saved = scans_total Sample.created /\
  scans_completed Sample.saved = (scans_completed Sample.created + 1)%nat.
Proof.
  exact (statistics_after_save Sample.env "scan-0" [] Sample.analysis0
           Sample.created Sample.saved eq_refl).
Defined.

Lemma start_scan_before_initialize_witness :
  exists w',
    App.start_scan Sample.env Sample.request Sample.uninitialized =
    (Raise (MkHTTPException 500 "'NoneType' object has no attribute 'cursor'"), w') /\
    w_scans w' = ∅ /\ w_log w' = [].
Proof.
  exact (start_scan_before_initialize Sample.env Sample.request Sample.uninitialized
           eq_refl).
Defined.

Lemma start_scan_keeps_other_records_witness :
  w_scans (App.start_scan Sample.env Sample.request Sample.created).2 !! "scan-0" =
  Some Sample.row0.
Proof.
  apply (start_scan_keeps_other_records Sample.env Sample.request Sample.created
           "scan-0" Sample.row0).
  vm_compute. reflexivity.
Defined.

Lemma start_scan_then_get_scan_witness :
  exists resp w' record,
    App.start_scan Sample.env_decoding Sample.request Sample.world = (Ok resp, w') /\
    Database.get_scan Sample.env_decoding (App.resp_scan_id resp) w' =
      (Ok (Some record), w') /\
    Database.rec_status record = "completed" /\
    Database.rec_results record = JObj [].
Proof.
  destruct (App.start_scan Sample.env_decoding Sample.request Sample.world)
    as [[resp|e] w'] eqn:Hrun; [|vm_compute in Hrun; discriminate Hrun].
  destruct (start_scan_then_get_scan Sample.env_decoding Sample.request Sample.world
              resp w' Hrun) as (results_json & analysis_json & Hdr & Hda & Hget).
  cbn in Hdr, Hda. injection Hdr as <-. injection Hda as <-.
  destruct (Hget (JObj []) (JObj []) eq_refl eq_refl) as (c & d & Hrecord).
  eexists resp, w', _. split; [reflexivity|]. split; [exact Hrecord|]. split; reflexivity.
Defined.

(** ** Security headers *)

Lemma present_count headers (names : list string) :
  length (filter (fun entry : string * string => entry.2 <> "Missing")
            ((fun name => (name, default "Missing" (headers name))) <$> names)) =
  length (filter (fun name => default "Missing" (headers name) <> "Missing") names).
Proof.
  induction names as [|name names IH]; [done|].
  rewrite fmap_cons, !filter_cons. cbn [snd].
  destruct (decide (default "Missing" (headers name) <> "Missing")); cbn; by rewrite IH.
Qed.

Lemma calculate_grade_of_seven (k : nat) :
  (k <= 7)%nat ->
  WebIntelligence._calculate_grade (Z.of_nat k) 7 =
  Ok (if (k =? 7)%nat then "A" else if (k =? 6)%nat then "B"
      else if (k =? 5)%nat then "C" else "F").
Proof.
  intros Hk. do 8 (destruct k as [|k]; [by vm_compute|]). lia.
Qed.

(** X29. The analysis of the security headers always returns.  Its score
    is the number of the seven headers that are present with a value other
    than the text "Missing", written over 7, and its grade follows from that
    number alone: A for seven, B for six, C for five and F for four or
    fewer.  The grade D is never given. *)
Theorem analyze_security_headers_grades headers :
  exists r,
    WebIntelligence._analyze_security_headers headers = Ok r /\
    (WebIntelligence.sh_headers r).*1 = WebIntelligence.security_header_names /\
    let k := length (present_headers headers) in
    (k <= 7)%nat /\
    WebIntelligence.sh_score r = pretty (Z.of_nat k) ++ "/7" /\
    WebIntelligence.sh_grade r =
      (if (k =? 7)%nat then "A" else if (k =? 6)%nat then "B"
       else if (k =? 5)%nat then "C" else "F") /\
    WebIntelligence.sh_grade r <> "D".
Proof.
  unfold WebIntelligence._analyze_security_headers. cbv zeta.
  rewrite present_count. fold (present_headers headers).
  assert (Hk : (length (present_headers headers) <= 7)%nat).
  { unfold present_headers. etrans; [apply length_filter|]. done. }
  rewrite (calculate_grade_of_seven _ Hk). eexists. split; [reflexivity|].
  cbn [WebIntelligence.sh_headers WebIntelligence.sh_score WebIntelligence.sh_grade].
  split; [done|]. split; [done|]. split; [done|]. split; [done|].
  by repeat case_match.
Qed.

(** ** The domain scan *)

Section DomainScan.
Import DomainIntelligence.
Variable env : Env.
Variable lk : Lookups.

Lemma dns_records_loop target :
  foldl (dns_step lk target) ([], [], [], []) record_types =
  ((fun record_type => (record_type, answers lk target record_type)) <$> record_types,
   answers lk target "A", answers lk target "NS", answers lk target "MX").
Proof.
  unfold record_types, answers. cbn [foldl fmap list_fmap]. unfold dns_step.
  destruct (resolve lk target "A"), (resolve lk target "AAAA"),
    (resolve lk target "MX"), (resolve lk target "NS"), (resolve lk target "TXT"),
    (resolve lk target "SOA"), (resolve lk target "CNAME"); reflexivity.
Qed.

Lemma subdomains_loop target (candidates : list string) : forall found,
  exists more,
    foldl (subdomain_step lk target) found candidates = (found ++ more)%list /\
    more.*1 `sublist_of` ((fun subdomain => subdomain ++ "." ++ target) <$> candidates) /\
    (forall name ips, (name, ips) ∈ more -> resolve lk name "A" = Ok ips).
Proof.
  induction candidates as [|c candidates IH]; intros found.
  - exists []. split; [by rewrite app_nil_r|]. split; [done|].
    intros ?? H. by apply elem_of_nil in H.
  - cbn [foldl]. unfold subdomain_step at 2.
    destruct (resolve lk (c ++ "." ++ target) "A") as [ips|] eqn:Hc.
    + destruct (IH (found ++ [(c +:+ "." +:+ target, ips)])%list)
        as (more & -> & Hsub & Hin).
      exists ((c +:+ "." +:+ target, ips) :: more). split; [by rewrite <- app_assoc|].
      split; [by apply sublist_skip|].
      intros name ips' [[= -> ->]|H]%elem_of_cons; [done|by apply Hin].
    + destruct (IH found) as (more & -> & Hsub & Hin).
      exists more. split; [done|]. split; [by apply sublist_cons|done].
Qed.

Lemma reverse_loop (ips : list string) : forall found,
  exists more,
    foldl (reverse_step lk) found ips = (found ++ more)%list /\
    more.*1 `sublist_of` ips /\
    (forall ip hostname, (ip, hostname) ∈ more -> gethostbyaddr lk ip = Ok hostname).
Proof.
  induction ips as [|ip ips IH]; intros found.
  - exists []. split; [by rewrite app_nil_r|]. split; [done|].
    intros ?? H. by apply elem_of_nil in H.
  - cbn [foldl]. unfold reverse_step at 2.
    destruct (gethostbyaddr lk ip) as [hostname|] eqn:Hip.
    + destruct (IH (found ++ [(ip, hostname)])%list) as (more & -> & Hsub & Hin).
      exists ((ip, hostname) :: more). split; [by rewrite <- app_assoc|].
      split; [by apply sublist_skip|].
      intros ip' h' [[= -> ->]|H]%elem_of_cons; [done|by apply Hin].
    + destruct (IH found) as (more & -> & Hsub & Hin).
      exists more. split; [done|]. split; [by apply sublist_cons|done].
Qed.

(** X30. Whatever the WHOIS, DNS and reverse lookups do, the domain scan
    returns.  Its DNS records have the seven record types as keys, in the
    order of the source, a failed query giving the empty list; the
    addresses, name servers and mail servers are the answers of the A, NS
    and MX queries; the subdomains are candidates of the fixed list under
    the target, in the order of the list, each with the answer of its own A
    query; and the reverse lookups are of addresses among the first five,
    in their order, each with the name its lookup returned. *)
Theorem domain_scan_always_returns target w :
  exists r w',
    scan env lk target w = (Ok r, w') /\
    dr_dns_records r =
      (fun record_type => (record_type, answers lk target record_type)) <$> record_types /\
    dr_ip_addresses r = answers lk target "A" /\
    dr_nameservers r = answers lk target "NS" /\
    dr_mail_servers r = answers lk target "MX" /\
    (dr_subdomains r).*1 `sublist_of`
      ((fun subdomain => subdomain ++ "." ++ target) <$> common_subdomains) /\
    (forall name ips, (name, ips) ∈ dr_subdomains r -> resolve lk name "A" = Ok ips) /\
    (dr_reverse_dns r).*1 `sublist_of` take 5 (dr_ip_addresses r) /\
    (length (dr_reverse_dns r) <= 5)%nat /\
    (forall ip hostname,
        (ip, hostname) ∈ dr_reverse_dns r -> gethostbyaddr lk ip = Ok hostname) /\
    w_scans w' = w_scans w /\ w_log w' = w_log w.
Proof.
  unfold scan. rewrite (bind_ok (utcnow env) _ w _ _ eq_refl).
  rewrite dns_records_loop.
  destruct (subdomains_loop target common_subdomains []) as (subs & -> & Hsub & Hsubs).
  destruct (reverse_loop (take 5 (answers lk target "A")) [])
    as (rev & -> & Hrev & Hrevs).
  eexists _, _. split; [reflexivity|].
  cbn [dr_dns_records dr_ip_addresses dr_nameservers dr_mail_servers dr_subdomains
       dr_reverse_dns app w_scans w_log].
  repeat split; try done.
  apply sublist_length in Hrev. rewrite length_fmap, length_take in Hrev. lia.
Qed.

End DomainScan.
